(** * Interview-to-user-stories: the consolidation pipeline

    A shallow embedding of the worker's post-extraction pipeline:

    - [worker/processors/deduplication.py]   (class [DeduplicationEngine])
    - [worker/processors/consistency_checker.py] (class [ConsistencyChecker])
    - [worker/processors/vector_processor.py] (class [VectorProcessor])
    - [worker/main.py] (the choice of the context pool)
    - [worker/processors/requirements_converter.py]
      ([_get_context_for_story])

    Conventions of the embedding.

    - A Python [str] is a [string]; its characters are 8-bit code points
      (Latin-1), classified as Python classifies them in that range.
    - A Python [float] is the rational number [Q] it denotes.  In
      [deduplication.py], whose scores are compared with a threshold and
      rounded for the output, the arithmetic is the one of binary64: a
      literal is the float nearest to the decimal ([0.4] is
      [Py.float 0.4], and [0.5] is [1 # 2]), and [+], [*], [/] round the
      exact result to the nearest float, ties to even (the notations of
      [%F]); [sum] adds from left to right.  Overflow is not represented:
      the scores stay below 2.
    - In [consistency_checker.py] and [vector_processor.py] the numbers
      are exact rationals ([0.6] is [6 # 10]): the similarities are added
      in the iteration order of a Python [set] and by [numpy], which
      leaves the last bit of a binary64 sum open.  The bounds and the
      values [1.0], [0.6] and [0.0] proved of the consistency score are
      those of the floats as well.
    - A story is a Python [dict] used as a struct: a record with one
      optional field per key the code reads or writes ([None] = key
      absent) and a finite map for every other key.
    - Library calls ([difflib], [sklearn], [hashlib], [json], [numpy], the
      embedding provider) are parameters, bundled in records.
    - A raised exception is a value [Raise e] of type [result]. *)

From Stdlib Require Import ZArith QArith Qabs Qround Qpower.
From Stdlib Require Import String Ascii List Bool Lia Lqa.
From Stdlib Require Import Permutation Sorted DecimalString.
From stdpp Require Import base gmap list strings.

Open Scope string_scope.
Open Scope list_scope.

(** ** Python built-ins used by the sources *)

Module Py.

(** *** Characters and strings *)

Definition between (lo hi n : nat) : bool := (lo <=? n)%nat && (n <=? hi)%nat.

(** [str.isspace] and the regular-expression class [\s]. *)
Definition isspace (c : ascii) : bool :=
  let n := nat_of_ascii c in
  between 9 13 n || between 28 32 n || (n =? 133)%nat || (n =? 160)%nat.

(** The regular-expression class [\w]. *)
Definition isword (c : ascii) : bool :=
  let n := nat_of_ascii c in
  between 48 57 n || between 65 90 n || (n =? 95)%nat || between 97 122 n
  || (n =? 170)%nat || between 178 179 n || (n =? 181)%nat
  || between 185 186 n || between 188 190 n || between 192 214 n
  || between 216 246 n || between 248 255 n.

Definition lower_char (c : ascii) : ascii :=
  let n := nat_of_ascii c in
  if between 65 90 n || between 192 214 n || between 216 222 n
  then ascii_of_nat (n + 32) else c.

(** [s.lower()] *)
Fixpoint lower (s : string) : string :=
  match s with
  | EmptyString => EmptyString
  | String c s' => String (lower_char c) (lower s')
  end.

(** Truth value of a string: [bool(s)]. *)
Definition nonempty (s : string) : bool :=
  match s with EmptyString => false | String _ _ => true end.

Fixpoint lstrip (s : string) : string :=
  match s with
  | EmptyString => EmptyString
  | String c s' => if isspace c then lstrip s' else s
  end.

Fixpoint rstrip (s : string) : string :=
  match s with
  | EmptyString => EmptyString
  | String c s' =>
      let r := rstrip s' in
      if negb (nonempty r) && isspace c then EmptyString else String c r
  end.

(** [s.strip()] *)
Definition strip (s : string) : string := rstrip (lstrip s).

Fixpoint split_aux (s : string) : string * list string :=
  match s with
  | EmptyString => (EmptyString, [])
  | String c s' =>
      let '(w, ws) := split_aux s' in
      if isspace c
      then (EmptyString, if nonempty w then w :: ws else ws)
      else (String c w, ws)
  end.

(** [s.split()]: the maximal runs of non-whitespace characters. *)
Definition split (s : string) : list string :=
  let '(w, ws) := split_aux s in if nonempty w then w :: ws else ws.

(** [s.split(d)] for a one-character separator: never empty. *)
Fixpoint split_on (d : ascii) (s : string) : list string :=
  match s with
  | EmptyString => [EmptyString]
  | String c s' =>
      match split_on d s' with
      | w :: ws => if Ascii.eqb c d then EmptyString :: w :: ws
                   else String c w :: ws
      | [] => [EmptyString]
      end
  end.

(** [sep.join(l)] *)
Definition join (sep : string) (l : list string) : string := String.concat sep l.

(** [sub in s] *)
Fixpoint contains (sub s : string) : bool :=
  String.prefix sub s
  || match s with
     | EmptyString => false
     | String _ s' => contains sub s'
     end.

Fixpoint drop_chars (n : nat) (s : string) : string :=
  match n, s with
  | S n', String _ s' => drop_chars n' s'
  | _, _ => s
  end.

(** [re.sub(r'[^\w\s]', ' ', s)] *)
Fixpoint sub_punctuation (s : string) : string :=
  match s with
  | EmptyString => EmptyString
  | String c s' =>
      String (if isword c || isspace c then c else " "%char) (sub_punctuation s')
  end.

(** [re.sub(r'\s+', ' ', s)]; [in_run] tells that the previous character
    was white space, already replaced. *)
Fixpoint sub_whitespace_runs (in_run : bool) (s : string) : string :=
  match s with
  | EmptyString => EmptyString
  | String c s' =>
      if isspace c
      then (if in_run then sub_whitespace_runs true s'
            else String " "%char (sub_whitespace_runs true s'))
      else String c (sub_whitespace_runs false s')
  end.

(** The text matched by [.+] at the head of [s]: up to the next newline. *)
Fixpoint dot_plus (s : string) : string :=
  match s with
  | EmptyString => EmptyString
  | String c s' => if (nat_of_ascii c =? 10)%nat then EmptyString
                   else String c (dot_plus s')
  end.

(** [re.search(r'so that (.+)', s)]: group 1 of the leftmost match. *)
Fixpoint search_so_that (s : string) : option string :=
  match s with
  | EmptyString => None
  | String _ s' =>
      let g := if String.prefix "so that " s then dot_plus (drop_chars 8 s)
               else EmptyString in
      if nonempty g then Some g else search_so_that s'
  end.

(** *** Sorting

    [sorted] and [list.sort] are stable and only use [<] on the keys:
    an element is inserted before the first element that is not
    smaller.  With [reverse=True] the order of the keys is flipped and
    equal keys still keep their original order. *)

Section Sorted.
Context {A K : Type} (ltb : K -> K -> bool) (key : A -> K).

Fixpoint insert_sorted (x : A) (l : list A) : list A :=
  match l with
  | [] => [x]
  | y :: l' => if ltb (key y) (key x) then y :: insert_sorted x l'
               else x :: l
  end.

Fixpoint sorted (l : list A) : list A :=
  match l with
  | [] => []
  | x :: l' => insert_sorted x (sorted l')
  end.
End Sorted.

Definition sorted_reverse {A K} (ltb : K -> K -> bool) (key : A -> K) :=
  sorted (fun a b => ltb b a) key.

(** [<] on pairs [(float, str)], as Python compares tuples. *)
Definition Qltb (x y : Q) : bool := negb (Qle_bool y x).

Definition pair_ltb (a b : Q * string) : bool :=
  if Qeq_bool (fst a) (fst b) then String.ltb (snd a) (snd b)
  else Qltb (fst a) (fst b).

(** [sorted(list(set(l)))] on strings. *)
Definition sorted_set (l : list string) : list string :=
  sorted String.ltb (fun s => s) (remove_dups l).

(** *** Slices and enumeration *)

(** [l[:k]] *)
Definition slice_to {A} (k : Z) (l : list A) : list A :=
  if (k <? 0)%Z then take (Z.to_nat (Z.of_nat (length l) + k)) l
  else take (Z.to_nat k) l.

(** [enumerate(l, start)] *)
Fixpoint enumerate_from {A} (start : nat) (l : list A) : list (nat * A) :=
  match l with
  | [] => []
  | x :: l' => (start, x) :: enumerate_from (S start) l'
  end.

Definition enumerate {A} (l : list A) := enumerate_from 0 l.

(** [l.index(x)] when [x in l], for the equality test [eqb]. *)
Fixpoint index_of {A} (eqb : A -> A -> bool) (x : A) (l : list A) : option nat :=
  match l with
  | [] => None
  | y :: l' => if eqb y x then Some 0%nat
               else option_map S (index_of eqb x l')
  end.

(** *** Numbers *)

(** Nearest integer, ties to the even one. *)
Definition round_half_even (x : Q) : Z :=
  let n := Qnum x in
  let d := Zpos (Qden x) in
  let q := (n / d)%Z in
  match (2 * (n mod d) ?= d)%Z with
  | Lt => q
  | Gt => (q + 1)%Z
  | Eq => if Z.even q then q else (q + 1)%Z
  end.

(** [round(x, 3)] of an exact rational. *)
Definition round3 (x : Q) : Q :=
  Qred (round_half_even (x * (1000 # 1)) # 1000).

(** [min(x, y)] *)
Definition min (x y : Q) : Q := if Qltb y x then y else x.

(** [sum(l)] of exact rationals. *)
Definition sum (l : list Q) : Q := fold_left Qplus l 0%Q.

(** [sum(l)] on integers. *)
Definition sum_int (l : list Z) : Z := fold_left Z.add l 0%Z.

(** *** Floats

    A binary64 number is [m * 2 ** e] for integers [|m| < 2 ** 53] and
    [-1074 <= e]; the bound of the format on [e] from above, and with it
    overflow, is not represented. *)

(** [2 ** e] *)
Definition pow2 (e : Z) : Q := (2 ^ e)%Q.

(** [floor(log2(x))] for [0 < x]. *)
Definition ilog2 (x : Q) : Z :=
  let k := (Z.log2 (Qnum x) - Z.log2 (Zpos (Qden x)))%Z in
  if Qle_bool (pow2 k) x then k else (k - 1)%Z.

(** The distance between the floats around [x], for [0 < x]: 53
    significant bits, and [2 ** -1074] for the subnormal numbers. *)
Definition ulp (x : Q) : Q := pow2 (Z.max (ilog2 x - 52) (-1074)).

(** The float nearest to [x], for [0 < x]; of two nearest floats, the one
    whose last bit is 0. *)
Definition nearest (x : Q) : Q :=
  let q := ulp x in Qred (inject_Z (round_half_even (x / q)) * q)%Q.

(** [float(x)]: the float nearest to the number [x]. *)
Definition float (x : Q) : Q :=
  match Qnum x with
  | Z0 => 0%Q
  | Zpos _ => nearest x
  | Zneg _ => (- nearest (- x))%Q
  end.

(** [x + y], [x - y], [x * y] and [x / y] on floats. *)
Definition fadd (x y : Q) : Q := float (x + y).
Definition fsub (x y : Q) : Q := float (x - y).
Definition fmul (x y : Q) : Q := float (x * y).
Definition fdiv (x y : Q) : Q := float (x / y).

(** [sum(l)] on floats: the additions are made from left to right, as
    CPython does up to version 3.11 (later versions compensate the
    rounding errors of the partial sums). *)
Definition fsum (l : list Q) : Q := fold_left fadd l 0%Q.

(** [round(x, ndigits)] on a float: the decimal with [ndigits] digits
    nearest to the value of [x], ties to the even last digit, and then
    the float nearest to that decimal. *)
Definition round (x : Q) (ndigits : nat) : Q :=
  let scale := inject_Z (10 ^ Z.of_nat ndigits) in
  float (inject_Z (round_half_even (x * scale)) / scale).

(** *** Exceptions *)

Inductive result (A : Type) : Type :=
| Ok (a : A)
| Raise (e : string).
Arguments Ok {A} a.
Arguments Raise {A} e.

Definition bind {A B} (r : result A) (k : A -> result B) : result B :=
  match r with
  | Ok a => k a
  | Raise e => Raise e
  end.

(** [l[i]] for a non-negative index. *)
Definition item {A} (l : list A) (i : nat) : result A :=
  match l !! i with
  | Some x => Ok x
  | None => Raise "IndexError"
  end.

(** A comprehension or loop whose body may raise: the first exception
    ends it. *)
Fixpoint for_each {A B} (body : A -> result B) (l : list A) : result (list B) :=
  match l with
  | [] => Ok []
  | x :: l' =>
      bind (body x) (fun y =>
      bind (for_each body l') (fun ys => Ok (y :: ys)))
  end.

(** *** Further built-ins *)

(** [str(n)] for an integer. *)
Definition str_of_nat (n : nat) : string :=
  NilZero.string_of_uint (Nat.to_uint n).

Definition str_of_Z (z : Z) : string :=
  NilZero.string_of_int (Z.to_int z).

(** [<] on lists of integers, as Python compares lists: the first
    position where they differ decides, and a proper prefix is smaller. *)
Fixpoint list_ltb (a b : list nat) : bool :=
  match a, b with
  | [], [] => false
  | [], _ :: _ => true
  | _ :: _, [] => false
  | x :: a', y :: b' => if (x =? y)%nat then list_ltb a' b' else (x <? y)%nat
  end.

(** [s.split(sep)] for a separator of one or more characters: the
    occurrences of [sep] are found from left to right and do not overlap.
    [skip] counts the characters of a found separator still to be passed. *)
Fixpoint split_sep (sep : string) (skip : nat) (s : string) : list string :=
  match s with
  | EmptyString => [EmptyString]
  | String c s' =>
      match skip with
      | S skip' => split_sep sep skip' s'
      | O =>
          if String.prefix sep s
          then EmptyString :: split_sep sep (String.length sep - 1) s'
          else match split_sep sep 0 s' with
               | w :: ws => String c w :: ws
               | [] => [String c EmptyString]
               end
      end
  end.

Definition split_str (sep s : string) : list string := split_sep sep 0 s.

End Py.

(** The arithmetic of floats, written as in the source inside [( )%F]. *)
Declare Scope py_float_scope.
Delimit Scope py_float_scope with F.
Arguments Py.fadd (x y)%_F.
Arguments Py.fsub (x y)%_F.
Arguments Py.fmul (x y)%_F.
Arguments Py.fdiv (x y)%_F.
Notation "x + y" := (Py.fadd x y) : py_float_scope.
Notation "x - y" := (Py.fsub x y) : py_float_scope.
Notation "x * y" := (Py.fmul x y) : py_float_scope.
Notation "x / y" := (Py.fdiv x y) : py_float_scope.

(** ** Stories

    A story is the [Dict[str, Any]] the engine passes around.  Each field
    is one key ([User_Story_ID] is the key ['User Story ID'], and so on);
    [None] means that the key is absent.  [other_keys] holds the keys the
    pipeline never looks at (['Team'], ['Lifecycle Phase'], ...). *)

Record Story : Type := mkStory {
  User_Story_ID : option string;
  User_Story : option string;
  Capability : option string;
  Snippet : option string;
  Category : option string;
  Priority : option string;
  Source : option string;
  Match_Score : option Q;
  Tags : option (list string);
  requirements : option (list string);
  acceptance_criteria : option (list string);
  Content_Hash : option string;
  clean_text : option string;
  clean_capability : option string;
  clean_snippet : option string;
  source_files : option (list string);
  duplicate_count : option nat;
  merge_hash : option string;
  other_keys : gmap string string
}.

(** [{}] *)
Definition empty_story : Story :=
  {| User_Story_ID := None;
     User_Story := None;
     Capability := None;
     Snippet := None;
     Category := None;
     Priority := None;
     Source := None;
     Match_Score := None;
     Tags := None;
     requirements := None;
     acceptance_criteria := None;
     Content_Hash := None;
     clean_text := None;
     clean_capability := None;
     clean_snippet := None;
     source_files := None;
     duplicate_count := None;
     merge_hash := None;
     other_keys := ∅ |}.

(** [s[key] = v] on a copy of [s], one definition per assigned key. *)
Definition set_clean_text (v : string) (s : Story) : Story :=
  {| User_Story_ID := User_Story_ID s; User_Story := User_Story s;
     Capability := Capability s; Snippet := Snippet s;
     Category := Category s; Priority := Priority s; Source := Source s;
     Match_Score := Match_Score s; Tags := Tags s;
     requirements := requirements s;
     acceptance_criteria := acceptance_criteria s;
     Content_Hash := Content_Hash s; clean_text := Some v;
     clean_capability := clean_capability s;
     clean_snippet := clean_snippet s; source_files := source_files s;
     duplicate_count := duplicate_count s; merge_hash := merge_hash s;
     other_keys := other_keys s |}.

Definition set_clean_capability (v : string) (s : Story) : Story :=
  {| User_Story_ID := User_Story_ID s; User_Story := User_Story s;
     Capability := Capability s; Snippet := Snippet s;
     Category := Category s; Priority := Priority s; Source := Source s;
     Match_Score := Match_Score s; Tags := Tags s;
     requirements := requirements s;
     acceptance_criteria := acceptance_criteria s;
     Content_Hash := Content_Hash s; clean_text := clean_text s;
     clean_capability := Some v; clean_snippet := clean_snippet s;
     source_files := source_files s; duplicate_count := duplicate_count s;
     merge_hash := merge_hash s; other_keys := other_keys s |}.

Definition set_clean_snippet (v : string) (s : Story) : Story :=
  {| User_Story_ID := User_Story_ID s; User_Story := User_Story s;
     Capability := Capability s; Snippet := Snippet s;
     Category := Category s; Priority := Priority s; Source := Source s;
     Match_Score := Match_Score s; Tags := Tags s;
     requirements := requirements s;
     acceptance_criteria := acceptance_criteria s;
     Content_Hash := Content_Hash s; clean_text := clean_text s;
     clean_capability := clean_capability s; clean_snippet := Some v;
     source_files := source_files s; duplicate_count := duplicate_count s;
     merge_hash := merge_hash s; other_keys := other_keys s |}.

Definition set_User_Story (v : string) (s : Story) : Story :=
  {| User_Story_ID := User_Story_ID s; User_Story := Some v;
     Capability := Capability s; Snippet := Snippet s;
     Category := Category s; Priority := Priority s; Source := Source s;
     Match_Score := Match_Score s; Tags := Tags s;
     requirements := requirements s;
     acceptance_criteria := acceptance_criteria s;
     Content_Hash := Content_Hash s; clean_text := clean_text s;
     clean_capability := clean_capability s;
     clean_snippet := clean_snippet s; source_files := source_files s;
     duplicate_count := duplicate_count s; merge_hash := merge_hash s;
     other_keys := other_keys s |}.

Definition set_Capability (v : string) (s : Story) : Story :=
  {| User_Story_ID := User_Story_ID s; User_Story := User_Story s;
     Capability := Some v; Snippet := Snippet s; Category := Category s;
     Priority := Priority s; Source := Source s;
     Match_Score := Match_Score s; Tags := Tags s;
     requirements := requirements s;
     acceptance_criteria := acceptance_criteria s;
     Content_Hash := Content_Hash s; clean_text := clean_text s;
     clean_capability := clean_capability s;
     clean_snippet := clean_snippet s; source_files := source_files s;
     duplicate_count := duplicate_count s; merge_hash := merge_hash s;
     other_keys := other_keys s |}.

Definition set_Snippet (v : string) (s : Story) : Story :=
  {| User_Story_ID := User_Story_ID s; User_Story := User_Story s;
     Capability := Capability s; Snippet := Some v; Category := Category s;
     Priority := Priority s; Source := Source s;
     Match_Score := Match_Score s; Tags := Tags s;
     requirements := requirements s;
     acceptance_criteria := acceptance_criteria s;
     Content_Hash := Content_Hash s; clean_text := clean_text s;
     clean_capability := clean_capability s;
     clean_snippet := clean_snippet s; source_files := source_files s;
     duplicate_count := duplicate_count s; merge_hash := merge_hash s;
     other_keys := other_keys s |}.

Definition set_Tags (v : list string) (s : Story) : Story :=
  {| User_Story_ID := User_Story_ID s; User_Story := User_Story s;
     Capability := Capability s; Snippet := Snippet s;
     Category := Category s; Priority := Priority s; Source := Source s;
     Match_Score := Match_Score s; Tags := Some v;
     requirements := requirements s;
     acceptance_criteria := acceptance_criteria s;
     Content_Hash := Content_Hash s; clean_text := clean_text s;
     clean_capability := clean_capability s;
     clean_snippet := clean_snippet s; source_files := source_files s;
     duplicate_count := duplicate_count s; merge_hash := merge_hash s;
     other_keys := other_keys s |}.

Definition set_requirements (v : list string) (s : Story) : Story :=
  {| User_Story_ID := User_Story_ID s; User_Story := User_Story s;
     Capability := Capability s; Snippet := Snippet s;
     Category := Category s; Priority := Priority s; Source := Source s;
     Match_Score := Match_Score s; Tags := Tags s; requirements := Some v;
     acceptance_criteria := acceptance_criteria s;
     Content_Hash := Content_Hash s; clean_text := clean_text s;
     clean_capability := clean_capability s;
     clean_snippet := clean_snippet s; source_files := source_files s;
     duplicate_count := duplicate_count s; merge_hash := merge_hash s;
     other_keys := other_keys s |}.

Definition set_acceptance_criteria (v : list string) (s : Story) : Story :=
  {| User_Story_ID := User_Story_ID s; User_Story := User_Story s;
     Capability := Capability s; Snippet := Snippet s;
     Category := Category s; Priority := Priority s; Source := Source s;
     Match_Score := Match_Score s; Tags := Tags s;
     requirements := requirements s; acceptance_criteria := Some v;
     Content_Hash := Content_Hash s; clean_text := clean_text s;
     clean_capability := clean_capability s;
     clean_snippet := clean_snippet s; source_files := source_files s;
     duplicate_count := duplicate_count s; merge_hash := merge_hash s;
     other_keys := other_keys s |}.

Definition set_source_files (v : list string) (s : Story) : Story :=
  {| User_Story_ID := User_Story_ID s; User_Story := User_Story s;
     Capability := Capability s; Snippet := Snippet s;
     Category := Category s; Priority := Priority s; Source := Source s;
     Match_Score := Match_Score s; Tags := Tags s;
     requirements := requirements s;
     acceptance_criteria := acceptance_criteria s;
     Content_Hash := Content_Hash s; clean_text := clean_text s;
     clean_capability := clean_capability s;
     clean_snippet := clean_snippet s; source_files := Some v;
     duplicate_count := duplicate_count s; merge_hash := merge_hash s;
     other_keys := other_keys s |}.

Definition set_duplicate_count (v : nat) (s : Story) : Story :=
  {| User_Story_ID := User_Story_ID s; User_Story := User_Story s;
     Capability := Capability s; Snippet := Snippet s;
     Category := Category s; Priority := Priority s; Source := Source s;
     Match_Score := Match_Score s; Tags := Tags s;
     requirements := requirements s;
     acceptance_criteria := acceptance_criteria s;
     Content_Hash := Content_Hash s; clean_text := clean_text s;
     clean_capability := clean_capability s;
     clean_snippet := clean_snippet s; source_files := source_files s;
     duplicate_count := Some v; merge_hash := merge_hash s;
     other_keys := other_keys s |}.

Definition set_Match_Score (v : Q) (s : Story) : Story :=
  {| User_Story_ID := User_Story_ID s; User_Story := User_Story s;
     Capability := Capability s; Snippet := Snippet s;
     Category := Category s; Priority := Priority s; Source := Source s;
     Match_Score := Some v; Tags := Tags s; requirements := requirements s;
     acceptance_criteria := acceptance_criteria s;
     Content_Hash := Content_Hash s; clean_text := clean_text s;
     clean_capability := clean_capability s;
     clean_snippet := clean_snippet s; source_files := source_files s;
     duplicate_count := duplicate_count s; merge_hash := merge_hash s;
     other_keys := other_keys s |}.

Definition set_merge_hash (v : string) (s : Story) : Story :=
  {| User_Story_ID := User_Story_ID s; User_Story := User_Story s;
     Capability := Capability s; Snippet := Snippet s;
     Category := Category s; Priority := Priority s; Source := Source s;
     Match_Score := Match_Score s; Tags := Tags s;
     requirements := requirements s;
     acceptance_criteria := acceptance_criteria s;
     Content_Hash := Content_Hash s; clean_text := clean_text s;
     clean_capability := clean_capability s;
     clean_snippet := clean_snippet s; source_files := source_files s;
     duplicate_count := duplicate_count s; merge_hash := Some v;
     other_keys := other_keys s |}.

(** [d.get(key, default)] for the keys read with a default. *)
Definition get {A} (field : Story -> option A) (default : A) (s : Story) : A :=
  match field s with
  | Some v => v
  | None => default
  end.

(** Truth value of [d.get(key)]: the key is present and its value is
    neither the empty string nor the empty list. *)
Definition truthy_str (field : Story -> option string) (s : Story) : bool :=
  match field s with
  | Some v => Py.nonempty v
  | None => false
  end.

Definition truthy_list (field : Story -> option (list string)) (s : Story) : bool :=
  match field s with
  | Some (_ :: _) => true
  | _ => false
  end.

(** [a == b] on stories: key by key, numbers compared by value. *)
Definition score_eqb (a b : option Q) : bool :=
  match a, b with
  | Some x, Some y => Qeq_bool x y
  | None, None => true
  | _, _ => false
  end.

Definition story_eqb (a b : Story) : bool :=
  bool_decide (User_Story_ID a = User_Story_ID b)
  && bool_decide (User_Story a = User_Story b)
  && bool_decide (Capability a = Capability b)
  && bool_decide (Snippet a = Snippet b)
  && bool_decide (Category a = Category b)
  && bool_decide (Priority a = Priority b)
  && bool_decide (Source a = Source b)
  && score_eqb (Match_Score a) (Match_Score b)
  && bool_decide (Tags a = Tags b)
  && bool_decide (requirements a = requirements b)
  && bool_decide (acceptance_criteria a = acceptance_criteria b)
  && bool_decide (Content_Hash a = Content_Hash b)
  && bool_decide (clean_text a = clean_text b)
  && bool_decide (clean_capability a = clean_capability b)
  && bool_decide (clean_snippet a = clean_snippet b)
  && bool_decide (source_files a = source_files b)
  && bool_decide (duplicate_count a = duplicate_count b)
  && bool_decide (merge_hash a = merge_hash b)
  && bool_decide (other_keys a = other_keys b).

(** The sort key [x.get('User Story ID', '')]. *)
Definition story_id (s : Story) : string := get User_Story_ID "" s.

(** ** Library calls of the deduplication engine *)

Record Libraries : Type := {
  (** [difflib.SequenceMatcher(None, a, b).ratio()] *)
  SequenceMatcher_ratio : string -> string -> Q;
  (** [cosine_similarity] of the two rows of
      [self.vectorizer.fit_transform([text1, text2])]; the vectorizer is
      refitted on every pair.  [Raise] when the library raises. *)
  tfidf_cosine_similarity : string -> string -> Py.result Q;
  (** [hashlib.md5(s.encode()).hexdigest()] *)
  md5_hexdigest : string -> string
}.

(** ** [DeduplicationEngine] *)

Section DeduplicationEngine.

Context (lib : Libraries).
(** [self.similarity_threshold]; the constructor's default is [0.7]. *)
Context (similarity_threshold : Q).

Local Open Scope Q_scope.

Definition filler_words : list string :=
  ["the"; "a"; "an"; "and"; "or"; "but"; "in"; "on"; "at"; "to"; "for";
   "of"; "with"; "by"].

Definition _normalize_text (text : string) : string :=
  if negb (Py.nonempty text) then ""
  else
    let text := Py.lower text in
    let text := Py.sub_punctuation text in
    let text := Py.strip (Py.sub_whitespace_runs false text) in
    let words := Py.split text in
    let words := filter (fun word => word ∉ filler_words) words in
    Py.join " " words.

Definition clean_story (story : Story) : Story :=
  let cleaned_story := story in
  let cleaned_story :=
    match User_Story cleaned_story with
    | Some t => set_clean_text (_normalize_text t) cleaned_story
    | None => cleaned_story
    end in
  let cleaned_story :=
    match Capability cleaned_story with
    | Some t => set_clean_capability (_normalize_text t) cleaned_story
    | None => cleaned_story
    end in
  match Snippet cleaned_story with
  | Some t => set_clean_snippet (_normalize_text t) cleaned_story
  | None => cleaned_story
  end.

Definition _clean_stories (stories : list Story) : list Story :=
  map clean_story stories.

(** [len(x) / len(y)] *)
Definition ratio_of (i u : nat) : Q :=
  (inject_Z (Z.of_nat i) / inject_Z (Z.of_nat u))%F.

Definition _calculate_text_similarity (story1 story2 : Story) : Q :=
  let text1 := get clean_text "" story1 in
  let text2 := get clean_text "" story2 in
  if negb (Py.nonempty text1) || negb (Py.nonempty text2) then 0
  else
    let words1 : gset string := list_to_set (Py.split text1) in
    let words2 : gset string := list_to_set (Py.split text2) in
    if bool_decide (words1 = ∅) || bool_decide (words2 = ∅) then 0
    else
      let intersection := size (words1 ∩ words2) in
      let union := size (words1 ∪ words2) in
      if (0 <? union)%nat then ratio_of intersection union else 0.

Definition _calculate_capability_similarity (story1 story2 : Story) : Q :=
  let cap1 := get clean_capability "" story1 in
  let cap2 := get clean_capability "" story2 in
  if negb (Py.nonempty cap1) || negb (Py.nonempty cap2) then 0
  else SequenceMatcher_ratio lib cap1 cap2.

Definition _calculate_semantic_similarity (story1 story2 : Story) : Q :=
  let text1 := get clean_text "" story1 +:+ " " +:+ get clean_capability "" story1 in
  let text2 := get clean_text "" story2 +:+ " " +:+ get clean_capability "" story2 in
  if negb (Py.nonempty (Py.strip text1)) || negb (Py.nonempty (Py.strip text2))
  then 0
  else
    match tfidf_cosine_similarity lib text1 text2 with
    | Py.Ok similarity => similarity
    | Py.Raise _ => 0
    end.

Definition weighted_similarity (story1 story2 : Story) : Q :=
  let text_similarity := _calculate_text_similarity story1 story2 in
  let capability_similarity := _calculate_capability_similarity story1 story2 in
  let semantic_similarity := _calculate_semantic_similarity story1 story2 in
  (text_similarity * Py.float 0.4
   + capability_similarity * Py.float 0.4
   + semantic_similarity * Py.float 0.2)%F.

Definition _are_stories_similar (story1 story2 : Story) : bool :=
  Qle_bool similarity_threshold (weighted_similarity story1 story2).

(** The inner loop of [_find_duplicates], one iteration: [story] is the
    first member of the group under construction. *)
Definition scan_candidate (story : Story)
    (state : list nat * gset nat) (entry : nat * Story)
    : list nat * gset nat :=
  let '(current_group, processed) := state in
  let '(j, other_story) := entry in
  if bool_decide (j ∈ processed) then state
  else if _are_stories_similar story other_story
       then (current_group ++ [j], {[j]} ∪ processed)
       else state.

(** The outer loop, one iteration. *)
Definition scan_story (stories : list Story)
    (state : list (list nat) * gset nat) (entry : nat * Story)
    : list (list nat) * gset nat :=
  let '(duplicate_groups, processed) := state in
  let '(i, story) := entry in
  if bool_decide (i ∈ processed) then state
  else
    let '(current_group, processed) :=
      fold_left (scan_candidate story)
        (Py.enumerate_from (i + 1) (drop (i + 1) stories))
        ([i], {[i]} ∪ processed) in
    if (1 <? length current_group)%nat
    then (duplicate_groups ++ [Py.sorted Nat.ltb (fun n => n) current_group],
          processed)
    else (duplicate_groups, processed).

Definition _find_duplicates (stories : list Story) : list (list nat) :=
  let '(duplicate_groups, _) :=
    fold_left (scan_story stories) (Py.enumerate stories) ([], ∅) in
  Py.sorted Nat.ltb (hd 0%nat) duplicate_groups.

Definition append_sentences (longest_text merged_text text : string) : string :=
  if String.eqb text longest_text then merged_text
  else
    fold_left
      (fun merged_text sentence =>
         let sentence := Py.strip sentence in
         if Py.nonempty sentence && negb (Py.contains sentence merged_text)
         then merged_text +:+ ". " +:+ sentence
         else merged_text)
      (Py.split_on "."%char text) merged_text.

Definition _merge_text_fields (texts : list string) : string :=
  match texts with
  | [] => ""
  | _ =>
      let texts :=
        List.filter (fun t => Py.nonempty t && Py.nonempty (Py.strip t)) texts in
      match texts with
      | [] => ""
      | [t] => t
      | _ =>
          let sorted_texts := Py.sorted_reverse Nat.ltb String.length texts in
          match sorted_texts with
          | longest_text :: rest =>
              fold_left (append_sentences longest_text) rest longest_text
          | [] => ""
          end
      end
  end.

Definition _generate_merge_hash (story_group : list Story) : string :=
  let story_ids := Py.sorted String.ltb (fun s => s) (map story_id story_group) in
  let merge_string := Py.join "|" story_ids in
  md5_hexdigest lib merge_string.

(** The lists under [key] of the stories that have the key, chained. *)
Definition extend_all (key : Story -> option (list string))
    (sorted_group : list Story) : list string :=
  concat (map (fun story => default [] (key story)) sorted_group).

Definition _merge_story_group (story_group : list Story) : Story :=
  match story_group with
  | [] => empty_story
  | _ =>
      let sorted_group := Py.sorted String.ltb story_id story_group in
      match sorted_group with
      | [] => empty_story
      | first :: _ =>
          let merged := first in
          let merged := set_User_Story
            (_merge_text_fields (map (get User_Story "") sorted_group)) merged in
          let merged := set_Capability
            (_merge_text_fields (map (get Capability "") sorted_group)) merged in
          let merged := set_Snippet
            (_merge_text_fields (map (get Snippet "") sorted_group)) merged in
          let merged := set_Tags
            (Py.sorted_set (extend_all Tags sorted_group)) merged in
          let merged := set_requirements
            (Py.sorted_set (extend_all requirements sorted_group)) merged in
          let merged := set_acceptance_criteria
            (Py.sorted_set (extend_all acceptance_criteria sorted_group)) merged in
          let merged := set_source_files
            (Py.sorted String.ltb (fun s => s)
               (List.filter Py.nonempty (map (get Source "") sorted_group)))
            merged in
          let merged := set_duplicate_count (length sorted_group) merged in
          let confidences := map (get Match_Score (1 # 2)) sorted_group in
          let merged := set_Match_Score
            (Py.round (Py.fsum confidences
                       / Py.float (inject_Z (Z.of_nat (length confidences))))%F
               3) merged in
          set_merge_hash (_generate_merge_hash sorted_group) merged
      end
  end.

Definition _calculate_quality_score (story : Story) : Q :=
  let score := 1 # 2 in
  let user_story := get User_Story "" story in
  let score :=
    if Py.contains "as a" (Py.lower user_story)
       && Py.contains "i need" (Py.lower user_story)
       && Py.contains "so that" (Py.lower user_story)
    then (score + Py.float 0.2)%F else score in
  let capability := get Capability "" story in
  let score :=
    if (20 <? String.length capability)%nat
    then (score + Py.float 0.1)%F else score in
  let benefit_match := Py.search_so_that (Py.lower user_story) in
  let score :=
    match benefit_match with
    | Some group1 =>
        if (10 <? String.length group1)%nat
        then (score + Py.float 0.1)%F else score
    | None => score
    end in
  let score :=
    if truthy_list Tags story && (1 <? length (default [] (Tags story)))%nat
    then (score + Py.float 0.1)%F else score in
  Py.min score 1.

Definition required_fields : list (Story -> bool) :=
  [truthy_str User_Story; truthy_str Capability; truthy_str Category;
   truthy_str Priority].

Definition optional_fields : list (Story -> bool) :=
  [truthy_str Snippet; truthy_list Tags; truthy_list requirements;
   truthy_list acceptance_criteria].

Definition _calculate_completeness_score (story : Story) : Q :=
  let score := 1 # 2 in
  let score :=
    fold_left (fun score (field : Story -> bool) =>
                 if field story then (score + Py.float 0.1)%F else score)
      required_fields score in
  let score :=
    fold_left (fun score (field : Story -> bool) =>
                 if field story then (score + Py.float 0.05)%F else score)
      optional_fields score in
  Py.min score 1.

(** *** Methods reached through [self]

    [_merge_duplicates] and [_calculate_final_scores] call three methods
    on [self] for every group and every story.  They are taken from a
    record, so that what the callers do when one of the calls raises can
    be stated; [engine] holds the class's own methods, which return. *)

Record Methods : Type := {
  call_merge_story_group : list Story -> Py.result Story;
  call_calculate_quality_score : Story -> Py.result Q;
  call_calculate_completeness_score : Story -> Py.result Q
}.

Definition engine : Methods :=
  {| call_merge_story_group := fun story_group =>
       Py.Ok (_merge_story_group story_group);
     call_calculate_quality_score := fun story =>
       Py.Ok (_calculate_quality_score story);
     call_calculate_completeness_score := fun story =>
       Py.Ok (_calculate_completeness_score story) |}.

Section Self.
Context (self : Methods).

(** The first loop of [_merge_duplicates], one iteration. *)
Definition merge_group (stories : list Story)
    (state : list Story * gset nat) (group : list nat)
    : Py.result (list Story * gset nat) :=
  let '(merged_stories, merged_indices) := state in
  if (length group =? 1)%nat then Py.Ok state
  else
    Py.bind (Py.for_each (Py.item stories) group) (fun members =>
    Py.bind (call_merge_story_group self members) (fun merged_story =>
    Py.Ok (merged_stories ++ [merged_story],
           merged_indices ∪ list_to_set group))).

(** The sort key [stories.index(x) if x in stories else 999999]. *)
Definition original_index (stories : list Story) (x : Story) : Z :=
  match Py.index_of story_eqb x stories with
  | Some i => Z.of_nat i
  | None => 999999
  end.

Definition _merge_duplicates (stories : list Story)
    (duplicate_groups : list (list nat)) : Py.result (list Story) :=
  Py.bind
    (fold_left (fun state group =>
                  Py.bind state (fun state => merge_group stories state group))
       duplicate_groups (Py.Ok ([], ∅)))
    (fun '(merged_stories, merged_indices) =>
       let merged_stories :=
         merged_stories
         ++ map snd
              (List.filter
                 (fun entry => negb (bool_decide (fst entry ∈ merged_indices)))
                 (Py.enumerate stories)) in
       Py.Ok (Py.sorted Z.ltb (original_index stories) merged_stories)).

(** The body of the loop of [_calculate_final_scores]. *)
Definition score_story (story : Story) : Py.result Story :=
  let scored_story := story in
  let base_score := get Match_Score (1 # 2) story in
  Py.bind (call_calculate_quality_score self story) (fun quality_score =>
  Py.bind (call_calculate_completeness_score self story)
    (fun completeness_score =>
  let final_score :=
    (base_score * Py.float 0.5
     + quality_score * Py.float 0.3
     + completeness_score * Py.float 0.2)%F in
  Py.Ok (set_Match_Score (Py.round final_score 3) scored_story))).

Definition _calculate_final_scores (stories : list Story)
    : Py.result (list Story) :=
  Py.for_each score_story stories.

(** The final sort key [(-x.get('Match Score', 0), x.get('User Story ID', ''))]. *)
Definition output_key (x : Story) : Q * string :=
  (- get Match_Score 0 x, story_id x)%Q.

Definition deduplicate_and_score (stories : list Story)
    : Py.result (list Story) :=
  match stories with
  | [] => Py.Ok []
  | _ =>
      let sorted_stories := Py.sorted String.ltb story_id stories in
      let cleaned_stories := _clean_stories sorted_stories in
      let duplicate_groups := _find_duplicates cleaned_stories in
      Py.bind (_merge_duplicates cleaned_stories duplicate_groups)
        (fun merged_stories =>
      Py.bind (_calculate_final_scores merged_stories)
        (fun scored_stories =>
      Py.Ok (Py.sorted Py.pair_ltb output_key scored_stories)))
  end.
End Self.

End DeduplicationEngine.

(** The constructor's default [similarity_threshold=0.7]. *)
Definition default_similarity_threshold : Q := Py.float 0.7.

(** ** [ConsistencyChecker] *)

(** One entry of [story_data] in [_generate_output_hash]. *)
Record StoryData : Type := {
  sd_id : string;
  sd_story : string;
  sd_category : string;
  sd_priority : string;
  sd_score : Q;
  sd_tags : list string;
  sd_content_hash : string
}.

(** The parsed content of one cache file [<input_hash>.json]. *)
Record CacheData : Type := {
  timestamp : string;
  output_hash : string;
  stories : list Story;
  metadata : gmap string string;
  story_count : nat
}.

(** The ['differences'] entry of an inconsistent result.  The source
    iterates over Python sets, whose order is unspecified: identifiers are
    kept as sets and the changed stories as a map from their identifier. *)
Record Differences : Type := {
  added_stories : nat;
  removed_stories : nat;
  common_stories : nat;
  total_changes : nat;
  changed_stories : gmap string (Q * Story * Story);
  added : gset string;
  removed : gset string;
  significantly_changed : nat
}.

(** The dictionary returned by [check_consistency]. *)
Record ConsistencyResult : Type := {
  is_consistent : bool;
  message : string;
  previous_run : option string;
  consistency_score : Q;
  cached_hash : option string;
  current_hash : string;
  differences : option Differences
}.

Section ConsistencyChecker.

(** [hashlib.md5(s.encode()).hexdigest()] *)
Context (md5_hexdigest : string -> string).
(** [json.dumps(story_data, sort_keys=True, separators=(',', ':'))] *)
Context (json_dumps : list StoryData -> string).

Local Open Scope Q_scope.

(** The directory [self.cache_dir] is a map [cache] from input hashes to
    the parsed content of their files: [check_consistency] and
    [cache_output] reach the file of [input_hash] by the same path,
    [os.path.join(self.cache_dir, f"{input_hash}.json")].  The map
    relates the write and the reads of one input hash.  That two hashes
    name two files, and that the file can be written, holds for the
    hexadecimal digests that [generate_input_hash] returns, not for
    every string. *)

Definition story_data_of (story : Story) : StoryData :=
  {| sd_id := get User_Story_ID "" story;
     sd_story := get User_Story "" story;
     sd_category := get Category "" story;
     sd_priority := get Priority "" story;
     sd_score := get Match_Score 0 story;
     sd_tags := Py.sorted String.ltb (fun s => s) (get Tags [] story);
     sd_content_hash := get Content_Hash "" story |}.

Definition _generate_output_hash (stories : list Story) : string :=
  let sorted_stories := Py.sorted String.ltb story_id stories in
  let story_data := map story_data_of sorted_stories in
  let output_string := json_dumps story_data in
  md5_hexdigest output_string.

(** Number of positions at which the two strings agree. *)
Fixpoint matching_positions (text1 text2 : string) : nat :=
  match text1, text2 with
  | String c1 t1, String c2 t2 =>
      (if Ascii.eqb c1 c2 then 1 else 0) + matching_positions t1 t2
  | _, _ => 0
  end.

Definition _text_similarity (text1 text2 : string) : Q :=
  if negb (Py.nonempty text1) || negb (Py.nonempty text2) then 0
  else
    let text1_lower := Py.lower text1 in
    let text2_lower := Py.lower text2 in
    if String.eqb text1_lower text2_lower then 1
    else
      let max_len :=
        Nat.max (String.length text1_lower) (String.length text2_lower) in
      if (max_len =? 0)%nat then 1
      else inject_Z (Z.of_nat (matching_positions text1_lower text2_lower))
           / inject_Z (Z.of_nat max_len).

(** One field of [fields_to_compare] holding text ([''] when absent). *)
Definition text_field_similarity (val1 val2 : string) : Q :=
  if String.eqb val1 val2 then 1
  else if Py.nonempty val1 && Py.nonempty val2
       then _text_similarity val1 val2
       else 0.

(** The field ['Match Score']: a number, or [''] when absent. *)
Definition score_field_similarity (val1 val2 : option Q) : Q :=
  match val1, val2 with
  | None, None => 1
  | Some v1, Some v2 =>
      if Qeq_bool v1 v2 then 1
      else if Qeq_bool v1 0 && Qeq_bool v2 0 then 1
      else
        let max_val := Qabs v1 in
        let max_val := if Py.Qltb max_val (Qabs v2) then Qabs v2 else max_val in
        if Qeq_bool max_val 0 then 1
        else
          let diff := Qabs (v1 - v2) in
          let sim := 1 - diff / max_val in
          if Py.Qltb sim 0 then 0 else sim
  | _, _ => 0
  end.

Definition _calculate_story_similarity (story1 story2 : Story) : Q :=
  let similarities :=
    [text_field_similarity (get User_Story "" story1) (get User_Story "" story2);
     text_field_similarity (get Category "" story1) (get Category "" story2);
     text_field_similarity (get Priority "" story1) (get Priority "" story2);
     score_field_similarity (Match_Score story1) (Match_Score story2)] in
  Py.sum similarities / inject_Z (Z.of_nat (length similarities)).

Definition id_set (stories : list Story) : gset string :=
  list_to_set (map story_id stories).

(** [next((s for s in stories if s.get('User Story ID') == story_id), None)] *)
Definition find_story (story_id : string) (stories : list Story) : option Story :=
  List.find (fun s => bool_decide (User_Story_ID s = Some story_id)) stories.

(** The similarities of the stories found on both sides, per identifier. *)
Definition common_similarities (cached_stories current_stories : list Story)
    : list (string * (Q * Story * Story)) :=
  omap (fun story_id =>
          match find_story story_id cached_stories,
                find_story story_id current_stories with
          | Some cached_story, Some current_story =>
              Some (story_id,
                    (_calculate_story_similarity cached_story current_story,
                     cached_story, current_story))
          | _, _ => None
          end)
       (elements (id_set cached_stories ∩ id_set current_stories)).

Definition _calculate_consistency_score
    (cached_stories current_stories : list Story) : Q :=
  match cached_stories, current_stories with
  | [], _ | _, [] => 0
  | _, _ =>
      let cached_ids := id_set cached_stories in
      let current_ids := id_set current_stories in
      let common_ids := cached_ids ∩ current_ids in
      let total_ids := cached_ids ∪ current_ids in
      if bool_decide (total_ids = ∅) then 0
      else
        let id_score :=
          inject_Z (Z.of_nat (size common_ids))
          / inject_Z (Z.of_nat (size total_ids)) in
        let similarities :=
          map (fun entry => fst (fst (snd entry)))
            (common_similarities cached_stories current_stories) in
        let content_similarity :=
          match similarities with
          | [] => 0
          | _ => Py.sum similarities / inject_Z (Z.of_nat (length similarities))
          end in
        let final_score := id_score * (6 # 10) + content_similarity * (4 # 10) in
        Py.round3 final_score
  end.

Definition _identify_differences
    (cached_stories current_stories : list Story) : Differences :=
  let cached_ids := id_set cached_stories in
  let current_ids := id_set current_stories in
  let added_ids := current_ids ∖ cached_ids in
  let removed_ids := cached_ids ∖ current_ids in
  let common_ids := cached_ids ∩ current_ids in
  let changed :=
    List.filter (fun entry => Py.Qltb (fst (fst (snd entry))) (9 # 10))
      (common_similarities cached_stories current_stories) in
  {| added_stories := size added_ids;
     removed_stories := size removed_ids;
     common_stories := size common_ids;
     total_changes := size added_ids + size removed_ids;
     changed_stories := list_to_map changed;
     added := added_ids;
     removed := removed_ids;
     significantly_changed := length changed |}.

Definition check_consistency (cache : gmap string CacheData) (input_hash : string)
    (output_stories : list Story) : ConsistencyResult :=
  match cache !! input_hash with
  | Some cached_data =>
      let current_output_hash := _generate_output_hash output_stories in
      if String.eqb (output_hash cached_data) current_output_hash
      then
        {| is_consistent := true;
           message := "Output matches previous run exactly";
           previous_run := Some (timestamp cached_data);
           consistency_score := 1;
           cached_hash := Some (output_hash cached_data);
           current_hash := current_output_hash;
           differences := None |}
      else
        {| is_consistent := false;
           message := "Output differs from previous run";
           previous_run := Some (timestamp cached_data);
           consistency_score :=
             _calculate_consistency_score (stories cached_data) output_stories;
           cached_hash := Some (output_hash cached_data);
           current_hash := current_output_hash;
           differences :=
             Some (_identify_differences (stories cached_data) output_stories) |}
  | None =>
      {| is_consistent := true;
         message := "First run with this input - no previous data to compare";
         previous_run := None;
         consistency_score := 1;
         cached_hash := None;
         current_hash := _generate_output_hash output_stories;
         differences := None |}
  end.

(** [cache_output]: [now] is [datetime.now().isoformat()]; the returned
    map is the cache directory after the file has been written. *)
Definition cache_output (now : string) (cache : gmap string CacheData) (input_hash : string)
    (output_stories : list Story) (metadata : option (gmap string string))
    : gmap string CacheData :=
  let cache_data :=
    {| timestamp := now;
       output_hash := _generate_output_hash output_stories;
       stories := output_stories;
       metadata := default ∅ metadata;
       story_count := length output_stories |} in
  <[input_hash := cache_data]> cache.

End ConsistencyChecker.

(** ** [VectorProcessor]: context retrieval *)

(** [chunk['metadata']] *)
Record Metadata : Type := {
  filename : option string;
  chunk_index : option Z;
  other_metadata : gmap string string
}.

(** A chunk of the pool, with its keys ['id'], ['text'], ['embedding'] and
    ['metadata'].  For ['embedding'], [None] is an absent key and
    [Some None] the value [None] that the naive chunk builder stores. *)
Record Chunk : Type := {
  chunk_id : option string;
  chunk_text : option string;
  chunk_embedding : option (option (list Q));
  chunk_metadata : option Metadata
}.

Global Instance Metadata_eq_dec : EqDecision Metadata.
Proof. solve_decision. Defined.

Definition vector_eqb (v1 v2 : list Q) : bool :=
  (length v1 =? length v2)%nat
  && forallb (fun p => Qeq_bool (fst p) (snd p)) (combine v1 v2).

Definition embedding_eqb (e1 e2 : option (option (list Q))) : bool :=
  match e1, e2 with
  | None, None | Some None, Some None => true
  | Some (Some v1), Some (Some v2) => vector_eqb v1 v2
  | _, _ => false
  end.

(** [a == b] on chunks. *)
Definition chunk_eqb (a b : Chunk) : bool :=
  bool_decide (chunk_id a = chunk_id b)
  && bool_decide (chunk_text a = chunk_text b)
  && embedding_eqb (chunk_embedding a) (chunk_embedding b)
  && bool_decide (chunk_metadata a = chunk_metadata b).

Section VectorProcessor.

(** [self.embedding_model], [None] when Vertex AI could not be
    initialised; the function is [get_embeddings([text])[0].values]. *)
Context (embedding_model : option (string -> Py.result (list Q))).
(** [asyncio.run] raises [RuntimeError] when an event loop is already
    running in the calling thread. *)
Context (loop_running : bool).
(** [np.linalg.norm] *)
Context (np_linalg_norm : list Q -> Q).

Local Open Scope Q_scope.

Definition _generate_embedding (model : string -> Py.result (list Q))
    (text : string) : list Q :=
  match model text with
  | Py.Ok values => values
  | Py.Raise _ => repeat 0 768
  end.

Definition asyncio_run {A} (value : A) : Py.result A :=
  if loop_running then Py.Raise "RuntimeError" else Py.Ok value.

(** [np.dot] on two one-dimensional arrays. *)
Definition np_dot (vec1 vec2 : list Q) : Py.result Q :=
  if (length vec1 =? length vec2)%nat
  then Py.Ok (Py.sum (map (fun p => fst p * snd p) (combine vec1 vec2)))
  else Py.Raise "ValueError".

Definition _cosine_similarity (vec1 vec2 : list Q) : Q :=
  match np_dot vec1 vec2 with
  | Py.Raise _ => 0
  | Py.Ok dot_product =>
      let norm1 := np_linalg_norm vec1 in
      let norm2 := np_linalg_norm vec2 in
      if Qeq_bool norm1 0 || Qeq_bool norm2 0 then 0
      else dot_product / (norm1 * norm2)
  end.

(** The loop that fills [similarities], one chunk. *)
Definition similarity_entry (query_embedding : list Q) (chunk : Chunk)
    : list (Q * Chunk) :=
  match chunk_embedding chunk with
  | Some (Some (x :: v)) =>
      [(_cosine_similarity query_embedding (x :: v), chunk)]
  | _ => []
  end.

Definition find_similar_chunks (query : string) (chunks : list Chunk)
    (top_k : Z) : list Chunk :=
  match embedding_model, chunks with
  | None, _ | _, [] => Py.slice_to top_k chunks
  | Some model, _ =>
      match asyncio_run (_generate_embedding model query) with
      | Py.Raise _ => Py.slice_to top_k chunks
      | Py.Ok query_embedding =>
          let similarities :=
            concat (map (similarity_entry query_embedding) chunks) in
          let similarities := Py.sorted_reverse Py.Qltb fst similarities in
          map snd (Py.slice_to top_k similarities)
      end
  end.

(** [range(lo, hi)] *)
Definition range (lo hi : Z) : list Z :=
  map (fun k => (lo + Z.of_nat k)%Z) (seq 0 (Z.to_nat (hi - lo))).

(** [c.get('metadata', {}).get('filename') == filename] *)
Definition same_transcript (filename' : string) (c : Chunk) : bool :=
  match chunk_metadata c with
  | Some m => bool_decide (filename m = Some filename')
  | None => false
  end.

(** The body of the loop over [similar_chunks]. *)
Definition add_with_neighbours (chunks context_chunks : list Chunk)
    (chunk : Chunk) : list Chunk :=
  let context_chunks := context_chunks ++ [chunk] in
  let filename' :=
    match chunk_metadata chunk with Some m => default "" (filename m) | None => "" end in
  let chunk_index' :=
    match chunk_metadata chunk with Some m => default 0%Z (chunk_index m) | None => 0%Z end in
  let same_transcript_chunks := List.filter (same_transcript filename') chunks in
  fold_left
    (fun context_chunks i =>
       match same_transcript_chunks !! Z.to_nat i with
       | Some neighbour =>
           if negb (i =? chunk_index')%Z
              && negb (existsb (chunk_eqb neighbour) context_chunks)
           then context_chunks ++ [neighbour]
           else context_chunks
       | None => context_chunks
       end)
    (range (Z.max 0 (chunk_index' - 1))
           (Z.min (Z.of_nat (length same_transcript_chunks)) (chunk_index' + 2)))
    context_chunks.

Definition get_context_for_extraction (user_story : string)
    (chunks : list Chunk) (context_window : Z) : list Chunk :=
  match chunks with
  | [] => []
  | _ =>
      let similar_chunks := find_similar_chunks user_story chunks context_window in
      let context_chunks :=
        fold_left (add_with_neighbours chunks) similar_chunks [] in
      Py.slice_to (context_window * 2) context_chunks
  end.

End VectorProcessor.

(** ** Documents

    A document (an interview transcript) is the [dict] the worker hands to
    the processors, with the keys ['filename'], ['file_type'], ['content'],
    ['paragraphs'] and ['size']; [None] is an absent key. *)

Record Document : Type := {
  doc_filename : option string;
  doc_file_type : option string;
  doc_content : option string;
  doc_paragraphs : option (list string);
  doc_size : option Z
}.

(** The value under ['content'] of a document given to
    [generate_input_hash]: the [bytes] of the file, which [hashlib.md5]
    hashes, or a [str], on which [hashlib.md5] raises [TypeError] as it
    does on every value that is not bytes-like. *)
Inductive Content : Type :=
| content_bytes (data : list Byte.byte)
| content_str (text : string).

(** A document as [generate_input_hash] reads it: the keys ['filename'],
    ['file_type'] and ['content']; [None] is an absent key. *)
Record InputDocument : Type := {
  in_filename : option string;
  in_file_type : option string;
  in_content : option Content
}.

(** ** [DeduplicationEngine]: the summary *)

(** The dictionary returned by [get_deduplication_summary];
    [duplicate_groups_found] is its key ['duplicate_groups']. *)
Record Summary : Type := {
  original_stories : Z;
  final_stories : Z;
  duplicates_removed : Z;
  duplicate_groups_found : nat;
  reduction_percentage : Q;
  status : string;
  consistency_hash : string
}.

Section DeduplicationSummary.

Context (lib : Libraries).

Local Open Scope Q_scope.

Definition _generate_summary_hash (original_count final_count : Z)
    (duplicate_groups : list (list nat)) : string :=
  let group_strings :=
    map (fun group =>
           Py.join "|" (map Py.str_of_nat (Py.sorted Nat.ltb (fun n => n) group)))
      (Py.sorted Py.list_ltb (fun group => group) duplicate_groups) in
  let summary_string :=
    Py.str_of_Z original_count +:+ ":" +:+ Py.str_of_Z final_count +:+ ":"
    +:+ Py.join ":" group_strings in
  md5_hexdigest lib summary_string.

Definition get_deduplication_summary (original_count final_count : Z)
    (duplicate_groups : list (list nat)) : Summary :=
  let total_duplicates :=
    Py.sum_int (map (fun group => (Z.of_nat (length group) - 1)%Z)
                  duplicate_groups) in
  {| original_stories := original_count;
     final_stories := final_count;
     duplicates_removed := total_duplicates;
     duplicate_groups_found := length duplicate_groups;
     reduction_percentage :=
       if (0 <? original_count)%Z
       then Py.round (inject_Z total_duplicates / inject_Z original_count
                      * 100)%F 2
       else 0;
     status := "deduplication_completed";
     consistency_hash :=
       _generate_summary_hash original_count final_count duplicate_groups |}.

End DeduplicationSummary.

(** ** [ConsistencyChecker]: the input hash and the report *)

(** One entry of ['documents'] in [generate_input_hash]. *)
Record DocumentData : Type := {
  dd_filename : string;
  dd_file_type : string;
  dd_content_hash : string;
  dd_size : nat
}.

(** ['score_distribution'] *)
Record ScoreDistribution : Type := {
  high : nat;
  medium : nat;
  low : nat
}.

(** ['output_summary'] *)
Record OutputSummary : Type := {
  total_stories : nat;
  categories : gmap string nat;
  priorities : gmap string nat;
  score_distribution : ScoreDistribution
}.

(** The dictionary returned by [get_consistency_report]. *)
Record Report : Type := {
  report_timestamp : string;
  report_input_hash : string;
  consistency_check : ConsistencyResult;
  output_summary : OutputSummary;
  recommendations : list string
}.

Section ConsistencyReport.

(** [hashlib.md5(data).hexdigest()] on [bytes] *)
Context (md5_bytes_hexdigest : list Byte.byte -> string).
(** [hashlib.md5(s.encode()).hexdigest()] *)
Context (md5_hexdigest : string -> string).
Context (json_dumps : list StoryData -> string).
(** The type of [construct] and
    [json.dumps(input_data, sort_keys=True, separators=(',', ':'))] *)
Context {Construct : Type}.
Context (json_dumps_input : Construct -> list DocumentData -> string).
(** The report as [json.dump] writes it into the cache file. *)
Context (json_dump_report : Report -> string).

Local Open Scope Q_scope.

(** [doc[key]] *)
Definition subscript {A} (value : option A) : Py.result A :=
  match value with
  | Some v => Py.Ok v
  | None => Py.Raise "KeyError"
  end.

(** [hashlib.md5(content).hexdigest()] *)
Definition md5_of_content (content : Content) : Py.result string :=
  match content with
  | content_bytes data => Py.Ok (md5_bytes_hexdigest data)
  | content_str _ => Py.Raise "TypeError"
  end.

(** [len(content)] *)
Definition len_of_content (content : Content) : nat :=
  match content with
  | content_bytes data => length data
  | content_str text => String.length text
  end.

(** The entry of one document; the values of the dictionary are
    evaluated in the order in which they are written. *)
Definition document_data (doc : InputDocument) : Py.result DocumentData :=
  Py.bind (subscript (in_filename doc)) (fun filename' =>
  Py.bind (subscript (in_file_type doc)) (fun file_type =>
  Py.bind (subscript (in_content doc)) (fun content =>
  Py.bind (md5_of_content content) (fun content_hash =>
  Py.bind (subscript (in_content doc)) (fun content =>
  Py.Ok {| dd_filename := filename';
           dd_file_type := file_type;
           dd_content_hash := content_hash;
           dd_size := len_of_content content |}))))).

(** The sort key [x['filename']] of a document, with the document. *)
Definition keyed_document (doc : InputDocument)
    : Py.result (string * InputDocument) :=
  Py.bind (subscript (in_filename doc)) (fun key => Py.Ok (key, doc)).

(** [sorted] computes the key of every document before it compares any. *)
Definition generate_input_hash (documents : list InputDocument)
    (construct : Construct) : Py.result string :=
  Py.bind (Py.for_each keyed_document documents)
    (fun keyed =>
       let sorted_docs := map snd (Py.sorted String.ltb fst keyed) in
       Py.bind (Py.for_each document_data sorted_docs) (fun data =>
       let input_string := json_dumps_input construct data in
       Py.Ok (md5_hexdigest input_string))).

Definition score_distribution_of (output_stories : list Story) : ScoreDistribution :=
  {| high :=
       length (List.filter (fun s => Qle_bool (8 # 10) (get Match_Score 0 s))
                 output_stories);
     medium :=
       length (List.filter
                 (fun s => Qle_bool (5 # 10) (get Match_Score 0 s)
                           && Py.Qltb (get Match_Score 0 s) (8 # 10))
                 output_stories);
     low :=
       length (List.filter (fun s => Py.Qltb (get Match_Score 0 s) (5 # 10))
                 output_stories) |}.

(** [counts[key] = counts.get(key, 0) + 1] *)
Definition count_one (key : string) (counts : gmap string nat) : gmap string nat :=
  <[key := (default 0 (counts !! key) + 1)%nat]> counts.

(** The loop that fills ['categories'] and ['priorities'], one story. *)
Definition count_story (state : gmap string nat * gmap string nat) (story : Story)
    : gmap string nat * gmap string nat :=
  let category := get Category "Unknown" story in
  let priority := get Priority "Unknown" story in
  (count_one category (fst state), count_one priority (snd state)).

Definition recommendations_of (consistency_result : ConsistencyResult)
    : list string :=
  if negb (is_consistent consistency_result)
  then
    if Py.Qltb (consistency_score consistency_result) (5 # 10)
    then ["CRITICAL: Significant inconsistency detected. Review processing pipeline."]
    else if Py.Qltb (consistency_score consistency_result) (8 # 10)
    then ["WARNING: Moderate inconsistency detected. Check for recent changes."]
    else ["INFO: Minor inconsistencies detected. Output is generally consistent."]
  else ["SUCCESS: Output is fully consistent with previous runs."].

(** [get_consistency_report]: [now] and [now'] are the two readings of
    the clock; the result is the report and the cache directory as the
    call leaves it. *)
Definition get_consistency_report (now now' : string)
    (cache : gmap string CacheData) (input_hash : string)
    (output_stories : list Story) : Report * gmap string CacheData :=
  let consistency_result :=
    check_consistency md5_hexdigest json_dumps cache input_hash output_stories in
  let '(categories', priorities') :=
    fold_left count_story output_stories (∅, ∅) in
  let report :=
    {| report_timestamp := now;
       report_input_hash := input_hash;
       consistency_check := consistency_result;
       output_summary :=
         {| total_stories := length output_stories;
            categories := categories';
            priorities := priorities';
            score_distribution := score_distribution_of output_stories |};
       recommendations := recommendations_of consistency_result |} in
  (report,
   cache_output md5_hexdigest json_dumps now' cache input_hash output_stories
     (Some {["consistency_report" := json_dump_report report]})).

End ConsistencyReport.

(** ** [VectorProcessor]: chunking and vectorization *)

(** A chunk of [_create_semantic_chunks], with its keys ['text'], ['type']
    and ['index']. *)
Record SemanticChunk : Type := {
  sc_text : string;
  sc_type : string;
  sc_index : nat
}.

(** The dictionary returned by [vectorize_transcripts]: with
    ['vectorized'] true it holds the chunks, their number and the
    dimension of the first embedding; with ['vectorized'] false it holds
    the transcripts themselves under ['chunks']. *)
Inductive Vectorization : Type :=
| Vectorized (chunks : list Chunk) (total_chunks : nat) (embedding_dimension : nat)
| NotVectorized (transcripts : list Document).

Definition max_chunk_size : nat := 1000.

(** The loop over the sentences, one sentence. *)
Definition add_sentence (state : list SemanticChunk * string * nat)
    (sentence : string) : list SemanticChunk * string * nat :=
  let '(chunks, current_chunk, chunk_size) := state in
  if (max_chunk_size <? chunk_size + String.length sentence)%nat
     && Py.nonempty current_chunk
  then (chunks ++ [{| sc_text := Py.strip current_chunk;
                      sc_type := "semantic";
                      sc_index := length chunks |}],
        sentence, String.length sentence)
  else (chunks, current_chunk +:+ sentence +:+ ". ",
        (chunk_size + String.length sentence + 2)%nat).

Definition _create_semantic_chunks (transcript : Document) : list SemanticChunk :=
  let text := default "" (doc_content transcript) in
  let paragraphs := default [] (doc_paragraphs transcript) in
  match paragraphs with
  | _ :: _ =>
      omap (fun entry : nat * string =>
              let '(i, paragraph) := entry in
              if Py.nonempty (Py.strip paragraph)
              then Some {| sc_text := Py.strip paragraph;
                           sc_type := "paragraph";
                           sc_index := i |}
              else None)
        (Py.enumerate paragraphs)
  | [] =>
      let sentences := Py.split_str ". " text in
      let '(chunks, current_chunk, _) :=
        fold_left add_sentence sentences ([], "", 0%nat) in
      if Py.nonempty (Py.strip current_chunk)
      then chunks ++ [{| sc_text := Py.strip current_chunk;
                         sc_type := "semantic";
                         sc_index := length chunks |}]
      else chunks
  end.

Section Chunks.

(** The document as the value of ['source_transcript']; the entries of
    ['metadata'] other than ['filename'] and ['chunk_index'] are kept as
    text. *)
Context (repr_document : Document -> string).

Definition metadata_of (doc : Document) (filename' : string) (index total : nat)
    : Metadata :=
  {| filename := Some filename';
     chunk_index := Some (Z.of_nat index);
     other_metadata :=
       {[ "total_chunks" := Py.str_of_nat total;
          "file_type" := default "unknown" (doc_file_type doc);
          "size" := Py.str_of_Z (default 0%Z (doc_size doc));
          "source_transcript" := repr_document doc ]} |}.

(** [vectorize_transcripts]: the chunks of one transcript. *)
Definition vectorize_transcript (model : string -> Py.result (list Q))
    (transcript : Document) : list Chunk :=
  let chunks := _create_semantic_chunks transcript in
  let filename' := default "unknown" (doc_filename transcript) in
  map (fun entry : nat * SemanticChunk =>
         let '(i, chunk) := entry in
         {| chunk_id := Some (filename' +:+ "_chunk_" +:+ Py.str_of_nat i);
            chunk_text := Some (sc_text chunk);
            chunk_embedding := Some (Some (_generate_embedding model (sc_text chunk)));
            chunk_metadata :=
              Some (metadata_of transcript filename' i (length chunks)) |})
    (Py.enumerate chunks).

Definition vectorize_transcripts
    (embedding_model : option (string -> Py.result (list Q)))
    (transcripts : list Document) : Vectorization :=
  match embedding_model with
  | None => NotVectorized transcripts
  | Some model =>
      let vectorized_chunks := concat (map (vectorize_transcript model) transcripts) in
      Vectorized vectorized_chunks (length vectorized_chunks)
        match vectorized_chunks with
        | chunk :: _ =>
            match chunk_embedding chunk with
            | Some (Some embedding) => length embedding
            | _ => 0%nat
            end
        | [] => 0%nat
        end
  end.

(** ** [worker/main.py]: the choice of the context pool *)

Definition _estimate_tokens_from_text_length (char_count : Z) : Z :=
  Z.max 1 (char_count / 4).

(** The dictionary returned by [_should_vectorize]. *)
Record Decision : Type := {
  should_vectorize : bool;
  doc_count : Z;
  total_chars : Z;
  estimated_tokens : Z;
  total_paragraphs : Z
}.

(** [min_tokens], [min_paragraphs] and [min_docs] are what the environment
    gives ([30000], [800] and [3] when it gives nothing). *)
Definition _should_vectorize (min_tokens min_paragraphs min_docs : Z)
    (documents : list Document) : Decision :=
  let doc_count' := Z.of_nat (length documents) in
  let '(total_chars', total_paragraphs') :=
    fold_left
      (fun (totals : Z * Z) d =>
         let content := default "" (doc_content d) in
         (fst totals + Z.of_nat (String.length content),
          snd totals + Z.of_nat (length (default [] (doc_paragraphs d))))%Z)
      documents (0, 0)%Z in
  let est_tokens := _estimate_tokens_from_text_length total_chars' in
  let should :=
    (min_tokens <=? est_tokens)%Z || (min_paragraphs <=? total_paragraphs')%Z
    || (min_docs <=? doc_count')%Z in
  {| should_vectorize := should;
     doc_count := doc_count';
     total_chars := total_chars';
     estimated_tokens := est_tokens;
     total_paragraphs := total_paragraphs' |}.

(** The chunks of one document. *)
Definition naive_chunks_of (doc : Document) : list Chunk :=
  let filename' := default "unknown" (doc_filename doc) in
  let paragraphs := default [] (doc_paragraphs doc) in
  omap (fun entry : nat * string =>
          let '(idx, p) := entry in
          if Py.nonempty p && Py.nonempty (Py.strip p)
          then Some {| chunk_id := Some (filename' +:+ "_p_" +:+ Py.str_of_nat idx);
                       chunk_text := Some (Py.strip p);
                       chunk_embedding := Some None;
                       chunk_metadata :=
                         Some (metadata_of doc filename' idx (length paragraphs)) |}
          else None)
    (Py.enumerate paragraphs).

Definition _build_naive_chunks_from_documents (documents : list Document)
    : list Chunk :=
  concat (map naive_chunks_of documents).

(** Step 1 of [process_documents_with_ai]: the pool [vectorized_chunks]. *)
Definition vectorized_chunks_of
    (embedding_model : option (string -> Py.result (list Q)))
    (min_tokens min_paragraphs min_docs : Z) (documents : list Document)
    : list Chunk :=
  let decision := _should_vectorize min_tokens min_paragraphs min_docs documents in
  if should_vectorize decision
  then
    match vectorize_transcripts embedding_model documents with
    | Vectorized chunks _ _ => chunks
    | NotVectorized _ => _build_naive_chunks_from_documents documents
    end
  else _build_naive_chunks_from_documents documents.

End Chunks.

(** ** [RequirementsConverter._get_context_for_story] *)

(** The number of words of the story text found in the text of the chunk. *)
Definition story_word_overlap (story_text : string) (chunk : Chunk) : nat :=
  let chunk_text' := Py.lower (default "" (chunk_text chunk)) in
  let story_words := Py.split (Py.lower story_text) in
  length (List.filter (fun word => Py.contains word chunk_text') story_words).

(** The loop that fills [similarities], one chunk. *)
Definition overlap_entry (story_text : string) (chunk : Chunk)
    : list (nat * Chunk) :=
  match chunk_embedding chunk with
  | Some (Some (_ :: _)) =>
      let overlap := story_word_overlap story_text chunk in
      if (0 <? overlap)%nat then [(overlap, chunk)] else []
  | _ => []
  end.

Definition _get_context_for_story (story : Story) (vectorized_chunks : list Chunk)
    (context_window : Z) : list Chunk :=
  match vectorized_chunks with
  | [] => []
  | _ =>
      let story_text := get User_Story "" story +:+ " " +:+ get Capability "" story in
      let similarities := concat (map (overlap_entry story_text) vectorized_chunks) in
      let similarities := Py.sorted_reverse Nat.ltb fst similarities in
      map snd (Py.slice_to context_window similarities)
  end.


(** * Notions used in the statements *)

(** The number of input stories an output story stands for:
    ['duplicate_count'], and [1] for a story without that key. *)
Definition represented (story : Story) : nat :=
  default 1%nat (duplicate_count story).

(** The stories that [_merge_duplicates] passes on unmerged. *)
Definition unmerged (stories : list Story) (merged_indices : gset nat)
    : list Story :=
  map snd
    (List.filter (fun entry => negb (bool_decide (fst entry ∈ merged_indices)))
       (Py.enumerate stories)).

(** The multiple of [q] nearest to [x], ties to the even multiple. *)
Definition nearest_multiple (q x : Q) : Q :=
  (inject_Z (Py.round_half_even (x / q)) * q)%Q.

(** The Jaccard index of two sets of tokens, an exact fraction; [0] when
    both are empty. *)
Definition jaccard (words1 words2 : gset string) : Q :=
  if bool_decide (words1 ∪ words2 = ∅) then 0%Q
  else (inject_Z (Z.of_nat (size (words1 ∩ words2)))
        / inject_Z (Z.of_nat (size (words1 ∪ words2))))%Q.

(** [text.strip()] is not empty. *)
Definition nonblank (text : string) : bool := Py.nonempty (Py.strip text).

(** What the outer loop maintains: every group has at least two members,
    no index occurs twice in the groups, the grouped indices are marked
    as processed and every processed index is an index of [stories]. *)
Definition groups_ok (n : nat) (state : list (list nat) * gset nat) : Prop :=
  Forall (fun group => (1 < length group)%nat) (fst state)
  /\ NoDup (concat (fst state))
  /\ (forall i, i ∈ concat (fst state) -> i ∈ snd state)
  /\ (forall i, i ∈ snd state -> (i < n)%nat).

(** [merged] is what the engine makes of the members of [group]. *)
Definition merged_from (lib : Libraries) (stories : list Story)
    (group : list nat) (merged : Story) : Prop :=
  exists members,
    members <> [] /\ length members = length group
    /\ (forall m, In m members -> In m stories)
    /\ merged = _merge_story_group lib members.

(** The body of [_calculate_final_scores] with the engine's own methods. *)
Definition scored (story : Story) : Story :=
  set_Match_Score
    (Py.round
       (get Match_Score (1 # 2) story * Py.float 0.5
        + _calculate_quality_score story * Py.float 0.3
        + _calculate_completeness_score story * Py.float 0.2)%F
       3)
    story.

(** The adjustment scores as the specification words them: the score
    starts at [0.5], every condition that holds adds its increment, in
    the order of the list, and the result is capped at [1.0]. *)
Definition spec_adjusted_score (increments : list (bool * Q)) : Q :=
  Py.min
    (fold_left
       (fun score (entry : bool * Q) =>
          if fst entry then (score + Py.float (snd entry))%F else score)
       increments (1 # 2)%Q)
    1%Q.

(** [qualityScore]: [0.2] for the pattern "as a / I need / so that",
    [0.1] for a capability of more than 20 characters, [0.1] for a benefit
    of more than 10 characters after "so that", [0.1] for more than one
    tag. *)
Definition spec_quality_score (story : Story) : Q :=
  let text := Py.lower (get User_Story "" story) in
  spec_adjusted_score
    [(Py.contains "as a" text && Py.contains "i need" text
      && Py.contains "so that" text, 0.2%Q);
     ((20 <? String.length (get Capability "" story))%nat, 0.1%Q);
     (match Py.search_so_that text with
      | Some benefit => (10 <? String.length benefit)%nat
      | None => false
      end, 0.1%Q);
     ((1 <? length (get Tags [] story))%nat, 0.1%Q)].

(** [completenessScore]: [0.1] for each of the four required fields that
    is present, then [0.05] for each of the four optional ones. *)
Definition spec_completeness_score (story : Story) : Q :=
  spec_adjusted_score
    (map (fun present : bool => (present, 0.1%Q))
       [Py.nonempty (get User_Story "" story);
        Py.nonempty (get Capability "" story);
        Py.nonempty (get Category "" story);
        Py.nonempty (get Priority "" story)]
     ++ map (fun present : bool => (present, 0.05%Q))
          [Py.nonempty (get Snippet "" story);
           negb (bool_decide (get Tags [] story = []));
           negb (bool_decide (get requirements [] story = []));
           negb (bool_decide (get acceptance_criteria [] story = []))]).

(** The stories' own scores, where they have one, are in [[0, 1]]. *)
Definition scores_in_unit_interval (stories : list Story) : Prop :=
  forall story score,
    In story stories -> Match_Score story = Some score -> (0 <= score <= 1)%Q.

(** The rule of the specification for a pool without embeddings: rank the
    chunks by the number of query words present in the chunk text,
    largest first, chunks with the same count in pool order, and keep the
    first [top_k]. *)
Definition spec_word_overlap (query : string) (chunk : Chunk) : nat :=
  length (List.filter (fun word => Py.contains word (default "" (chunk_text chunk)))
            (Py.split query)).

Definition spec_lexical_top_k (query : string) (chunks : list Chunk) (top_k : Z)
    : list Chunk :=
  Py.slice_to top_k (Py.sorted_reverse Nat.ltb (spec_word_overlap query) chunks).

(** ['embedding' in chunk and chunk['embedding']] is false. *)
Definition without_embedding (chunk : Chunk) : Prop :=
  match chunk_embedding chunk with
  | Some (Some (_ :: _)) => False
  | _ => True
  end.

(** * Example data *)

(** The examples need values for the library calls.  [example_libraries]
    answers as the libraries do where the answer does not depend on their
    internals: the ratio of a string with itself is [1] and that of two
    strings without a common character is [0]; the cosine of a text with
    itself is [1] and that of two texts without a common term is [0].
    Elsewhere it answers with a fixed value of [[0, 1]]. *)

Definition share_character (a b : string) : bool :=
  existsb (fun c => existsb (Ascii.eqb c) (list_ascii_of_string b))
    (list_ascii_of_string a).

Definition share_term (a b : string) : bool :=
  existsb (fun w => existsb (String.eqb w) (Py.split b)) (Py.split a).

Definition example_libraries : Libraries :=
  {| SequenceMatcher_ratio := fun a b =>
       if String.eqb a b then 1%Q
       else if share_character a b then (1 # 2)%Q else 0%Q;
     tfidf_cosine_similarity := fun a b =>
       Py.Ok (if String.eqb a b then 1%Q
              else if share_term a b then Py.float 0.2 else 0%Q);
     md5_hexdigest := fun s => "md5:" +:+ s |}.

Definition example_story (story_id user_story capability : string) (score : Q)
    : Story :=
  {| User_Story_ID := Some story_id;
     User_Story := Some user_story;
     Capability := Some capability;
     Snippet := None;
     Category := Some "workflow";
     Priority := Some "medium";
     Source := Some "interview.txt";
     Match_Score := Some score;
     Tags := Some ["medium"; "workflow"];
     requirements := None;
     acceptance_criteria := None;
     Content_Hash := None;
     clean_text := None;
     clean_capability := None;
     clean_snippet := None;
     source_files := None;
     duplicate_count := None;
     merge_hash := None;
     other_keys := {["Team" := "Product"]} |}.

Definition approve_3 : Story :=
  example_story "US-3"
    "As a manager, I need to approve documents so that compliance is ensured"
    "document approval" (Py.float 0.8).
Definition search_1 : Story :=
  example_story "US-1"
    "As a user, I need to search assets so that I find files quickly"
    "asset search" (1 # 2).
Definition approve_5 : Story :=
  example_story "US-5"
    "As a manager, I need to approve documents so that compliance is ensured"
    "document approval" (1 # 2).
Definition notify_2 : Story :=
  example_story "US-2"
    "As an editor, I need notifications so that reviews are not late"
    "notification" (Py.float 0.8).
Definition search_4 : Story :=
  example_story "US-4"
    "As a user, I need to search assets so that I find files quickly"
    "asset search" (Py.float 0.8).

Definition five_stories : list Story :=
  [approve_3; search_1; approve_5; notify_2; search_4].

(** The two stories of the specification's merge scenario. *)
Definition story_a_example : Story :=
  example_story "US-1"
    "As a manager, I need to approve documents so that compliance is ensured"
    "document approval" (Py.float 0.8).

Definition story_b_example : Story :=
  example_story "US-2"
    "As a manager, I need to approve submissions so that compliance is ensured"
    "submission approval" (Py.float 0.8).

(** The three stories of the chain example: the first two have the same
    capability, the last two the same story text, the first and the last
    have nothing in common. *)
Definition chain_A : Story := example_story "US-1" "alpha" "mmm" (Py.float 0.8).
Definition chain_B : Story := example_story "US-2" "beta" "mmm" (Py.float 0.8).
Definition chain_C : Story := example_story "US-3" "beta" "zzz" (Py.float 0.8).
Definition chain_threshold : Q := Py.float 0.4.

(** A subclass whose [_merge_story_group] fails on every group that
    contains the story [US-1], and is the engine's own otherwise. *)
Definition faulty_engine (lib : Libraries) : Methods :=
  {| call_merge_story_group := fun story_group =>
       if existsb (fun story => String.eqb (story_id story) "US-1") story_group
       then Py.Raise "TypeError"
       else Py.Ok (_merge_story_group lib story_group);
     call_calculate_quality_score :=
       call_calculate_quality_score (engine lib);
     call_calculate_completeness_score :=
       call_calculate_completeness_score (engine lib) |}.

(** Two stories with the same identifier and different texts. *)
Definition tied_first : Story :=
  example_story "US-1" "As a user, I need to export reports" "export" (Py.float 0.8).
Definition tied_second : Story :=
  example_story "US-1" "As a user, I need to import reports" "import" (Py.float 0.8).

(** A chunk as the naive chunk builder makes it, from paragraph [index] of
    [interview.txt]. *)
Definition naive_chunk (index : Z) (paragraph : string) : Chunk :=
  {| chunk_id :=
       Some ("interview.txt_p_"
             +:+ String (ascii_of_nat (48 + Z.to_nat index)) "");
     chunk_text := Some paragraph;
     chunk_embedding := Some None;
     chunk_metadata :=
       Some {| filename := Some "interview.txt";
               chunk_index := Some index;
               other_metadata := ∅ |} |}.

Definition naive_pool : list Chunk :=
  [naive_chunk 0 "we lose track of documents";
   naive_chunk 1 "files are scattered across folders";
   naive_chunk 2 "nobody owns the metadata";
   naive_chunk 3 "approvals need a dashboard with reminders"].

Definition dashboard_query : string := "dashboard reminders".

(** * Further notions used in the statements *)

(** [x] may stand before [y] in a list sorted by [key]: the key of [y] is
    not smaller than that of [x]. *)
Definition in_order {A K} (ltb : K -> K -> bool) (key : A -> K) (x y : A) : Prop :=
  ltb (key y) (key x) = false.

(** [a] is ranked before [b] in the output: a higher score, or the same
    score and an identifier that is not larger. *)
Definition ranked_before (a b : Story) : Prop :=
  (get Match_Score 0 b < get Match_Score 0 a)%Q
  \/ ((get Match_Score 0 a == get Match_Score 0 b)%Q
      /\ String.ltb (story_id b) (story_id a) = false).

(** [group] starts with an index [i] of [stories], and each of its other
    members is a later index whose story [_are_stories_similar] accepts as
    a duplicate of the story at [i]. *)
Definition led_by_first (lib : Libraries) (similarity_threshold : Q)
    (stories : list Story) (group : list nat) : Prop :=
  exists i seed rest,
    group = i :: rest
    /\ stories !! i = Some seed
    /\ Forall (fun j =>
                 (i < j)%nat
                 /\ exists other,
                      stories !! j = Some other
                      /\ _are_stories_similar lib similarity_threshold seed other
                         = true)
         rest.

(** The value of the list-valued key [field] in [merged] is the strictly
    increasing list of the values this key has in the members of [group]. *)
Definition sorted_union_of (field : Story -> option (list string))
    (group : list Story) (merged : Story) : Prop :=
  exists values,
    field merged = Some values
    /\ StronglySorted (fun a b => String.ltb a b = true) values
    /\ (forall v, In v values
                  <-> exists member, In member group
                                     /\ In v (default [] (field member))).

(** The story has the key ['User Story ID']. *)
Definition has_identifier (story : Story) : bool :=
  match User_Story_ID story with
  | Some _ => true
  | None => false
  end.

(** The number of stories whose [key] is [value]. *)
Definition count_with (key : Story -> string) (value : string)
    (stories : list Story) : nat :=
  length (List.filter (fun story => String.eqb (key story) value) stories).

(** Two documents for the examples. *)
Definition interview_1 : Document :=
  {| doc_filename := Some "interview_1.txt";
     doc_file_type := Some "txt";
     doc_content := Some "We lose track of documents. Files are scattered.";
     doc_paragraphs :=
       Some ["We lose track of documents."; "   "; "Files are scattered."];
     doc_size := Some 48%Z |}.

Definition interview_2 : Document :=
  {| doc_filename := Some "interview_2.txt";
     doc_file_type := Some "txt";
     doc_content := Some "Approvals need a dashboard with reminders.";
     doc_paragraphs := Some ["Approvals need a dashboard with reminders."];
     doc_size := Some 42%Z |}.

(** The document has the three keys that [generate_input_hash] reads. *)
Definition has_all_keys (doc : InputDocument) : Prop :=
  in_filename doc <> None /\ in_file_type doc <> None /\ in_content doc <> None.

(** The content of the document is [bytes]. *)
Definition bytes_content (doc : InputDocument) : bool :=
  match in_content doc with
  | Some (content_bytes _) => true
  | _ => false
  end.

(** Two uploaded files, and the first one with its text in place of its
    bytes. *)
Definition upload_1 : InputDocument :=
  {| in_filename := Some "interview_1.txt";
     in_file_type := Some "txt";
     in_content :=
       Some (content_bytes (list_byte_of_string "We lose track of documents.")) |}.

Definition upload_2 : InputDocument :=
  {| in_filename := Some "interview_2.txt";
     in_file_type := Some "txt";
     in_content :=
       Some (content_bytes (list_byte_of_string "Approvals need reminders.")) |}.

(** Stand-ins for [hashlib.md5] on [bytes] and for [json.dumps] in the
    examples: the text of the bytes, and the content hashes behind the
    construct. *)
Definition example_md5_bytes (data : list Byte.byte) : string :=
  string_of_list_byte data.

Definition example_json_dumps_input (construct : string)
    (data : list DocumentData) : string :=
  construct +:+ ":" +:+ Py.join "," (map dd_content_hash data).

Definition upload_1_as_text : InputDocument :=
  {| in_filename := Some "interview_1.txt";
     in_file_type := Some "txt";
     in_content := Some (content_str "We lose track of documents.") |}.

(** The cosine similarity of a chunk to the query embedding, as
    [find_similar_chunks] computes it for a chunk that has an embedding. *)
Definition chunk_similarity (np_linalg_norm : list Q -> Q)
    (query_embedding : list Q) (chunk : Chunk) : Q :=
  match chunk_embedding chunk with
  | Some (Some embedding) => _cosine_similarity np_linalg_norm query_embedding embedding
  | _ => 0%Q
  end.

(** ['embedding' in chunk and chunk['embedding']] is true. *)
Definition with_embedding (chunk : Chunk) : Prop :=
  exists x embedding, chunk_embedding chunk = Some (Some (x :: embedding)).

(** A transcript without paragraph structure. *)
Definition interview_3 : Document :=
  {| doc_filename := Some "interview_3.txt";
     doc_file_type := Some "txt";
     doc_content :=
       Some "We lose track of documents. Files are scattered. Nobody owns the metadata";
     doc_paragraphs := None;
     doc_size := Some 73%Z |}.

(** A character of a normalised word: a word character that [lower]
    leaves as it is. *)
Definition normal_char (c : ascii) : bool :=
  Py.isword c && Ascii.eqb (Py.lower_char c) c.

(** A normalised word: not empty, made of such characters, and not a
    filler word. *)
Definition normal_word (w : string) : Prop :=
  w <> ""
  /\ Forall (fun c => normal_char c = true) (list_ascii_of_string w)
  /\ w ∉ filler_words.

(** ['embedding' in chunk and chunk['embedding']], as a test. *)
Definition has_embedding (chunk : Chunk) : bool :=
  match chunk_embedding chunk with
  | Some (Some (_ :: _)) => true
  | _ => false
  end.

(** A pool of two chunks with embeddings and one without. *)
Definition embedded_chunk (index : Z) (paragraph : string) (embedding : list Q)
    : Chunk :=
  {| chunk_id :=
       Some ("interview.txt_chunk_"
             +:+ String (ascii_of_nat (48 + Z.to_nat index)) "");
     chunk_text := Some paragraph;
     chunk_embedding := Some (Some embedding);
     chunk_metadata :=
       Some {| filename := Some "interview.txt";
               chunk_index := Some index;
               other_metadata := ∅ |} |}.

Definition embedded_pool : list Chunk :=
  [embedded_chunk 0 "we lose track of documents" [1; 0]%Q;
   naive_chunk 1 "files are scattered across folders";
   embedded_chunk 2 "approvals need a dashboard with reminders" [0; 1]%Q].


(** * Binary64 arithmetic *)

Section Floats.

Local Open Scope Q_scope.


Lemma round_half_even_cases (x : Q) :
  (2 * x < inject_Z (2 * Qfloor x + 1) /\ Py.round_half_even x = Qfloor x)
  \/ (2 * x == inject_Z (2 * Qfloor x + 1)
      /\ Py.round_half_even x = if Z.even (Qfloor x) then Qfloor x else (Qfloor x + 1)%Z)
  \/ (inject_Z (2 * Qfloor x + 1) < 2 * x /\ Py.round_half_even x = (Qfloor x + 1)%Z).
Proof.
  destruct x as [n d].
  unfold Py.round_half_even, Qfloor, Qlt, Qeq, Qmult, inject_Z. cbn [Qnum Qden].
  rewrite Pos.mul_1_l, !Z.mul_1_r.
  pose proof (Z.div_mod n (Zpos d) ltac:(lia)) as Hdm.
  pose proof (Z.mod_pos_bound n (Zpos d) ltac:(lia)) as Hr.
  generalize dependent (n mod Zpos d)%Z. generalize (n / Zpos d)%Z.
  intros q r Hdm Hr.
  destruct (2 * r ?= Zpos d)%Z eqn:Hcmp.
  - right; left. apply Z.compare_eq_iff in Hcmp. split; [nia | reflexivity].
  - left. rewrite Z.compare_lt_iff in Hcmp. split; [nia | reflexivity].
  - right; right. rewrite Z.compare_gt_iff in Hcmp. split; [nia | reflexivity].
Qed.

Lemma round_half_even_mono (x y : Q) :
  x <= y -> (Py.round_half_even x <= Py.round_half_even y)%Z.
Proof.
  intros Hxy. pose proof (Qfloor_resp_le x y Hxy) as Hfloor.
  destruct (Z.eq_dec (Qfloor x) (Qfloor y)) as [Heq|Hne].
  - destruct (round_half_even_cases x) as [[Hx ->]|[[Hx ->]|[Hx ->]]];
      destruct (round_half_even_cases y) as [[Hy ->]|[[Hy ->]|[Hy ->]]];
      rewrite <- ?Heq in *; try (destruct (Z.even (Qfloor x))); try lia;
      exfalso; lra.
  - destruct (round_half_even_cases x) as [[Hx ->]|[[Hx ->]|[Hx ->]]];
      destruct (round_half_even_cases y) as [[Hy ->]|[[Hy ->]|[Hy ->]]];
      try (destruct (Z.even (Qfloor x))); try (destruct (Z.even (Qfloor y)));
      lia.
Qed.

Lemma round_half_even_comp (x y : Q) :
  x == y -> Py.round_half_even x = Py.round_half_even y.
Proof.
  intros Hxy. apply Z.le_antisymm; apply round_half_even_mono; lra.
Qed.

Lemma round_half_even_Z (k : Z) : Py.round_half_even (inject_Z k) = k.
Proof.
  unfold Py.round_half_even, inject_Z. cbn [Qnum Qden].
  rewrite Z.div_1_r, Z.mod_1_r. reflexivity.
Qed.

Lemma pow2_pos (e : Z) : 0 < Py.pow2 e.
Proof. apply Qpower_0_lt. reflexivity. Qed.

Lemma pow2_add (a b : Z) : Py.pow2 (a + b) == Py.pow2 a * Py.pow2 b.
Proof. apply Qpower_plus. discriminate. Qed.

Lemma pow2_le (a b : Z) : (a <= b)%Z -> Py.pow2 a <= Py.pow2 b.
Proof. intros H. apply Qpower_le_compat_l; [exact H | discriminate]. Qed.

Lemma pow2_lt (a b : Z) : (a < b)%Z -> Py.pow2 a < Py.pow2 b.
Proof. intros H. apply Qpower_lt_compat_l; [exact H | reflexivity]. Qed.

Lemma pow2_Z (e : Z) : (0 <= e)%Z -> Py.pow2 e == inject_Z (2 ^ e).
Proof. intros H. unfold Py.pow2. rewrite Zpower_Qpower by exact H. reflexivity. Qed.

Lemma ilog2_spec (x : Q) :
  0 < x -> Py.pow2 (Py.ilog2 x) <= x /\ x < Py.pow2 (Py.ilog2 x + 1).
Proof.
  intros Hx. unfold Py.ilog2.
  assert (0 < Qnum x)%Z as Hn by (unfold Qlt in Hx; cbn in Hx; lia).
  pose proof (Z.log2_spec (Qnum x) Hn) as [Hn_lo Hn_hi].
  pose proof (Z.log2_spec (Zpos (Qden x)) ltac:(lia)) as [Hd_lo Hd_hi].
  pose proof (Z.log2_nonneg (Qnum x)) as Ha.
  pose proof (Z.log2_nonneg (Zpos (Qden x))) as Hb.
  set (a := Z.log2 (Qnum x)) in *. set (b := Z.log2 (Zpos (Qden x))) in *.
  assert (x == inject_Z (Qnum x) / inject_Z (Zpos (Qden x))) as Hq.
  { destruct x as [n d]. apply Qmake_Qdiv. }
  assert (0 < inject_Z (Zpos (Qden x))) as Hdpos by reflexivity.
  assert (Py.pow2 a <= inject_Z (Qnum x)) as H1.
  { rewrite pow2_Z by exact Ha. rewrite <- Zle_Qle. exact Hn_lo. }
  assert (inject_Z (Qnum x) < Py.pow2 (a + 1)) as H2.
  { rewrite pow2_Z by lia. rewrite <- Zlt_Qlt. replace (a + 1)%Z with (Z.succ a) by lia. exact Hn_hi. }
  assert (Py.pow2 b <= inject_Z (Zpos (Qden x))) as H3.
  { rewrite pow2_Z by exact Hb. rewrite <- Zle_Qle. exact Hd_lo. }
  assert (inject_Z (Zpos (Qden x)) < Py.pow2 (b + 1)) as H4.
  { rewrite pow2_Z by lia. rewrite <- Zlt_Qlt. replace (b + 1)%Z with (Z.succ b) by lia. exact Hd_hi. }
  assert (x < Py.pow2 (a - b + 1)) as Hhi.
  { rewrite Hq. apply Qlt_shift_div_r; [exact Hdpos|].
    apply Qlt_le_trans with (Py.pow2 (a + 1)); [exact H2|].
    replace (a + 1)%Z with ((a - b + 1) + b)%Z by lia. rewrite pow2_add.
    apply Qmult_le_l; [apply pow2_pos | exact H3]. }
  assert (Py.pow2 (a - b - 1) < x) as Hlo.
  { rewrite Hq. apply Qlt_shift_div_l; [exact Hdpos|].
    apply Qlt_le_trans with (Py.pow2 (a - b - 1) * Py.pow2 (b + 1)).
    - apply Qmult_lt_l; [apply pow2_pos | exact H4].
    - rewrite <- pow2_add. replace (a - b - 1 + (b + 1))%Z with a by lia. exact H1. }
  destruct (Qle_bool (Py.pow2 (a - b)) x) eqn:Hcmp.
  - apply Qle_bool_iff in Hcmp. split; [exact Hcmp | exact Hhi].
  - split; [apply Qlt_le_weak; exact Hlo|].
    replace (a - b - 1 + 1)%Z with (a - b)%Z by lia.
    apply Qnot_le_lt. intros Hle. apply Qle_bool_iff in Hle. congruence.
Qed.

Lemma ilog2_unique (x : Q) (k : Z) :
  Py.pow2 k <= x -> x < Py.pow2 (k + 1) -> Py.ilog2 x = k.
Proof.
  intros Hlo Hhi.
  assert (0 < x) as Hx by (pose proof (pow2_pos k); lra).
  destruct (ilog2_spec x Hx) as [Hlo' Hhi'].
  destruct (Z.lt_trichotomy (Py.ilog2 x) k) as [Hlt|[Heq|Hgt]]; [|exact Heq|]; exfalso.
  - pose proof (pow2_le (Py.ilog2 x + 1) k ltac:(lia)). lra.
  - pose proof (pow2_le (k + 1) (Py.ilog2 x) ltac:(lia)). lra.
Qed.

Lemma ilog2_mono (x y : Q) : 0 < x -> x <= y -> (Py.ilog2 x <= Py.ilog2 y)%Z.
Proof.
  intros Hx Hxy.
  destruct (ilog2_spec x Hx) as [Hlo _].
  destruct (ilog2_spec y ltac:(lra)) as [_ Hhi].
  destruct (Z.le_gt_cases (Py.ilog2 x) (Py.ilog2 y)) as [Hle|Hgt]; [exact Hle|exfalso].
  pose proof (pow2_le (Py.ilog2 y + 1) (Py.ilog2 x) ltac:(lia)). lra.
Qed.

Lemma ilog2_comp (x y : Q) : 0 < x -> x == y -> Py.ilog2 x = Py.ilog2 y.
Proof.
  intros Hx Hxy. destruct (ilog2_spec y ltac:(lra)) as [Hlo Hhi].
  apply ilog2_unique; lra.
Qed.


Lemma nearest_multiple_mono (q x y : Q) : 0 < q -> x <= y -> nearest_multiple q x <= nearest_multiple q y.
Proof.
  intros Hq Hxy. unfold nearest_multiple.
  apply Qmult_le_compat_r; [|lra].
  rewrite <- Zle_Qle. apply round_half_even_mono.
  apply Qmult_le_compat_r; [exact Hxy|].
  apply Qlt_le_weak, Qinv_lt_0_compat, Hq.
Qed.

Lemma nearest_multiple_fixed (q m : Q) (k : Z) :
  0 < q -> m == inject_Z k * q -> nearest_multiple q m == m.
Proof.
  intros Hq Hm. unfold nearest_multiple.
  rewrite (round_half_even_comp (m / q) (inject_Z k)).
  - rewrite round_half_even_Z. rewrite Hm. reflexivity.
  - rewrite Hm. field. lra.
Qed.

Lemma nearest_as_multiple (x : Q) : Py.nearest x == nearest_multiple (Py.ulp x) x.
Proof. unfold Py.nearest. cbv zeta. apply Qred_correct. Qed.

Lemma ulp_pos (x : Q) : 0 < Py.ulp x.
Proof. apply pow2_pos. Qed.

Lemma pow2_multiple (a b : Z) :
  (b <= a)%Z -> Py.pow2 a == inject_Z (2 ^ (a - b)) * Py.pow2 b.
Proof.
  intros H. rewrite <- pow2_Z by lia. rewrite <- pow2_add.
  replace (a - b + b)%Z with a by lia. reflexivity.
Qed.

Lemma nearest_mono (x y : Q) : 0 < x -> x <= y -> Py.nearest x <= Py.nearest y.
Proof.
  intros Hx Hxy. rewrite !nearest_as_multiple.
  pose proof (ilog2_mono x y Hx Hxy) as Hlog.
  destruct (ilog2_spec x Hx) as [_ Hx_hi].
  destruct (ilog2_spec y ltac:(lra)) as [Hy_lo _].
  unfold Py.ulp.
  destruct (Z.eq_dec (Z.max (Py.ilog2 x - 52) (-1074)) (Z.max (Py.ilog2 y - 52) (-1074)))
    as [Heq|Hne].
  - rewrite Heq. apply nearest_multiple_mono; [apply pow2_pos | exact Hxy].
  - set (ex := Z.max (Py.ilog2 x - 52) (-1074)) in *.
    set (ey := Z.max (Py.ilog2 y - 52) (-1074)) in *.
    assert (ex < ey /\ ey = Py.ilog2 y - 52 /\ Py.ilog2 x < Py.ilog2 y)%Z as (Hlt & Hey & Hlog')
      by lia.
    set (m := Py.pow2 (Py.ilog2 y)).
    assert (x <= m) as Hxm.
    { pose proof (pow2_le (Py.ilog2 x + 1) (Py.ilog2 y) ltac:(lia)). unfold m. lra. }
    apply Qle_trans with m.
    + apply Qle_trans with (nearest_multiple (Py.pow2 ex) m).
      * apply nearest_multiple_mono; [apply pow2_pos | exact Hxm].
      * apply Qle_lteq. right.
        apply (nearest_multiple_fixed _ _ (2 ^ (Py.ilog2 y - ex))); [apply pow2_pos|].
        apply pow2_multiple. lia.
    + apply Qle_trans with (nearest_multiple (Py.pow2 ey) m).
      * apply Qle_lteq. right. symmetry.
        apply (nearest_multiple_fixed _ _ (2 ^ (Py.ilog2 y - ey))); [apply pow2_pos|].
        apply pow2_multiple. lia.
      * apply nearest_multiple_mono; [apply pow2_pos | exact Hy_lo].
Qed.

Lemma nearest_nonneg (x : Q) : 0 <= x -> 0 <= Py.nearest x.
Proof.
  intros Hx. rewrite nearest_as_multiple. unfold nearest_multiple.
  pose proof (ulp_pos x) as Hq.
  apply Qmult_le_0_compat; [|lra].
  change 0 with (inject_Z 0). rewrite <- Zle_Qle.
  rewrite <- (round_half_even_Z 0). apply round_half_even_mono.
  change (inject_Z 0) with 0.
  apply Qle_shift_div_l; [exact Hq | lra].
Qed.

Lemma nearest_comp (x y : Q) : 0 < x -> x == y -> Py.nearest x = Py.nearest y.
Proof.
  intros Hx Hxy. unfold Py.nearest, Py.ulp. cbv zeta.
  rewrite (ilog2_comp x y Hx Hxy).
  apply Qred_complete.
  rewrite (round_half_even_comp (x / Py.pow2 (Z.max (Py.ilog2 y - 52) (-1074)))
             (y / Py.pow2 (Z.max (Py.ilog2 y - 52) (-1074)))); [reflexivity|].
  rewrite Hxy. reflexivity.
Qed.

Lemma float_pos (x : Q) : 0 < x -> Py.float x = Py.nearest x.
Proof.
  intros Hx. unfold Py.float. unfold Qlt in Hx. cbn in Hx.
  destruct (Qnum x); [lia | reflexivity | lia].
Qed.

Lemma float_neg (x : Q) : x < 0 -> Py.float x = - Py.nearest (- x).
Proof.
  intros Hx. unfold Py.float. unfold Qlt in Hx. cbn in Hx.
  destruct (Qnum x); [lia | lia | reflexivity].
Qed.

Lemma float_zero (x : Q) : x == 0 -> Py.float x = 0.
Proof.
  intros Hx. unfold Py.float. unfold Qeq in Hx. cbn in Hx.
  destruct (Qnum x); [reflexivity | lia | lia].
Qed.

Lemma float_nonneg (x : Q) : 0 <= x -> 0 <= Py.float x.
Proof.
  intros Hx. destruct (Qlt_le_dec 0 x) as [Hpos|Hle].
  - rewrite float_pos by exact Hpos. apply nearest_nonneg, Hx.
  - rewrite float_zero by lra. lra.
Qed.

Lemma float_nonpos (x : Q) : x <= 0 -> Py.float x <= 0.
Proof.
  intros Hx. destruct (Qlt_le_dec x 0) as [Hneg|Hle].
  - rewrite float_neg by exact Hneg.
    pose proof (nearest_nonneg (- x) ltac:(lra)). lra.
  - rewrite float_zero by lra. lra.
Qed.

Lemma float_mono (x y : Q) : x <= y -> Py.float x <= Py.float y.
Proof.
  intros Hxy. destruct (Qlt_le_dec 0 x) as [Hx|Hx].
  - rewrite (float_pos x Hx), (float_pos y) by lra. apply nearest_mono; assumption.
  - destruct (Qlt_le_dec y 0) as [Hy|Hy].
    + rewrite (float_neg y Hy), (float_neg x) by lra.
      pose proof (nearest_mono (- y) (- x) ltac:(lra) ltac:(lra)). lra.
    + pose proof (float_nonpos x Hx). pose proof (float_nonneg y Hy). lra.
Qed.

Lemma float_comp (x y : Q) : x == y -> Py.float x = Py.float y.
Proof.
  intros Hxy. destruct (Qlt_le_dec 0 x) as [Hx|Hx].
  - rewrite (float_pos x Hx), (float_pos y) by lra. apply nearest_comp; assumption.
  - destruct (Qlt_le_dec x 0) as [Hneg|Hzero].
    + rewrite (float_neg x Hneg), (float_neg y) by lra.
      rewrite (nearest_comp (- x) (- y)); [reflexivity | lra | lra].
    + rewrite (float_zero x), (float_zero y) by lra. reflexivity.
Qed.

Lemma Qred_inject_Z (n : Z) : Qred (inject_Z n) = inject_Z n.
Proof.
  unfold Qred, inject_Z.
  pose proof (Z.ggcd_gcd n 1) as Hg.
  pose proof (Z.ggcd_correct_divisors n 1) as Hd.
  change (Z.pos 1) with 1%Z.
  destruct (Z.ggcd n 1) as [g [aa bb]]. cbn [fst] in Hg.
  rewrite Z.gcd_1_r in Hg. subst g. destruct Hd as [Ha Hb].
  assert (aa = n) as -> by lia. assert (bb = 1%Z) as -> by lia. reflexivity.
Qed.

Lemma float_Z (n : Z) : (0 <= n <= 2 ^ 53)%Z -> Py.float (inject_Z n) = inject_Z n.
Proof.
  intros [Hlo Hhi]. destruct (Z.eq_dec n 0%Z) as [->|Hne]; [reflexivity|].
  assert (0 < inject_Z n) as Hpos.
  { change 0 with (inject_Z 0). rewrite <- Zlt_Qlt. lia. }
  rewrite float_pos by exact Hpos.
  destruct (ilog2_spec (inject_Z n) Hpos) as [Hl_lo Hl_hi].
  assert (0 <= Py.ilog2 (inject_Z n) <= 53)%Z as [HL0 HL53].
  { split.
    - assert (0 < Py.ilog2 (inject_Z n) + 1)%Z; [|lia].
      destruct (Z.lt_ge_cases 0 (Py.ilog2 (inject_Z n) + 1)) as [H|H]; [exact H|exfalso].
      pose proof (pow2_le (Py.ilog2 (inject_Z n) + 1) 0 H) as Hle.
      change (Py.pow2 0) with 1 in Hle.
      assert (inject_Z 1 <= inject_Z n) by (rewrite <- Zle_Qle; lia).
      change (inject_Z 1) with 1 in *. lra.
    - destruct (Z.le_gt_cases (Py.ilog2 (inject_Z n)) 53) as [H|H]; [exact H|exfalso].
      pose proof (pow2_le 54 (Py.ilog2 (inject_Z n)) ltac:(lia)) as Hle.
      rewrite (pow2_Z 54) in Hle by lia.
      assert (inject_Z n <= inject_Z (2 ^ 53)) by (rewrite <- Zle_Qle; lia).
      assert (inject_Z (2 ^ 53) < inject_Z (2 ^ 54)) by (rewrite <- Zlt_Qlt; lia).
      lra. }
  unfold Py.nearest, Py.ulp. cbv zeta.
  set (L := Py.ilog2 (inject_Z n)) in *.
  replace (Z.max (L - 52) (-1074)) with (L - 52)%Z by lia.
  assert (exists k, inject_Z n == inject_Z k * Py.pow2 (L - 52)) as [k Hk].
  { destruct (Z.le_gt_cases L 52) as [Hsmall|Hbig].
    - exists (n * 2 ^ (52 - L))%Z. rewrite inject_Z_mult.
      rewrite <- pow2_Z by lia. rewrite <- Qmult_assoc, <- pow2_add.
      replace (52 - L + (L - 52))%Z with 0%Z by lia. change (Py.pow2 0) with 1. ring.
    - assert (L = 53%Z) as HL by lia. rewrite HL in *.
      assert (n = 2 ^ 53)%Z as ->.
      { apply Z.le_antisymm; [exact Hhi|].
        rewrite (pow2_Z 53) in Hl_lo by lia. rewrite <- Zle_Qle in Hl_lo. exact Hl_lo. }
      exists (2 ^ 52)%Z. reflexivity. }
  rewrite <- (Qred_inject_Z n) at 2.
  apply Qred_complete.
  rewrite (round_half_even_comp _ (inject_Z k)).
  - rewrite round_half_even_Z. rewrite Hk. reflexivity.
  - rewrite Hk. field. pose proof (pow2_pos (L - 52)). lra.
Qed.

Lemma float_0 : Py.float 0 = 0.
Proof. reflexivity. Qed.

Lemma float_1 : Py.float 1 = 1.
Proof. vm_compute. reflexivity. Qed.

Lemma float_unit (x : Q) : 0 <= x <= 1 -> 0 <= Py.float x <= 1.
Proof.
  intros [Hlo Hhi]. split; [apply float_nonneg, Hlo|].
  rewrite <- float_1. apply float_mono, Hhi.
Qed.

Lemma fadd_mono (a a' b b' : Q) :
  a <= a' -> b <= b' -> (a + b)%F <= (a' + b')%F.
Proof. intros Ha Hb. apply float_mono. lra. Qed.

Lemma fmul_mono (a a' b b' : Q) :
  0 <= a <= a' -> 0 <= b <= b' -> (a * b)%F <= (a' * b')%F.
Proof.
  intros [Ha Ha'] [Hb Hb']. apply float_mono.
  apply Qle_trans with (a' * b).
  - apply Qmult_le_compat_r; assumption.
  - rewrite (Qmult_comm a' b), (Qmult_comm a' b').
    apply Qmult_le_compat_r; [assumption | lra].
Qed.

Lemma fmul_comp (a a' b : Q) : a == a' -> (a * b)%F = (a' * b)%F.
Proof. intros H. apply float_comp. rewrite H. reflexivity. Qed.

Lemma fadd_nonneg (a b : Q) : 0 <= a -> 0 <= b -> 0 <= (a + b)%F.
Proof. intros Ha Hb. apply float_nonneg. lra. Qed.

Lemma fmul_nonneg (a b : Q) : 0 <= a -> 0 <= b -> 0 <= (a * b)%F.
Proof. intros Ha Hb. apply float_nonneg, Qmult_le_0_compat; assumption. Qed.

(** A quotient of [[0, 1]] stays in [[0, 1]]. *)
Lemma fdiv_unit (a b : Q) : 0 <= a <= b -> 0 < b -> 0 <= (a / b)%F <= 1.
Proof.
  intros [Ha Hab] Hb. apply float_unit. split.
  - apply Qle_shift_div_l; [exact Hb | lra].
  - apply Qle_shift_div_r; [exact Hb | lra].
Qed.

(** [round(x, ndigits)] keeps a float between two integers between
    them. *)
Lemma round_bounds (x : Q) (ndigits : nat) (lo hi : Z) :
  (0 <= lo)%Z -> (hi <= 2 ^ 53)%Z ->
  inject_Z lo <= x <= inject_Z hi ->
  inject_Z lo <= Py.round x ndigits <= inject_Z hi.
Proof.
  intros Hlo Hhi [Hx_lo Hx_hi]. unfold Py.round. cbv zeta.
  assert (lo <= hi)%Z as Hlohi by (rewrite Zle_Qle; lra).
  assert (0 < 10 ^ Z.of_nat ndigits)%Z as Hscale by (apply Z.pow_pos_nonneg; lia).
  set (scale := (10 ^ Z.of_nat ndigits)%Z) in *.
  assert (0 < inject_Z scale) as Hscale'.
  { change 0 with (inject_Z 0). rewrite <- Zlt_Qlt. exact Hscale. }
  assert (lo * scale <= Py.round_half_even (x * inject_Z scale) <= hi * scale)%Z
    as [Hk_lo Hk_hi].
  { split.
    - rewrite <- (round_half_even_Z (lo * scale)). apply round_half_even_mono.
      rewrite inject_Z_mult. apply Qmult_le_compat_r; [exact Hx_lo | lra].
    - rewrite <- (round_half_even_Z (hi * scale)). apply round_half_even_mono.
      rewrite inject_Z_mult. apply Qmult_le_compat_r; [exact Hx_hi | lra]. }
  set (k := Py.round_half_even (x * inject_Z scale)) in *.
  rewrite <- (float_Z lo), <- (float_Z hi) by lia.
  split; apply float_mono.
  - apply Qle_shift_div_l; [exact Hscale'|].
    rewrite <- inject_Z_mult, <- Zle_Qle. exact Hk_lo.
  - apply Qle_shift_div_r; [exact Hscale'|].
    rewrite <- inject_Z_mult, <- Zle_Qle. exact Hk_hi.
Qed.

(** [sum] of floats of [[0, 1]]: a partial sum does not exceed the number
    of its terms, nor [2 ** 53], where adding 1 changes nothing. *)
Lemma fsum_bounds (l : list Q) (acc : Q) (k : Z) :
  (0 <= k)%Z ->
  (forall x, In x l -> 0 <= x <= 1) ->
  0 <= acc <= inject_Z (Z.min k (2 ^ 53)) ->
  0 <= fold_left Py.fadd l acc
  <= inject_Z (Z.min (k + Z.of_nat (length l)) (2 ^ 53)).
Proof.
  revert acc k. induction l as [|x l IH]; intros acc k Hk Hl Hacc.
  - cbn [fold_left length]. rewrite Z.add_0_r. exact Hacc.
  - cbn [fold_left length].
    destruct (Hl x (or_introl eq_refl)) as [Hx0 Hx1].
    replace (k + Z.of_nat (S (length l)))%Z
      with ((k + 1) + Z.of_nat (length l))%Z by lia.
    apply IH; [lia | intros y Hy; apply Hl; right; exact Hy |].
    destruct Hacc as [Hacc0 Hacc1].
    split; [apply fadd_nonneg; assumption|].
    apply Qle_trans with (Py.float (inject_Z (Z.min k (2 ^ 53)) + 1)).
    { apply float_mono. lra. }
    destruct (Z.le_gt_cases (k + 1) (2 ^ 53)) as [Hsmall|Hbig].
    + rewrite !Z.min_l by lia.
      rewrite (float_comp _ (inject_Z (k + 1))).
      * rewrite float_Z by lia. lra.
      * rewrite inject_Z_plus. reflexivity.
    + rewrite !Z.min_r by lia.
      assert (Py.float (inject_Z (2 ^ 53) + 1) = inject_Z (2 ^ 53)) as ->
        by (vm_compute; reflexivity).
      lra.
Qed.

(** The mean of floats of [[0, 1]], as [sum(l) / len(l)] computes it, is
    in [[0, 1]]. *)
Lemma fmean_bounds (l : list Q) :
  l <> [] -> (forall x, In x l -> 0 <= x <= 1) ->
  0 <= (Py.fsum l / Py.float (inject_Z (Z.of_nat (length l))))%F <= 1.
Proof.
  intros Hne Hl.
  destruct (fsum_bounds l 0 0 ltac:(lia) Hl) as [Hs0 Hs1].
  { rewrite Z.min_l by lia. change (inject_Z 0) with 0. split; lra. }
  fold (Py.fsum l) in Hs0, Hs1. rewrite Z.add_0_l in Hs1.
  set (n := Z.of_nat (length l)) in *.
  assert (1 <= n)%Z as Hn by (destruct l; [contradiction | cbn [length] in n; lia]).
  assert (inject_Z (Z.min n (2 ^ 53)) <= Py.float (inject_Z n)) as Hd.
  { destruct (Z.le_gt_cases n (2 ^ 53)) as [Hsmall|Hbig].
    - rewrite Z.min_l by lia. rewrite float_Z by lia. lra.
    - rewrite Z.min_r by lia. rewrite <- (float_Z (2 ^ 53)) by lia.
      apply float_mono. rewrite <- Zle_Qle. lia. }
  assert (1 <= inject_Z (Z.min n (2 ^ 53))) as Hone.
  { change 1 with (inject_Z 1). rewrite <- Zle_Qle. lia. }
  apply fdiv_unit; lra.
Qed.

End Floats.
(** * Properties *)

(** ** Python built-ins on examples *)

Example split_demo :
  Py.split "  as a   manager,	i need " = ["as"; "a"; "manager,"; "i"; "need"].
Proof. reflexivity. Qed.

Example round3_demo :
  (Py.round3 (8125 # 10000), Py.round3 (625 # 10000), Py.round3 (2 # 3))
  = (203 # 250, 31 # 500, 667 # 1000)%Q.
Proof. reflexivity. Qed.

Example search_so_that_demo :
  Py.search_so_that "i need x so that we comply" = Some "we comply".
Proof. reflexivity. Qed.

(** ** Facts about [sorted] *)

Section SortedFacts.

Context {A K : Type} (ltb : K -> K -> bool) (key : A -> K).
Hypothesis ltb_irrefl : forall a, ltb a a = false.
Hypothesis ltb_trans :
  forall a b c, ltb a b = true -> ltb b c = true -> ltb a c = true.
Hypothesis ltb_connex : forall a b, ltb a b = false -> ltb b a = false -> a = b.

Lemma ltb_asym a b : ltb a b = true -> ltb b a = false.
Proof.
  intros Hab. destruct (ltb b a) eqn:Hba; [|reflexivity].
  rewrite <- (ltb_irrefl a). symmetry. eapply ltb_trans; eassumption.
Qed.

(** Two insertions with different keys commute. *)
Lemma insert_sorted_comm x y l :
  ltb (key x) (key y) = true ->
  Py.insert_sorted ltb key x (Py.insert_sorted ltb key y l)
  = Py.insert_sorted ltb key y (Py.insert_sorted ltb key x l).
Proof.
  intros Hxy. pose proof (ltb_asym _ _ Hxy) as Hyx.
  induction l as [|z l IH]; simpl.
  - rewrite Hyx, Hxy. reflexivity.
  - destruct (ltb (key z) (key y)) eqn:Hzy; simpl.
    + destruct (ltb (key z) (key x)) eqn:Hzx; simpl.
      * rewrite Hzy. f_equal. exact IH.
      * rewrite Hxy. simpl. rewrite Hzy. reflexivity.
    + rewrite Hyx.
      destruct (ltb (key z) (key x)) eqn:Hzx; simpl.
      * rewrite (ltb_trans _ _ _ Hzx Hxy) in Hzy. discriminate.
      * rewrite Hxy. simpl. rewrite Hzy. reflexivity.
Qed.

Lemma insert_sorted_permutation x l :
  Permutation (Py.insert_sorted ltb key x l) (x :: l).
Proof.
  induction l as [|y l IH]; simpl; [reflexivity|].
  destruct (ltb (key y) (key x)); [|reflexivity].
  rewrite IH. apply perm_swap.
Qed.

Lemma sorted_permutation l : Permutation (Py.sorted ltb key l) l.
Proof.
  induction l as [|x l IH]; simpl; [reflexivity|].
  rewrite insert_sorted_permutation. apply perm_skip, IH.
Qed.

Lemma sorted_length l : length (Py.sorted ltb key l) = length l.
Proof. apply Permutation_length, sorted_permutation. Qed.

(** What a projection [g] shows of a sorted list, when the key can be read
    off the projection. *)
Section Projection.

Context {B : Type} (g : A -> B) (key' : B -> K).
Hypothesis key_factors : forall a, key a = key' (g a).

Lemma map_insert_sorted x x' s s' :
  g x = g x' -> map g s = map g s' ->
  map g (Py.insert_sorted ltb key x s) = map g (Py.insert_sorted ltb key x' s').
Proof.
  intros Hx. revert s'.
  induction s as [|y s IH]; intros [|y' s'] Hs; simpl in *; try discriminate.
  - congruence.
  - injection Hs as Hy Hs.
    rewrite !key_factors, <- Hx, <- Hy.
    destruct (ltb (key' (g y)) (key' (g x))); simpl.
    + rewrite Hy. f_equal. apply IH, Hs.
    + congruence.
Qed.

(** Sorting two arrangements of the same elements shows the same
    projections, provided elements with equal keys have equal projections. *)
Theorem map_sorted_permutation l1 l2 :
  Permutation l1 l2 ->
  (forall x y, In x l1 -> In y l1 -> key x = key y -> g x = g y) ->
  map g (Py.sorted ltb key l1) = map g (Py.sorted ltb key l2).
Proof.
  induction 1 as [|x l1 l2 Hp IH|x y l|l1 l2 l3 Hp1 IH1 Hp2 IH2]; intros Hties.
  - reflexivity.
  - simpl. apply map_insert_sorted; [reflexivity|].
    apply IH. intros a b Ha Hb. apply Hties; right; assumption.
  - simpl.
    destruct (ltb (key x) (key y)) eqn:Hxy.
    + rewrite (insert_sorted_comm x y) by exact Hxy. reflexivity.
    + destruct (ltb (key y) (key x)) eqn:Hyx.
      * rewrite (insert_sorted_comm y x) by exact Hyx. reflexivity.
      * assert (g y = g x) as Hg.
        { apply Hties; [left; reflexivity | right; left; reflexivity |].
          symmetry. apply ltb_connex; assumption. }
        apply map_insert_sorted; [exact Hg|].
        apply map_insert_sorted; [symmetry; exact Hg | reflexivity].
  - rewrite IH1 by exact Hties. apply IH2.
    intros a b Ha Hb. apply Hties; eapply Permutation_in;
      try (apply Permutation_sym; exact Hp1); assumption.
Qed.

End Projection.

(** With pairwise distinct keys the sorted list itself is the same. *)
Corollary sorted_permutation_eq l1 l2 :
  Permutation l1 l2 -> NoDup (map key l1) ->
  Py.sorted ltb key l1 = Py.sorted ltb key l2.
Proof.
  intros Hp Hnd.
  rewrite <- (map_id (Py.sorted ltb key l1)), <- (map_id (Py.sorted ltb key l2)).
  apply (map_sorted_permutation (fun a => a) key); [reflexivity | exact Hp |].
  intros x y Hx Hy Hk.
  clear Hp. induction l1 as [|z l1 IH]; [destruct Hx|].
  simpl in Hnd. apply NoDup_cons in Hnd as [Hz Hnd].
  destruct Hx as [->|Hx], Hy as [->|Hy].
  - reflexivity.
  - exfalso. apply Hz. rewrite Hk. apply list_elem_of_In, in_map, Hy.
  - exfalso. apply Hz. rewrite <- Hk. apply list_elem_of_In, in_map, Hx.
  - apply IH; assumption.
Qed.

End SortedFacts.

(** [<] on strings is a strict total order. *)

Lemma ascii_compare_lt_trans a b c :
  Ascii.compare a b = Lt -> Ascii.compare b c = Lt -> Ascii.compare a c = Lt.
Proof.
  unfold Ascii.compare. rewrite !N.compare_lt_iff. apply N.lt_trans.
Qed.

Lemma ascii_compare_refl c : Ascii.compare c c = Eq.
Proof. unfold Ascii.compare. apply N.compare_refl. Qed.

Lemma string_compare_refl s : String.compare s s = Eq.
Proof.
  induction s as [|c s IH]; simpl; [reflexivity|].
  rewrite ascii_compare_refl. exact IH.
Qed.

Lemma string_compare_lt_trans s1 s2 s3 :
  String.compare s1 s2 = Lt -> String.compare s2 s3 = Lt ->
  String.compare s1 s3 = Lt.
Proof.
  revert s2 s3.
  induction s1 as [|c1 s1 IH]; intros [|c2 s2] [|c3 s3]; simpl;
    try discriminate; try reflexivity.
  destruct (Ascii.compare c1 c2) eqn:H12; try discriminate;
    destruct (Ascii.compare c2 c3) eqn:H23; try discriminate; intros Ha Hb.
  - apply Ascii.compare_eq_iff in H12, H23. subst.
    rewrite ascii_compare_refl.
    eapply IH; eassumption.
  - apply Ascii.compare_eq_iff in H12. subst. rewrite H23. reflexivity.
  - apply Ascii.compare_eq_iff in H23. subst. rewrite H12. reflexivity.
  - rewrite (ascii_compare_lt_trans _ _ _ H12 H23). reflexivity.
Qed.

Lemma string_ltb_irrefl s : String.ltb s s = false.
Proof. unfold String.ltb. rewrite string_compare_refl. reflexivity. Qed.

Lemma string_ltb_trans s1 s2 s3 :
  String.ltb s1 s2 = true -> String.ltb s2 s3 = true -> String.ltb s1 s3 = true.
Proof.
  unfold String.ltb. intros H12 H23.
  destruct (String.compare s1 s2) eqn:Ha; try discriminate.
  destruct (String.compare s2 s3) eqn:Hb; try discriminate.
  rewrite (string_compare_lt_trans _ _ _ Ha Hb). reflexivity.
Qed.

Lemma string_ltb_connex s1 s2 :
  String.ltb s1 s2 = false -> String.ltb s2 s1 = false -> s1 = s2.
Proof.
  unfold String.ltb. intros H12 H21. apply String.compare_eq_iff.
  rewrite String.compare_antisym in H21.
  destruct (String.compare s1 s2); simpl in *; try discriminate; reflexivity.
Qed.

Example five_stories_deduplicated :
  match deduplicate_and_score example_libraries default_similarity_threshold
          (engine example_libraries) five_stories with
  | Py.Ok scored_stories =>
      map (fun s => (story_id s, duplicate_count s, Match_Score s)) scored_stories
      = [("US-2", None, Some (Py.float 0.86));
         ("US-1", Some 2%nat, Some (Py.float 0.785));
         ("US-3", Some 2%nat, Some (Py.float 0.785))]
  | Py.Raise _ => False
  end.
Proof. vm_compute. reflexivity. Qed.

(** ** Order independence of [deduplicate_and_score] *)

(** C1.  If the stories have pairwise distinct sort keys
    [x.get('User Story ID', '')], then [deduplicate_and_score] returns the
    same list of stories (same field values, same order) on every
    arrangement of its input, reversal included. *)
Theorem deduplicate_and_score_permutation
    (lib : Libraries) (similarity_threshold : Q) (S P : list Story) :
  NoDup (map story_id S) ->
  Permutation S P ->
  deduplicate_and_score lib similarity_threshold (engine lib) S
  = deduplicate_and_score lib similarity_threshold (engine lib) P.
Proof.
  intros Hdistinct Hperm.
  assert (Py.sorted String.ltb story_id S = Py.sorted String.ltb story_id P)
    as Hsorted.
  { apply (sorted_permutation_eq String.ltb story_id string_ltb_irrefl
             string_ltb_trans string_ltb_connex); assumption. }
  destruct S as [|s S]; destruct P as [|p P].
  - reflexivity.
  - apply Permutation_nil in Hperm. discriminate.
  - apply Permutation_sym, Permutation_nil in Hperm. discriminate.
  - unfold deduplicate_and_score. rewrite Hsorted. reflexivity.
Qed.

Lemma deduplicate_and_score_permutation_witness :
  NoDup (map story_id five_stories)
  /\ Permutation five_stories (rev five_stories)
  /\ deduplicate_and_score example_libraries default_similarity_threshold
       (engine example_libraries) five_stories
     = deduplicate_and_score example_libraries default_similarity_threshold
         (engine example_libraries) (rev five_stories).
Proof.
  assert (NoDup (map story_id five_stories)) as Hdistinct.
  { apply (bool_decide_unpack _). vm_compute. exact I. }
  split; [exact Hdistinct|].
  split; [apply Permutation_rev|].
  apply (deduplicate_and_score_permutation example_libraries
           default_similarity_threshold five_stories (rev five_stories)
           Hdistinct (Permutation_rev five_stories)).
Defined.

(** ** The duplicate decision *)

Lemma split_empty : Py.split "" = [].
Proof. reflexivity. Qed.

Lemma nonempty_false (s : string) : Py.nonempty s = false -> s = "".
Proof. destruct s; [reflexivity | discriminate]. Qed.

Lemma text_similarity_jaccard (story1 story2 : Story) :
  _calculate_text_similarity story1 story2
  = Py.float (jaccard (list_to_set (Py.split (get clean_text "" story1)))
                      (list_to_set (Py.split (get clean_text "" story2)))).
Proof.
  unfold _calculate_text_similarity, jaccard.
  set (text1 := get clean_text "" story1).
  set (text2 := get clean_text "" story2).
  set (words1 := list_to_set (Py.split text1) : gset string).
  set (words2 := list_to_set (Py.split text2) : gset string).
  assert (forall w1 w2 : gset string,
            w1 = ∅ \/ w2 = ∅ ->
            0%Q = Py.float (if bool_decide (w1 ∪ w2 = ∅) then 0
                            else inject_Z (Z.of_nat (size (w1 ∩ w2)))
                                 / inject_Z (Z.of_nat (size (w1 ∪ w2))))%Q)
    as Hempty.
  { intros w1 w2 Hw. case_bool_decide; [reflexivity|].
    assert (w1 ∩ w2 = ∅) as -> by (destruct Hw; subst; set_solver).
    rewrite size_empty. symmetry. apply float_zero.
    unfold Qdiv. apply Qmult_0_l. }
  destruct (Py.nonempty text1) eqn:H1; simpl.
  2:{ apply Hempty. left. subst words1. rewrite (nonempty_false _ H1). reflexivity. }
  destruct (Py.nonempty text2) eqn:H2; simpl.
  2:{ apply Hempty. right. subst words2. rewrite (nonempty_false _ H2). reflexivity. }
  case_bool_decide as Hw1; simpl; [apply Hempty; left; exact Hw1|].
  case_bool_decide as Hw2; simpl; [apply Hempty; right; exact Hw2|].
  case_bool_decide as Hu; [exfalso; apply Hw1; set_solver|].
  destruct (0 <? size (words1 ∪ words2))%nat eqn:Hpos; [reflexivity|].
  exfalso. apply Hu. apply Nat.ltb_ge in Hpos.
  apply leibniz_equiv, size_empty_inv. lia.
Qed.

Lemma clean_story_fields (story : Story) :
  clean_text (clean_story story)
  = match User_Story story with
    | Some t => Some (_normalize_text t)
    | None => clean_text story
    end
  /\ clean_capability (clean_story story)
     = match Capability story with
       | Some t => Some (_normalize_text t)
       | None => clean_capability story
       end.
Proof.
  unfold clean_story. destruct story as [? us cap sn ? ? ? ? ? ? ? ? ? ? ? ? ? ? ?].
  destruct us, cap, sn; simpl; split; reflexivity.
Qed.

(** C3.  For two stories that carry ['User Story'] and ['Capability'], the
    combined score of their cleaned forms is
    [lexical * 0.4 + capability * 0.4 + semantic * 0.2], computed from
    left to right in binary64 arithmetic, where [lexical] is the float of
    the Jaccard index of the token sets of the normalised story texts,
    [capability] the [SequenceMatcher] ratio of the normalised capabilities
    and [semantic] the vectoriser's cosine of the pair of combined texts
    (the last two are [0.0] when a text is empty, and the vectoriser's
    failure counts as [0.0]).  The pair is a duplicate exactly when this
    computed score is at least the threshold: a score equal to the
    threshold is a duplicate, a score below it is not. *)
Theorem duplicate_iff_combined_score_reaches_threshold
    (lib : Libraries) (similarity_threshold : Q) (a b : Story)
    (story_a story_b capability_a capability_b : string) :
  User_Story a = Some story_a -> User_Story b = Some story_b ->
  Capability a = Some capability_a -> Capability b = Some capability_b ->
  let text1 := _normalize_text story_a in
  let text2 := _normalize_text story_b in
  let cap1 := _normalize_text capability_a in
  let cap2 := _normalize_text capability_b in
  let lexical :=
    Py.float
      (jaccard (list_to_set (Py.split text1)) (list_to_set (Py.split text2))) in
  let capability :=
    if Py.nonempty cap1 && Py.nonempty cap2
    then SequenceMatcher_ratio lib cap1 cap2 else 0%Q in
  let semantic :=
    if nonblank (text1 +:+ " " +:+ cap1) && nonblank (text2 +:+ " " +:+ cap2)
    then match tfidf_cosine_similarity lib (text1 +:+ " " +:+ cap1)
                 (text2 +:+ " " +:+ cap2) with
         | Py.Ok similarity => similarity
         | Py.Raise _ => 0%Q
         end
    else 0%Q in
  let combined := weighted_similarity lib (clean_story a) (clean_story b) in
  let duplicate :=
    _are_stories_similar lib similarity_threshold (clean_story a) (clean_story b) in
  combined
  = (lexical * Py.float 0.4 + capability * Py.float 0.4
     + semantic * Py.float 0.2)%F
  /\ (duplicate = true <-> (similarity_threshold <= combined)%Q)
  /\ ((combined == similarity_threshold)%Q -> duplicate = true)
  /\ ((combined < similarity_threshold)%Q -> duplicate = false).
Proof.
  intros Ha Hb Hca Hcb text1 text2 cap1 cap2 lexical capability semantic
    combined duplicate.
  destruct (clean_story_fields a) as [Hta Hka].
  destruct (clean_story_fields b) as [Htb Hkb].
  rewrite Ha in Hta. rewrite Hb in Htb. rewrite Hca in Hka. rewrite Hcb in Hkb.
  assert (duplicate = true <-> (similarity_threshold <= combined)%Q) as Hiff.
  { subst duplicate. unfold _are_stories_similar. apply Qle_bool_iff. }
  split; [|split; [exact Hiff | split]].
  - subst combined. unfold weighted_similarity.
    rewrite text_similarity_jaccard.
    unfold _calculate_capability_similarity, _calculate_semantic_similarity, get.
    rewrite Hta, Htb, Hka, Hkb.
    fold text1 text2 cap1 cap2 lexical.
    assert (forall x y : bool, negb x || negb y = negb (x && y)) as Hdm
      by (intros [] []; reflexivity).
    rewrite !Hdm. subst capability semantic. unfold nonblank.
    destruct (Py.nonempty cap1 && Py.nonempty cap2);
      destruct (Py.nonempty (Py.strip (text1 +:+ " " +:+ cap1))
                && Py.nonempty (Py.strip (text2 +:+ " " +:+ cap2)));
      reflexivity.
  - intros Heq. apply Hiff. rewrite Heq. apply Qle_refl.
  - intros Hlt. destruct duplicate eqn:Hd; [|reflexivity].
    exfalso. apply (Qlt_not_le _ _ Hlt). apply Hiff. reflexivity.
Qed.

Lemma duplicate_iff_combined_score_reaches_threshold_witness :
  (User_Story approve_3
   = Some "As a manager, I need to approve documents so that compliance is ensured"
   /\ User_Story approve_5 = User_Story approve_3
   /\ Capability approve_3 = Some "document approval"
   /\ Capability approve_5 = Capability approve_3)
  /\ weighted_similarity example_libraries (clean_story approve_3)
       (clean_story approve_5)
     = (1%Q * Py.float 0.4 + 1%Q * Py.float 0.4 + 1%Q * Py.float 0.2)%F
  /\ (weighted_similarity example_libraries (clean_story approve_3)
        (clean_story approve_5) == 1)%Q
  /\ _are_stories_similar example_libraries 1 (clean_story approve_3)
       (clean_story approve_5) = true.
Proof.
  split; [repeat split; reflexivity|].
  destruct (duplicate_iff_combined_score_reaches_threshold example_libraries
              1 approve_3 approve_5 _ _ _ _ eq_refl eq_refl eq_refl eq_refl)
    as (Hcombined & _ & Hboundary & _).
  assert (weighted_similarity example_libraries (clean_story approve_3)
            (clean_story approve_5) == 1)%Q as Hone
    by (vm_compute; reflexivity).
  split; [|split; [exact Hone | exact (Hboundary Hone)]].
  rewrite Hcombined. vm_compute. reflexivity.
Defined.

(** The score that is compared is the computed one.  Two texts that share
    7 of their 10 tokens have the Jaccard index [7/10], and [0.4 * 7/10]
    is [0.28]; the floats give [0.7 * 0.4 = 0.27999999999999997], which is
    below the float [0.28]: with that threshold the pair is no
    duplicate. *)
Example boundary_of_the_computed_score :
  let lib := {| SequenceMatcher_ratio := fun _ _ => 0%Q;
                tfidf_cosine_similarity := fun _ _ => Py.Ok 0%Q;
                md5_hexdigest := fun s => s |} in
  let a := example_story "US-1" "k1 k2 k3 k4 k5 k6 k7 p1" "" (Py.float 0.8) in
  let b := example_story "US-2" "k1 k2 k3 k4 k5 k6 k7 q1 q2" "" (Py.float 0.8) in
  jaccard (list_to_set (Py.split "k1 k2 k3 k4 k5 k6 k7 p1"))
    (list_to_set (Py.split "k1 k2 k3 k4 k5 k6 k7 q1 q2")) = (7 # 10)%Q
  /\ ((7 # 10) * 0.4 == 0.28)%Q
  /\ weighted_similarity lib (clean_story a) (clean_story b)
     = Py.float 0.27999999999999997
  /\ (Py.float 0.27999999999999997 < Py.float 0.28)%Q
  /\ _are_stories_similar lib (Py.float 0.28) (clean_story a) (clean_story b)
     = false
  /\ _are_stories_similar lib (Py.float 0.27999999999999997) (clean_story a)
       (clean_story b) = true.
Proof. vm_compute. repeat split; reflexivity. Qed.

(** ** Grouping *)

Section Grouping.

Context (lib : Libraries) (similarity_threshold : Q).

Lemma scan_candidate_processed story current_group (processed : gset nat) j other_story :
  j ∈ processed ->
  scan_candidate lib similarity_threshold story (current_group, processed)
    (j, other_story) = (current_group, processed).
Proof. intros Hj. unfold scan_candidate. rewrite bool_decide_eq_true_2; done. Qed.

Lemma scan_candidate_fresh story current_group (processed : gset nat) j other_story :
  j ∉ processed ->
  scan_candidate lib similarity_threshold story (current_group, processed)
    (j, other_story)
  = if _are_stories_similar lib similarity_threshold story other_story
    then (current_group ++ [j], {[j]} ∪ processed)
    else (current_group, processed).
Proof. intros Hj. unfold scan_candidate. rewrite bool_decide_eq_false_2; done. Qed.

End Grouping.

(** C2, as stated, fails: the three stories are in identifier order,
    [chain_A] and [chain_B] are duplicates, so are [chain_B] and
    [chain_C], [chain_A] and [chain_C] are not, and the grouping is
    [[0, 1]]: the third story is not in the group, and the run returns
    two stories. *)
Lemma chain_is_not_one_group :
  let stories := _clean_stories [chain_A; chain_B; chain_C] in
  let similar := _are_stories_similar example_libraries chain_threshold in
  Py.sorted String.ltb story_id [chain_A; chain_B; chain_C]
  = [chain_A; chain_B; chain_C]
  /\ stories = map clean_story [chain_A; chain_B; chain_C]
  /\ similar (clean_story chain_A) (clean_story chain_B) = true
  /\ similar (clean_story chain_B) (clean_story chain_C) = true
  /\ similar (clean_story chain_A) (clean_story chain_C) = false
  /\ _find_duplicates example_libraries chain_threshold stories = [[0; 1]]%nat
  /\ _find_duplicates example_libraries chain_threshold stories <> [[0; 1; 2]]%nat
  /\ match deduplicate_and_score example_libraries chain_threshold
             (engine example_libraries) [chain_A; chain_B; chain_C] with
     | Py.Ok scored_stories =>
         map (fun s => (story_id s, duplicate_count s)) scored_stories
         = [("US-1", Some 2%nat); ("US-3", None)]
     | Py.Raise _ => False
     end.
Proof. vm_compute. repeat split; try reflexivity. discriminate. Qed.

(** C2, amended.  In a list of three stories [A; B; C] where [A] and [B] are
    duplicates and [A] and [C] are not, the grouping is [[0, 1]] whether or
    not [B] and [C] are duplicates: a later story is only ever compared
    with the first member of the group under construction. *)
Theorem third_story_left_out_of_group
    (lib : Libraries) (similarity_threshold : Q) (A B C : Story) :
  _are_stories_similar lib similarity_threshold A B = true ->
  _are_stories_similar lib similarity_threshold A C = false ->
  _find_duplicates lib similarity_threshold [A; B; C] = [[0; 1]]%nat.
Proof.
  intros HAB HAC. unfold _find_duplicates, Py.enumerate.
  cbn [Py.enumerate_from fold_left]. unfold scan_story at 3.
  rewrite bool_decide_eq_false_2 by set_solver.
  cbn [Nat.add drop Py.enumerate_from fold_left].
  rewrite scan_candidate_fresh by set_solver. rewrite HAB.
  rewrite scan_candidate_fresh by set_solver. rewrite HAC.
  cbn [length app Nat.ltb Nat.leb].
  unfold scan_story at 2. rewrite bool_decide_eq_true_2 by set_solver.
  unfold scan_story. rewrite bool_decide_eq_false_2 by set_solver.
  cbn [Nat.add drop Py.enumerate_from fold_left length app Nat.ltb Nat.leb].
  reflexivity.
Qed.

Lemma third_story_left_out_of_group_witness :
  _are_stories_similar example_libraries chain_threshold
    (clean_story chain_A) (clean_story chain_B) = true
  /\ _are_stories_similar example_libraries chain_threshold
       (clean_story chain_A) (clean_story chain_C) = false
  /\ _find_duplicates example_libraries chain_threshold
       [clean_story chain_A; clean_story chain_B; clean_story chain_C]
     = [[0; 1]]%nat.
Proof.
  assert (_are_stories_similar example_libraries chain_threshold
            (clean_story chain_A) (clean_story chain_B) = true) as HAB
    by (vm_compute; reflexivity).
  assert (_are_stories_similar example_libraries chain_threshold
            (clean_story chain_A) (clean_story chain_C) = false) as HAC
    by (vm_compute; reflexivity).
  split; [exact HAB|]. split; [exact HAC|].
  apply (third_story_left_out_of_group example_libraries chain_threshold
           (clean_story chain_A) (clean_story chain_B) (clean_story chain_C)
           HAB HAC).
Defined.

(** The chain does not depend on the values chosen in [example_libraries]:
    the three stories are related in the same way for all libraries that give the ratio [1] to a string and
    itself, the ratio [0] to ["mmm"] and ["zzz"], cosines that are not
    negative, and no positive cosine to two texts without a common term. *)
Lemma chain_with_any_libraries (lib : Libraries) :
  (SequenceMatcher_ratio lib "mmm" "mmm" == 1)%Q ->
  (SequenceMatcher_ratio lib "mmm" "zzz" == 0)%Q ->
  (forall a b v, tfidf_cosine_similarity lib a b = Py.Ok v -> (0 <= v)%Q) ->
  (forall v, tfidf_cosine_similarity lib "alpha mmm" "beta zzz" = Py.Ok v ->
             (v == 0)%Q) ->
  let similar := _are_stories_similar lib chain_threshold in
  similar (clean_story chain_A) (clean_story chain_B) = true
  /\ similar (clean_story chain_B) (clean_story chain_C) = true
  /\ similar (clean_story chain_A) (clean_story chain_C) = false.
Proof.
  intros Hsame Hdisjoint Hcosine Hnothing similar.
  assert (forall a b,
            (0 <= match tfidf_cosine_similarity lib a b with
                  | Py.Ok similarity => similarity
                  | Py.Raise _ => 0
                  end)%Q) as Hsemantic.
  { intros a b. destruct (tfidf_cosine_similarity lib a b) as [v|] eqn:Hv.
    - apply (Hcosine a b v Hv).
    - apply Qle_refl. }
  assert (forall score,
            (0 <= score)%Q ->
            (chain_threshold <= (chain_threshold + score * Py.float 0.2)%F)%Q)
    as Hreached.
  { intros score Hscore.
    apply Qle_trans with (chain_threshold + 0%Q)%F;
      [vm_compute; discriminate|].
    apply fadd_mono; [apply Qle_refl|].
    apply fmul_nonneg; [exact Hscore | vm_compute; discriminate]. }
  assert (similar (clean_story chain_A) (clean_story chain_B) = true) as HAB.
  { apply Qle_bool_iff. unfold weighted_similarity.
    assert (_calculate_text_similarity (clean_story chain_A) (clean_story chain_B)
            = 0%Q) as -> by (vm_compute; reflexivity).
    assert (_calculate_capability_similarity lib (clean_story chain_A)
              (clean_story chain_B)
            = SequenceMatcher_ratio lib "mmm" "mmm") as -> by reflexivity.
    assert (_calculate_semantic_similarity lib (clean_story chain_A)
              (clean_story chain_B)
            = match tfidf_cosine_similarity lib "alpha mmm" "beta mmm" with
              | Py.Ok similarity => similarity
              | Py.Raise _ => 0%Q
              end) as -> by reflexivity.
    rewrite (fmul_comp _ 1%Q _ Hsame).
    assert ((0%Q * Py.float 0.4 + 1%Q * Py.float 0.4)%F = chain_threshold) as ->
      by (vm_compute; reflexivity).
    apply Hreached, Hsemantic. }
  assert (similar (clean_story chain_B) (clean_story chain_C) = true) as HBC.
  { apply Qle_bool_iff. unfold weighted_similarity.
    assert (_calculate_text_similarity (clean_story chain_B) (clean_story chain_C)
            = 1%Q) as -> by (vm_compute; reflexivity).
    assert (_calculate_capability_similarity lib (clean_story chain_B)
              (clean_story chain_C)
            = SequenceMatcher_ratio lib "mmm" "zzz") as -> by reflexivity.
    assert (_calculate_semantic_similarity lib (clean_story chain_B)
              (clean_story chain_C)
            = match tfidf_cosine_similarity lib "beta mmm" "beta zzz" with
              | Py.Ok similarity => similarity
              | Py.Raise _ => 0%Q
              end) as -> by reflexivity.
    rewrite (fmul_comp _ 0%Q _ Hdisjoint).
    assert ((1%Q * Py.float 0.4 + 0%Q * Py.float 0.4)%F = chain_threshold) as ->
      by (vm_compute; reflexivity).
    apply Hreached, Hsemantic. }
  assert (similar (clean_story chain_A) (clean_story chain_C) = false) as HAC.
  { destruct (similar (clean_story chain_A) (clean_story chain_C)) eqn:Hsim;
      [|reflexivity].
    exfalso. apply Qle_bool_iff in Hsim. revert Hsim. unfold weighted_similarity.
    assert (_calculate_text_similarity (clean_story chain_A) (clean_story chain_C)
            = 0%Q) as -> by (vm_compute; reflexivity).
    assert (_calculate_capability_similarity lib (clean_story chain_A)
              (clean_story chain_C)
            = SequenceMatcher_ratio lib "mmm" "zzz") as -> by reflexivity.
    assert (_calculate_semantic_similarity lib (clean_story chain_A)
              (clean_story chain_C)
            = match tfidf_cosine_similarity lib "alpha mmm" "beta zzz" with
              | Py.Ok similarity => similarity
              | Py.Raise _ => 0%Q
              end) as -> by reflexivity.
    rewrite (fmul_comp _ 0%Q _ Hdisjoint).
    assert ((match tfidf_cosine_similarity lib "alpha mmm" "beta zzz" with
             | Py.Ok similarity => similarity
             | Py.Raise _ => 0%Q
             end == 0)%Q) as Hzero.
    { destruct (tfidf_cosine_similarity lib "alpha mmm" "beta zzz") as [v|] eqn:Hv;
        [apply (Hnothing v eq_refl) | reflexivity]. }
    rewrite (fmul_comp _ 0%Q _ Hzero).
    vm_compute. intros Hle. apply Hle. reflexivity. }
  split; [exact HAB | split; [exact HBC | exact HAC]].
Qed.

(** ** The groups are disjoint and in range *)

Lemma enumerate_from_fst {A} (start : nat) (l : list A) :
  map fst (Py.enumerate_from start l) = seq start (length l).
Proof.
  revert start. induction l as [|x l IH]; intros start; simpl; [reflexivity|].
  rewrite IH. reflexivity.
Qed.

Lemma enumerate_from_snd {A} (start : nat) (l : list A) :
  map snd (Py.enumerate_from start l) = l.
Proof.
  revert start. induction l as [|x l IH]; intros start; simpl; [reflexivity|].
  rewrite IH. reflexivity.
Qed.

Lemma enumerate_from_lookup {A} (start : nat) (l : list A) i x :
  In (i, x) (Py.enumerate_from start l) ->
  (start <= i)%nat /\ l !! (i - start)%nat = Some x.
Proof.
  revert start. induction l as [|y l IH]; intros start; simpl; [intros []|].
  intros [Heq|Hin].
  - injection Heq as <- <-. rewrite Nat.sub_diag. split; [lia | reflexivity].
  - apply IH in Hin as [Hle Hl]. split; [lia|].
    replace (i - start)%nat with (S (i - S start)) by lia. exact Hl.
Qed.

Lemma concat_permutation {A} (l k : list (list A)) :
  Permutation l k -> Permutation (concat l) (concat k).
Proof.
  induction 1 as [|x l k _ IH|x y l|l1 l2 l3 _ IH1 _ IH2]; simpl.
  - reflexivity.
  - rewrite IH. reflexivity.
  - rewrite !app_assoc. apply Permutation_app_tail, Permutation_app_comm.
  - rewrite IH1. exact IH2.
Qed.

Lemma nat_ltb_irrefl (a : nat) : (a <? a)%nat = false.
Proof. apply Nat.ltb_irrefl. Qed.

Lemma nat_ltb_trans (a b c : nat) :
  (a <? b)%nat = true -> (b <? c)%nat = true -> (a <? c)%nat = true.
Proof. rewrite !Nat.ltb_lt. lia. Qed.

Section GroupInvariant.

Context (lib : Libraries) (similarity_threshold : Q).

(** The inner loop appends to the group, in order, indices of later
    stories that were not yet processed, and marks them. *)
Lemma inner_loop (story : Story) (entries : list (nat * Story)) :
  forall (current_group : list nat) (processed : gset nat),
  exists added : list nat,
    fold_left (scan_candidate lib similarity_threshold story) entries
      (current_group, processed)
    = (current_group ++ added, list_to_set added ∪ processed)
    /\ NoDup added
    /\ (forall j, j ∈ added -> (j ∉ processed) /\ In j (map fst entries)).
Proof.
  induction entries as [|[j other_story] entries IH]; intros current_group processed.
  - exists []. simpl. rewrite app_nil_r. split; [f_equal; set_solver|].
    split; [constructor|]. intros j Hj. inversion Hj.
  - cbn [fold_left]. destruct (decide (j ∈ processed)) as [Hj|Hj].
    + rewrite scan_candidate_processed by exact Hj.
      destruct (IH current_group processed) as (added & Heq & Hnd & Hin).
      exists added. split; [exact Heq|]. split; [exact Hnd|].
      intros j' Hj'. destruct (Hin j' Hj') as [Hfresh Hentry].
      split; [exact Hfresh | right; exact Hentry].
    + rewrite scan_candidate_fresh by exact Hj.
      destruct (_are_stories_similar lib similarity_threshold story other_story).
      * destruct (IH (current_group ++ [j]) ({[j]} ∪ processed))
          as (added & Heq & Hnd & Hin).
        exists (j :: added). rewrite Heq. split.
        { f_equal; [rewrite <- app_assoc; reflexivity | set_solver]. }
        split.
        { apply NoDup_cons. split; [|exact Hnd].
          intros Hadd. destruct (Hin j Hadd) as [Hn _]. set_solver. }
        intros j' Hj'. apply elem_of_cons in Hj' as [->|Hj'].
        { split; [exact Hj | left; reflexivity]. }
        destruct (Hin j' Hj') as [Hfresh Hentry].
        split; [set_solver | right; exact Hentry].
      * destruct (IH current_group processed) as (added & Heq & Hnd & Hin).
        exists added. split; [exact Heq|]. split; [exact Hnd|].
        intros j' Hj'. destruct (Hin j' Hj') as [Hfresh Hentry].
        split; [exact Hfresh | right; exact Hentry].
Qed.

Lemma scan_story_ok (stories : list Story) state (i : nat) (story : Story) :
  groups_ok (length stories) state ->
  (i < length stories)%nat ->
  groups_ok (length stories)
    (scan_story lib similarity_threshold stories state (i, story)).
Proof.
  destruct state as [duplicate_groups processed]. unfold groups_ok.
  intros (Hlen & Hnd & Hmarked & Hrange) Hi. cbn [fst snd] in *.
  unfold scan_story. case_bool_decide as Hprocessed.
  { repeat split; assumption. }
  destruct (inner_loop story
              (Py.enumerate_from (i + 1) (drop (i + 1) stories))
              [i] ({[i]} ∪ processed)) as (added & -> & Hadded & Hfresh).
  assert (forall j, j ∈ added -> (j < length stories)%nat) as Hadded_range.
  { intros j Hj. destruct (Hfresh j Hj) as [_ Hentry].
    rewrite enumerate_from_fst in Hentry. apply in_seq in Hentry.
    rewrite length_drop in Hentry. lia. }
  assert (forall j, j ∈ list_to_set added ∪ ({[i]} ∪ processed) ->
                    (j < length stories)%nat) as Hrange'.
  { intros j Hj.
    apply elem_of_union in Hj as [Hj|Hj].
    - apply Hadded_range. apply elem_of_list_to_set in Hj. exact Hj.
    - apply elem_of_union in Hj as [Hj|Hj].
      + apply elem_of_singleton in Hj. subst. exact Hi.
      + apply Hrange, Hj. }
  destruct (1 <? length ([i] ++ added))%nat eqn:Hsize; cbn [fst snd].
  - apply Nat.ltb_lt in Hsize.
    assert (Permutation (Py.sorted Nat.ltb (fun n => n) ([i] ++ added))
              (i :: added)) as Hsorted by apply sorted_permutation.
    repeat split.
    + apply Forall_app. split; [exact Hlen|]. constructor; [|constructor].
      rewrite sorted_length. exact Hsize.
    + rewrite concat_app. cbn [concat]. rewrite app_nil_r.
      apply NoDup_app. split; [exact Hnd|]. split.
      * intros j Hj Hj'. rewrite Hsorted in Hj'.
        apply Hmarked in Hj.
        apply elem_of_cons in Hj' as [->|Hj']; [contradiction|].
        destruct (Hfresh j Hj') as [Hn _]. set_solver.
      * rewrite Hsorted. apply NoDup_cons. split; [|exact Hadded].
        intros Hin. destruct (Hfresh i Hin) as [Hn _]. set_solver.
    + intros j Hj. rewrite concat_app in Hj. cbn [concat] in Hj.
      rewrite app_nil_r in Hj. apply elem_of_app in Hj as [Hj|Hj].
      * apply Hmarked in Hj. set_solver.
      * rewrite Hsorted in Hj. apply elem_of_cons in Hj as [->|Hj].
        -- set_solver.
        -- apply elem_of_union_l, elem_of_list_to_set, Hj.
    + exact Hrange'.
  - repeat split; try assumption.
    intros j Hj. apply Hmarked in Hj. set_solver.
Qed.

Lemma outer_loop_ok (stories : list Story) (entries : list (nat * Story)) state :
  groups_ok (length stories) state ->
  (forall i story, In (i, story) entries -> (i < length stories)%nat) ->
  groups_ok (length stories)
    (fold_left (scan_story lib similarity_threshold stories) entries state).
Proof.
  revert state. induction entries as [|[i story] entries IH]; intros state Hok Hin.
  - exact Hok.
  - cbn [fold_left]. apply IH.
    + apply scan_story_ok; [exact Hok|]. apply (Hin i story). left. reflexivity.
    + intros j s Hj. apply (Hin j s). right. exact Hj.
Qed.

(** The groups returned by [_find_duplicates]: at least two members each,
    pairwise disjoint, and made of indices of [stories]. *)
Theorem find_duplicates_disjoint (stories : list Story) :
  let duplicate_groups := _find_duplicates lib similarity_threshold stories in
  Forall (fun group => (1 < length group)%nat) duplicate_groups
  /\ NoDup (concat duplicate_groups)
  /\ (forall i, i ∈ concat duplicate_groups -> (i < length stories)%nat).
Proof.
  unfold _find_duplicates.
  pose proof (outer_loop_ok stories (Py.enumerate stories) ([], ∅)) as Hok.
  destruct (fold_left (scan_story lib similarity_threshold stories)
              (Py.enumerate stories) ([], ∅)) as [duplicate_groups processed].
  destruct Hok as (Hlen & Hnd & Hmarked & Hrange).
  { repeat split; simpl; try constructor.
    - intros i Hi. inversion Hi.
    - intros i Hi. set_solver. }
  { intros i story Hin. apply enumerate_from_lookup in Hin as [_ Hl].
    apply lookup_lt_Some in Hl. lia. }
  simpl in *.
  assert (Permutation (Py.sorted Nat.ltb (hd 0%nat) duplicate_groups)
            duplicate_groups) as Hsorted by apply sorted_permutation.
  split; [rewrite Hsorted; exact Hlen|].
  split; [rewrite (concat_permutation _ _ Hsorted); exact Hnd|].
  intros i Hi. rewrite (concat_permutation _ _ Hsorted) in Hi.
  apply Hrange, Hmarked, Hi.
Qed.

End GroupInvariant.

(** ** Merging and scoring with the engine's own methods *)

Lemma for_each_ok {A B} (f : A -> B) (l : list A) :
  Py.for_each (fun x => Py.Ok (f x)) l = Py.Ok (map f l).
Proof.
  induction l as [|x l IH]; simpl; [reflexivity|]. rewrite IH. reflexivity.
Qed.

Lemma for_each_item (stories : list Story) (group : list nat) :
  (forall i, In i group -> (i < length stories)%nat) ->
  exists members,
    Py.for_each (Py.item stories) group = Py.Ok members
    /\ length members = length group
    /\ (forall m, In m members -> In m stories).
Proof.
  induction group as [|i group IH]; intros Hrange.
  - exists []. simpl. repeat split. intros m [].
  - destruct IH as (members & Heq & Hlen & Hin).
    { intros j Hj. apply Hrange. right. exact Hj. }
    destruct (lookup_lt_is_Some_2 stories i) as [s Hs].
    { apply Hrange. left. reflexivity. }
    exists (s :: members). simpl. unfold Py.item at 1. rewrite Hs. simpl.
    rewrite Heq. simpl. repeat split.
    + rewrite Hlen. reflexivity.
    + intros m [<-|Hm]; [|apply Hin, Hm].
      apply list_elem_of_In. eapply list_elem_of_lookup_2. exact Hs.
Qed.

Lemma unmerged_in (stories : list Story) (merged_indices : gset nat) (s : Story) :
  In s (unmerged stories merged_indices) -> In s stories.
Proof.
  unfold unmerged. intros Hin. apply in_map_iff in Hin as ([i s'] & <- & Hin).
  apply filter_In in Hin as [Hin _].
  apply enumerate_from_lookup in Hin as [_ Hl].
  apply list_elem_of_In. eapply list_elem_of_lookup_2. exact Hl.
Qed.

Lemma filter_enumerate_length {A} (X : gset nat) (start : nat) (l : list A) :
  length (List.filter (fun entry => negb (bool_decide (fst entry ∈ X)))
            (Py.enumerate_from start l))
  = length (List.filter (fun i => negb (bool_decide (i ∈ X)))
              (seq start (length l))).
Proof.
  revert start. induction l as [|x l IH]; intros start; simpl; [reflexivity|].
  destruct (bool_decide (start ∈ X)); simpl; rewrite IH; reflexivity.
Qed.

Lemma filter_complement_length {A} (f : A -> bool) (l : list A) :
  (length (List.filter f l) + length (List.filter (fun x => negb (f x)) l)
   = length l)%nat.
Proof.
  induction l as [|x l IH]; simpl; [reflexivity|].
  destruct (f x); simpl; lia.
Qed.

Lemma unmerged_length (stories : list Story) (X : list nat) :
  NoDup X ->
  (forall i, i ∈ X -> (i < length stories)%nat) ->
  (length (unmerged stories (list_to_set X)) + length X = length stories)%nat.
Proof.
  intros Hnd Hrange. unfold unmerged, Py.enumerate.
  rewrite length_map.
  rewrite filter_enumerate_length.
  pose proof (filter_complement_length
                (fun i => bool_decide (i ∈ (list_to_set X : gset nat)))
                (seq 0 (length stories))) as Hsplit.
  rewrite length_seq in Hsplit.
  assert (Permutation
            (List.filter (fun i => bool_decide (i ∈ (list_to_set X : gset nat)))
               (seq 0 (length stories))) X) as Hperm.
  { apply NoDup_Permutation.
    - apply NoDup_ListNoDup, List.NoDup_filter, NoDup_ListNoDup, NoDup_seq.
    - exact Hnd.
    - intros i. rewrite list_elem_of_In, filter_In, in_seq.
      rewrite bool_decide_eq_true, elem_of_list_to_set. split.
      + intros [_ Hi]. exact Hi.
      + intros Hi. split; [|exact Hi]. apply Hrange in Hi. lia. }
  rewrite (Permutation_length Hperm) in Hsplit. lia.
Qed.

Lemma sorted_nonempty {A K} (ltb : K -> K -> bool) (key : A -> K) (l : list A) :
  l <> [] -> exists x rest, Py.sorted ltb key l = x :: rest.
Proof.
  intros Hl. destruct (Py.sorted ltb key l) as [|x rest] eqn:Hs.
  - apply (f_equal length) in Hs. rewrite sorted_length in Hs.
    destruct l; [contradiction | discriminate].
  - exists x, rest. reflexivity.
Qed.

Section Merging.

Context (lib : Libraries).

(** What [_merge_story_group] returns for a non-empty group. *)
Lemma merge_story_group_fields (members : list Story) :
  members <> [] ->
  let sorted_group := Py.sorted String.ltb story_id members in
  duplicate_count (_merge_story_group lib members) = Some (length members)
  /\ Match_Score (_merge_story_group lib members)
     = Some (Py.round
               (Py.fsum (map (get Match_Score (1 # 2)%Q) sorted_group)
                / Py.float (inject_Z (Z.of_nat (length sorted_group))))%F
               3).
Proof.
  intros Hne sorted_group. unfold _merge_story_group.
  destruct members as [|m members]; [contradiction|].
  destruct (sorted_nonempty String.ltb story_id (m :: members) Hne)
    as (first & rest & Hsorted).
  fold sorted_group in Hsorted |- *. rewrite Hsorted. cbn [duplicate_count
    Match_Score set_merge_hash set_Match_Score set_duplicate_count].
  rewrite <- Hsorted. unfold sorted_group at 1. rewrite sorted_length.
  rewrite length_map. split; reflexivity.
Qed.

Lemma merge_loop_engine (stories : list Story) (duplicate_groups : list (list nat)) :
  Forall (fun group => (1 < length group)%nat) duplicate_groups ->
  (forall i, i ∈ concat duplicate_groups -> (i < length stories)%nat) ->
  forall (merged_stories : list Story) (merged_indices : gset nat),
  exists merged,
    fold_left
      (fun state group =>
         Py.bind state (fun state => merge_group (engine lib) stories state group))
      duplicate_groups (Py.Ok (merged_stories, merged_indices))
    = Py.Ok (merged_stories ++ merged,
             merged_indices ∪ list_to_set (concat duplicate_groups))
    /\ Forall2 (merged_from lib stories) duplicate_groups merged.
Proof.
  induction duplicate_groups as [|group groups IH];
    intros Hlen Hrange merged_stories merged_indices.
  - exists []. simpl. rewrite app_nil_r. split; [|constructor].
    do 2 f_equal. set_solver.
  - apply Forall_cons in Hlen as [Hgroup Hlen].
    destruct (for_each_item stories group) as (members & Hmembers & Hsize & Hin).
    { intros i Hi. apply Hrange. simpl. apply elem_of_app. left.
      apply list_elem_of_In, Hi. }
    cbn [fold_left Py.bind]. unfold merge_group at 2.
    destruct (Nat.eqb_spec (length group) 1) as [Hone|_]; [lia|].
    rewrite Hmembers. cbn [Py.bind engine call_merge_story_group].
    destruct (IH Hlen) with
      (merged_stories := merged_stories ++ [_merge_story_group lib members])
      (merged_indices := merged_indices ∪ (list_to_set group : gset nat))
      as (merged & Heq & Hall).
    { intros i Hi. apply Hrange. simpl. apply elem_of_app. right. exact Hi. }
    exists (_merge_story_group lib members :: merged). rewrite Heq. split.
    + f_equal. f_equal; [rewrite <- app_assoc; reflexivity|].
      simpl. rewrite list_to_set_app_L. set_solver.
    + constructor; [|exact Hall].
      exists members. repeat split; try assumption.
      intros ->. simpl in Hsize. lia.
Qed.

Lemma merge_duplicates_engine (stories : list Story)
    (duplicate_groups : list (list nat)) :
  Forall (fun group => (1 < length group)%nat) duplicate_groups ->
  (forall i, i ∈ concat duplicate_groups -> (i < length stories)%nat) ->
  exists merged,
    _merge_duplicates (engine lib) stories duplicate_groups
    = Py.Ok (Py.sorted Z.ltb (original_index stories)
               (merged ++ unmerged stories (list_to_set (concat duplicate_groups))))
    /\ Forall2 (merged_from lib stories) duplicate_groups merged.
Proof.
  intros Hlen Hrange.
  destruct (merge_loop_engine stories duplicate_groups Hlen Hrange [] ∅)
    as (merged & Heq & Hall).
  exists merged. split; [|exact Hall].
  unfold _merge_duplicates. rewrite Heq. cbn [Py.bind app].
  rewrite (left_id_L ∅ (∪)). reflexivity.
Qed.

Lemma calculate_final_scores_engine (stories : list Story) :
  _calculate_final_scores (engine lib) stories = Py.Ok (map scored stories).
Proof.
  unfold _calculate_final_scores.
  rewrite <- (for_each_ok scored). reflexivity.
Qed.

End Merging.

(** ** Every input story is represented once *)

Lemma clean_story_duplicate_count (story : Story) :
  duplicate_count (clean_story story) = duplicate_count story.
Proof.
  unfold clean_story. destruct story as [? us cap sn ? ? ? ? ? ? ? ? ? ? ? ? ? ? ?].
  destruct us, cap, sn; reflexivity.
Qed.

Lemma clean_story_Match_Score (story : Story) :
  Match_Score (clean_story story) = Match_Score story.
Proof.
  unfold clean_story. destruct story as [? us cap sn ? ? ? ? ? ? ? ? ? ? ? ? ? ? ?].
  destruct us, cap, sn; reflexivity.
Qed.

Lemma cleaned_stories_in (stories : list Story) (cleaned : Story) :
  In cleaned (_clean_stories (Py.sorted String.ltb story_id stories)) ->
  exists story, In story stories /\ cleaned = clean_story story.
Proof.
  unfold _clean_stories. intros Hin.
  apply in_map_iff in Hin as (story & <- & Hin).
  exists story. split; [|reflexivity].
  eapply Permutation_in;
    [apply (sorted_permutation String.ltb story_id) | exact Hin].
Qed.

Lemma cleaned_stories_length (stories : list Story) :
  length (_clean_stories (Py.sorted String.ltb story_id stories)) = length stories.
Proof. unfold _clean_stories. rewrite length_map. apply sorted_length. Qed.

Lemma sum_represented_scored (stories : list Story) :
  sum_list_with represented (map scored stories)
  = sum_list_with represented stories.
Proof.
  induction stories as [|s stories IH]; simpl; [reflexivity|].
  rewrite IH. reflexivity.
Qed.

Lemma sum_represented_merged (lib : Libraries) (stories : list Story)
    (duplicate_groups : list (list nat)) (merged : list Story) :
  Forall2 (merged_from lib stories) duplicate_groups merged ->
  sum_list_with represented merged = length (concat duplicate_groups).
Proof.
  induction 1 as [|group m groups merged Hm _ IH]; simpl; [reflexivity|].
  rewrite length_app, IH. f_equal.
  destruct Hm as (members & Hne & Hlen & _ & ->).
  unfold represented.
  destruct (merge_story_group_fields lib members Hne) as [-> _].
  simpl. exact Hlen.
Qed.

Lemma sum_represented_singletons (stories : list Story) :
  (forall s, In s stories -> duplicate_count s = None) ->
  sum_list_with represented stories = length stories.
Proof.
  induction stories as [|s stories IH]; intros Hnone; simpl; [reflexivity|].
  rewrite IH by (intros s' Hs'; apply Hnone; right; exact Hs').
  unfold represented. rewrite (Hnone s) by (left; reflexivity). reflexivity.
Qed.

(** The run with the engine's own methods, spelled out. *)
Lemma deduplicate_and_score_engine (lib : Libraries) (similarity_threshold : Q)
    (stories : list Story) :
  stories <> [] ->
  let cleaned_stories := _clean_stories (Py.sorted String.ltb story_id stories) in
  let duplicate_groups :=
    _find_duplicates lib similarity_threshold cleaned_stories in
  exists merged,
    let merged_stories :=
      Py.sorted Z.ltb (original_index cleaned_stories)
        (merged
         ++ unmerged cleaned_stories (list_to_set (concat duplicate_groups))) in
    Forall2 (merged_from lib cleaned_stories) duplicate_groups merged
    /\ _merge_duplicates (engine lib) cleaned_stories duplicate_groups
       = Py.Ok merged_stories
    /\ deduplicate_and_score lib similarity_threshold (engine lib) stories
       = Py.Ok (Py.sorted Py.pair_ltb output_key (map scored merged_stories)).
Proof.
  intros Hne cleaned_stories duplicate_groups.
  destruct (find_duplicates_disjoint lib similarity_threshold cleaned_stories)
    as (Hlen & Hnd & Hrange).
  destruct (merge_duplicates_engine lib cleaned_stories duplicate_groups
              Hlen Hrange) as (merged & Hmerge & Hall).
  exists merged. split; [exact Hall|]. split; [exact Hmerge|].
  unfold deduplicate_and_score. destruct stories as [|s stories]; [contradiction|].
  fold cleaned_stories. fold duplicate_groups.
  rewrite Hmerge. cbn [Py.bind].
  rewrite calculate_final_scores_engine. reflexivity.
Qed.

(** C10.  For candidate stories (none carries ['duplicate_count'] yet), the
    duplicate groups are pairwise disjoint sets of input positions, and
    adding up, over the stories returned by [deduplicate_and_score],
    ['duplicate_count'] ([1] for a story without the key) gives the number
    of input stories: every input story is represented by exactly one
    output story. *)
Theorem deduplication_partitions_input
    (lib : Libraries) (similarity_threshold : Q) (stories : list Story) :
  (forall story, In story stories -> duplicate_count story = None) ->
  let cleaned_stories := _clean_stories (Py.sorted String.ltb story_id stories) in
  let duplicate_groups :=
    _find_duplicates lib similarity_threshold cleaned_stories in
  NoDup (concat duplicate_groups)
  /\ (forall i, i ∈ concat duplicate_groups -> (i < length stories)%nat)
  /\ exists scored_stories,
       deduplicate_and_score lib similarity_threshold (engine lib) stories
       = Py.Ok scored_stories
       /\ sum_list_with represented scored_stories = length stories.
Proof.
  intros Hcandidates cleaned_stories duplicate_groups.
  destruct (find_duplicates_disjoint lib similarity_threshold cleaned_stories)
    as (Hlen & Hnd & Hrange).
  fold duplicate_groups in Hlen, Hnd, Hrange.
  assert (length cleaned_stories = length stories) as Hsize
    by apply cleaned_stories_length.
  rewrite Hsize in Hrange.
  split; [exact Hnd|]. split; [exact Hrange|].
  destruct stories as [|s stories].
  { exists []. split; reflexivity. }
  destruct (deduplicate_and_score_engine lib similarity_threshold (s :: stories))
    as (merged & Hall & _ & Hrun); [discriminate|].
  fold cleaned_stories in Hall, Hrun. fold duplicate_groups in Hall, Hrun.
  eexists. split; [exact Hrun|].
  rewrite (sorted_permutation Py.pair_ltb output_key).
  rewrite sum_represented_scored.
  rewrite (sorted_permutation Z.ltb (original_index cleaned_stories)).
  rewrite sum_list_with_app.
  rewrite (sum_represented_merged lib cleaned_stories duplicate_groups merged Hall).
  rewrite sum_represented_singletons.
  - rewrite <- Hsize.
    pose proof (unmerged_length cleaned_stories (concat duplicate_groups) Hnd)
      as Hcount.
    rewrite Hsize in Hcount. specialize (Hcount Hrange). rewrite Hsize. lia.
  - intros c Hc. apply unmerged_in in Hc.
    apply cleaned_stories_in in Hc as (story & Hstory & ->).
    rewrite clean_story_duplicate_count. apply Hcandidates, Hstory.
Qed.

Lemma deduplication_partitions_input_witness :
  (forall story, In story five_stories -> duplicate_count story = None)
  /\ exists scored_stories,
       deduplicate_and_score example_libraries default_similarity_threshold
         (engine example_libraries) five_stories = Py.Ok scored_stories
       /\ sum_list_with represented scored_stories = length five_stories.
Proof.
  assert (forall story, In story five_stories -> duplicate_count story = None)
    as Hcandidates.
  { intros story Hin. simpl in Hin.
    repeat (destruct Hin as [<-|Hin]; [reflexivity|]). destruct Hin. }
  split; [exact Hcandidates|].
  apply (deduplication_partitions_input example_libraries
           default_similarity_threshold five_stories Hcandidates).
Defined.

(** ** Bounds of the final score *)

Section ScoreBounds.

Local Open Scope Q_scope.

Lemma round_half_even_bounds (y : Q) (lo hi : Z) :
  inject_Z lo <= y -> y <= inject_Z hi ->
  (lo <= Py.round_half_even y <= hi)%Z.
Proof.
  unfold Qle, inject_Z, Py.round_half_even. cbn [Qnum Qden].
  rewrite !Z.mul_1_r.
  assert (0 < Z.pos (Qden y))%Z as Hd by lia.
  generalize dependent (Z.pos (Qden y)). generalize (Qnum y).
  intros n d Hd Hlo Hhi.
  pose proof (Z.div_mod n d ltac:(lia)) as Hdm.
  pose proof (Z.mod_pos_bound n d Hd) as Hr.
  assert (lo <= n / d)%Z as Hq_lo by (apply Z.div_le_lower_bound; lia).
  assert (n / d <= hi)%Z as Hq_hi by (apply Z.div_le_upper_bound; lia).
  assert (n / d = hi -> n mod d = 0)%Z as Htop by nia.
  destruct (2 * (n mod d) ?= d)%Z eqn:Hcmp.
  - apply Z.compare_eq_iff in Hcmp. destruct (Z.even (n / d)); lia.
  - lia.
  - apply Z.compare_gt_iff in Hcmp. lia.
Qed.

(** Rounding to three decimals keeps a number of [[0, 1]] in [[0, 1]]. *)
Lemma round3_bounds (x : Q) : 0 <= x <= 1 -> 0 <= Py.round3 x <= 1.
Proof.
  intros [Hlo Hhi]. unfold Py.round3. rewrite Qred_correct.
  destruct (round_half_even_bounds (x * (1000 # 1)) 0 1000) as [Hk_lo Hk_hi].
  - unfold inject_Z. lra.
  - unfold inject_Z. lra.
  - unfold Qle. simpl. lia.
Qed.

Lemma sum_bounds (l : list Q) (acc : Q) :
  (forall x, In x l -> 0 <= x <= 1) ->
  acc <= fold_left Qplus l acc
  /\ fold_left Qplus l acc <= acc + inject_Z (Z.of_nat (length l)).
Proof.
  revert acc. induction l as [|x l IH]; intros acc Hl.
  - cbn [fold_left length]. change (inject_Z (Z.of_nat 0)) with 0. split; lra.
  - cbn [fold_left length].
    destruct (Hl x (or_introl eq_refl)) as [Hx0 Hx1].
    destruct (IH (acc + x)) as [IHlo IHhi].
    { intros y Hy. apply Hl. right. exact Hy. }
    rewrite Nat2Z.inj_succ, <- Z.add_1_r, inject_Z_plus. unfold inject_Z at 2.
    split; lra.
Qed.

(** The mean of numbers of [[0, 1]] is in [[0, 1]]. *)
Lemma mean_bounds (l : list Q) :
  l <> [] -> (forall x, In x l -> 0 <= x <= 1) ->
  0 <= Py.sum l / inject_Z (Z.of_nat (length l)) <= 1.
Proof.
  intros Hne Hl. unfold Py.sum.
  destruct (sum_bounds l 0 Hl) as [Hlo Hhi].
  assert (0 < inject_Z (Z.of_nat (length l))) as Hpos.
  { destruct l; [contradiction|]. unfold Qlt, inject_Z.
    cbn [Qnum Qden length]. rewrite Z.mul_1_r. cbn [Z.mul]. lia. }
  split.
  - apply Qle_shift_div_l; [exact Hpos | lra].
  - apply Qle_shift_div_r; [exact Hpos | lra].
Qed.

Lemma min_bounds (score : Q) : 1 # 2 <= score -> 1 # 2 <= Py.min score 1 <= 1.
Proof.
  intros Hs. unfold Py.min, Py.Qltb.
  destruct (Qle_bool score 1) eqn:Hle; simpl.
  - apply Qle_bool_iff in Hle. split; lra.
  - split; lra.
Qed.

Lemma add_present_fields (story : Story) (increment : Q)
    (fields : list (Story -> bool)) (score : Q) :
  0 <= increment -> 1 # 2 <= score ->
  1 # 2 <= fold_left (fun score (field : Story -> bool) =>
                        if field story then (score + increment)%F else score)
             fields score.
Proof.
  intros Hinc. revert score. induction fields as [|field fields IH]; intros score Hs.
  - exact Hs.
  - cbn [fold_left]. destruct (field story); [|apply IH, Hs].
    apply IH. change (1 # 2) with (Py.float (1 # 2)). apply float_mono. lra.
Qed.

Lemma float_literal_nonneg (x : Q) : 0 <= x -> 0 <= Py.float x.
Proof. apply float_nonneg. Qed.

(** The quality score is the one the specification describes. *)
Lemma quality_score_spec (story : Story) :
  _calculate_quality_score story = spec_quality_score story.
Proof.
  unfold _calculate_quality_score, spec_quality_score, spec_adjusted_score.
  cbv zeta. cbn [fold_left fst snd].
  assert (truthy_list Tags story && (1 <? length (default [] (Tags story)))%nat
          = (1 <? length (get Tags [] story))%nat) as ->.
  { unfold truthy_list, get. destruct (Tags story) as [[|? [|? ?]]|]; reflexivity. }
  destruct (Py.search_so_that (Py.lower (get User_Story "" story)));
    reflexivity.
Qed.

Lemma truthy_str_get (field : Story -> option string) (story : Story) :
  truthy_str field story = Py.nonempty (get field "" story).
Proof. unfold truthy_str, get. destruct (field story); reflexivity. Qed.

Lemma truthy_list_get (field : Story -> option (list string)) (story : Story) :
  truthy_list field story = negb (bool_decide (get field [] story = [])).
Proof.
  unfold truthy_list, get. destruct (field story) as [[|? ?]|]; reflexivity.
Qed.

(** The completeness score is the one the specification describes. *)
Lemma completeness_score_spec (story : Story) :
  _calculate_completeness_score story = spec_completeness_score story.
Proof.
  unfold _calculate_completeness_score, spec_completeness_score,
    spec_adjusted_score, required_fields, optional_fields.
  cbv zeta. cbn [fold_left map app fst snd].
  rewrite !truthy_str_get, !truthy_list_get. reflexivity.
Qed.

Lemma quality_score_bounds (story : Story) :
  1 # 2 <= _calculate_quality_score story <= 1.
Proof.
  unfold _calculate_quality_score. apply min_bounds.
  assert (forall score increment : Q,
            1 # 2 <= score -> 0 <= increment -> 1 # 2 <= (score + increment)%F)
    as Hadd.
  { intros score increment Hs Hi.
    change (1 # 2) with (Py.float (1 # 2)). apply float_mono. lra. }
  assert (0 <= Py.float 0.2) as H2 by (vm_compute; discriminate).
  assert (0 <= Py.float 0.1) as H1 by (vm_compute; discriminate).
  cbv zeta.
  repeat match goal with
         | |- context [if ?b then _ else _] => destruct b
         | |- context [match ?o with Some _ => _ | None => _ end] => destruct o
         end;
    repeat (apply Hadd; [|assumption]); apply Qle_refl.
Qed.

Lemma completeness_score_bounds (story : Story) :
  1 # 2 <= _calculate_completeness_score story <= 1.
Proof.
  unfold _calculate_completeness_score. apply min_bounds.
  apply add_present_fields; [vm_compute; discriminate|].
  apply add_present_fields; [vm_compute; discriminate | apply Qle_refl].
Qed.

(** The weighted sum of a base score of [[0, 1]] and the two adjustments. *)
Lemma final_score_bounds (story : Story) (base_score : Q) :
  0 <= base_score <= 1 ->
  0 <= Py.round (base_score * Py.float 0.5
                 + _calculate_quality_score story * Py.float 0.3
                 + _calculate_completeness_score story * Py.float 0.2)%F 3 <= 1.
Proof.
  intros [Hbase0 Hbase1].
  pose proof (quality_score_bounds story) as [Hq0 Hq1].
  pose proof (completeness_score_bounds story) as [Hc0 Hc1].
  assert (0 <= Py.float 0.5) as H5 by (vm_compute; discriminate).
  assert (0 <= Py.float 0.3) as H3 by (vm_compute; discriminate).
  assert (0 <= Py.float 0.2) as H2 by (vm_compute; discriminate).
  apply (round_bounds _ 3 0 1); [lia | lia |].
  split.
  - repeat apply fadd_nonneg; apply fmul_nonneg; lra.
  - apply Qle_trans
      with (1 * Py.float 0.5 + 1 * Py.float 0.3 + 1 * Py.float 0.2)%F;
      [|vm_compute; discriminate].
    repeat apply fadd_mono; apply fmul_mono; split; lra.
Qed.

End ScoreBounds.

Lemma base_score_bounds (stories : list Story) (story : Story) :
  scores_in_unit_interval stories -> In story stories ->
  (0 <= get Match_Score (1 # 2) story <= 1)%Q.
Proof.
  intros Hscores Hin. unfold get.
  destruct (Match_Score story) as [score|] eqn:Hscore.
  - apply (Hscores story score Hin Hscore).
  - split; lra.
Qed.

Lemma merged_base_score_bounds (lib : Libraries) (stories : list Story)
    (group : list nat) (merged : Story) :
  scores_in_unit_interval stories ->
  merged_from lib stories group merged ->
  (0 <= get Match_Score (1 # 2) merged <= 1)%Q.
Proof.
  intros Hscores (members & Hne & _ & Hin & ->).
  destruct (merge_story_group_fields lib members Hne) as [_ Hscore].
  unfold get. rewrite Hscore. apply (round_bounds _ 3 0 1); [lia | lia |].
  rewrite <- (length_map (get Match_Score (1 # 2)%Q)).
  apply fmean_bounds.
  - destruct (sorted_nonempty String.ltb story_id members Hne)
      as (first & rest & ->). discriminate.
  - intros x Hx. apply in_map_iff in Hx as (member & <- & Hmember).
    apply (base_score_bounds stories); [exact Hscores|].
    apply Hin. eapply Permutation_in;
      [apply (sorted_permutation String.ltb story_id) | exact Hmember].
Qed.

Lemma cleaned_scores_in_unit_interval (stories : list Story) :
  scores_in_unit_interval stories ->
  scores_in_unit_interval
    (_clean_stories (Py.sorted String.ltb story_id stories)).
Proof.
  intros Hscores cleaned score Hin Hscore.
  apply cleaned_stories_in in Hin as (story & Hstory & ->).
  rewrite clean_story_Match_Score in Hscore.
  apply (Hscores story score Hstory Hscore).
Qed.

Lemma Forall2_in_right {A B} (R : A -> B -> Prop) (l : list A) (k : list B) (y : B) :
  Forall2 R l k -> In y k -> exists x, In x l /\ R x y.
Proof.
  induction 1 as [|x y' l k HR _ IH]; intros Hin; [destruct Hin|].
  destruct Hin as [<-|Hin].
  - exists x. split; [left; reflexivity | exact HR].
  - destruct (IH Hin) as (x' & Hx' & HR'). exists x'. split; [right|]; assumption.
Qed.

(** C4.  When the input stories' own scores lie in [[0, 1]], the run
    returns, and every returned story is a merged or untouched story
    [consolidated] of [_merge_duplicates] whose ['Match Score'] has been
    replaced by [round(base * 0.5 + quality * 0.3 + completeness * 0.2, 3)],
    computed in binary64 arithmetic, where [base] is the score of
    [consolidated] ([0.5] if it has none).  [quality] and [completeness]
    are the scores the specification describes: they start at [0.5], add
    [0.2], [0.1], [0.1], [0.1], respectively [0.1] for each required and
    [0.05] for each optional field, for the conditions that hold, and are
    capped at [1.0]; both lie in [[0.5, 1]].  The final score lies in
    [[0, 1]]. *)
Theorem match_score_weighted_and_bounded
    (lib : Libraries) (similarity_threshold : Q) (stories : list Story) :
  scores_in_unit_interval stories ->
  let cleaned_stories := _clean_stories (Py.sorted String.ltb story_id stories) in
  let duplicate_groups :=
    _find_duplicates lib similarity_threshold cleaned_stories in
  exists merged_stories scored_stories,
    (stories <> [] ->
     _merge_duplicates (engine lib) cleaned_stories duplicate_groups
     = Py.Ok merged_stories)
    /\ deduplicate_and_score lib similarity_threshold (engine lib) stories
       = Py.Ok scored_stories
    /\ forall story, In story scored_stories ->
       exists consolidated final_score,
         In consolidated merged_stories
         /\ story = set_Match_Score final_score consolidated
         /\ final_score
            = Py.round
                (get Match_Score (1 # 2) consolidated * Py.float 0.5
                 + _calculate_quality_score consolidated * Py.float 0.3
                 + _calculate_completeness_score consolidated * Py.float 0.2)%F
                3
         /\ _calculate_quality_score consolidated
            = spec_quality_score consolidated
         /\ _calculate_completeness_score consolidated
            = spec_completeness_score consolidated
         /\ (1 # 2 <= _calculate_quality_score consolidated <= 1)%Q
         /\ (1 # 2 <= _calculate_completeness_score consolidated <= 1)%Q
         /\ Match_Score story = Some final_score
         /\ (0 <= final_score <= 1)%Q.
Proof.
  intros Hscores cleaned_stories duplicate_groups.
  destruct stories as [|s stories].
  { exists [], []. split; [intros H; contradiction|].
    split; [reflexivity|]. intros story []. }
  destruct (deduplicate_and_score_engine lib similarity_threshold (s :: stories))
    as (merged & Hall & Hmerge & Hrun); [discriminate|].
  fold cleaned_stories in Hall, Hmerge, Hrun.
  fold duplicate_groups in Hall, Hmerge, Hrun.
  eexists. eexists. split; [intros _; exact Hmerge|]. split; [exact Hrun|].
  intros story Hstory.
  eapply Permutation_in in Hstory;
    [|apply (sorted_permutation Py.pair_ltb output_key)].
  apply in_map_iff in Hstory as (consolidated & <- & Hin).
  exists consolidated. eexists. split; [exact Hin|].
  split; [reflexivity|]. split; [reflexivity|].
  split; [apply quality_score_spec|].
  split; [apply completeness_score_spec|].
  split; [apply quality_score_bounds|].
  split; [apply completeness_score_bounds|].
  split; [reflexivity|].
  apply final_score_bounds.
  pose proof (cleaned_scores_in_unit_interval (s :: stories) Hscores) as Hcleaned.
  fold cleaned_stories in Hcleaned.
  eapply Permutation_in in Hin;
    [|apply (sorted_permutation Z.ltb (original_index cleaned_stories))].
  apply in_app_or in Hin as [Hin|Hin].
  - destruct (Forall2_in_right _ _ _ _ Hall Hin) as (group & _ & Hfrom).
    apply (merged_base_score_bounds lib cleaned_stories group); assumption.
  - apply unmerged_in in Hin.
    apply (base_score_bounds cleaned_stories); assumption.
Qed.

Lemma match_score_weighted_and_bounded_witness :
  scores_in_unit_interval five_stories
  /\ exists scored_stories,
       deduplicate_and_score example_libraries default_similarity_threshold
         (engine example_libraries) five_stories = Py.Ok scored_stories
       /\ forall story, In story scored_stories ->
          exists final_score,
            Match_Score story = Some final_score /\ (0 <= final_score <= 1)%Q.
Proof.
  assert (scores_in_unit_interval five_stories) as Hscores.
  { intros story score Hin Hscore. unfold five_stories in Hin. cbn [In] in Hin.
    repeat (destruct Hin as [<-|Hin];
            [injection Hscore as <-; vm_compute; split; discriminate|]).
    destruct Hin. }
  split; [exact Hscores|].
  destruct (match_score_weighted_and_bounded example_libraries
              default_similarity_threshold five_stories Hscores)
    as (merged_stories & scored_stories & _ & Hrun & Hall).
  exists scored_stories. split; [exact Hrun|].
  intros story Hin.
  destruct (Hall story Hin)
    as (consolidated & final_score & _ & _ & _ & _ & _ & _ & _ & Hscore & Hbounds).
  exists final_score. split; assumption.
Defined.

(** The scores of a story that meets every condition of the quality score
    except the long capability, has the four required fields and tags: the
    increments add up, in binary64, to [0.8999999999999999] and [0.95].
    With the base score [0.875] the weighted sum is the float next below
    [0.8975], and the final score is [0.897]. *)
Example final_score_of_a_story :
  let story :=
    example_story "US-3"
      "As a manager, I need to approve documents so that compliance is ensured"
      "document approval" (Py.float 0.875) in
  _calculate_quality_score story = Py.float 0.8999999999999999
  /\ _calculate_completeness_score story = Py.float 0.95
  /\ ((Py.float 0.875 * Py.float 0.5 + Py.float 0.8999999999999999 * Py.float 0.3
       + Py.float 0.95 * Py.float 0.2)%F < 0.8975)%Q
  /\ Match_Score (scored story) = Some (Py.float 0.897).
Proof. vm_compute. repeat split; reflexivity. Qed.

(** A story that meets all four conditions of the quality score gets
    [0.9999999999999999]: the cap at [1.0] is not reached. *)
Example quality_score_of_a_complete_story :
  _calculate_quality_score
    (example_story "US-3"
       "As a manager, I need to approve documents so that compliance is ensured"
       "approval of the documents" (Py.float 0.8))
  = Py.float 0.9999999999999999
  /\ (Py.float 0.9999999999999999 < 1)%Q.
Proof. vm_compute. repeat split; reflexivity. Qed.

(** The merged score of two stories with the scores [0.8] and [0.625]:
    their mean is the float next above [0.7125], and its rounding is
    [0.713]. *)
Example merged_score_of_two_stories :
  let group :=
    [example_story "US-1" "As a user, I need to export reports" "export"
       (Py.float 0.8);
     example_story "US-2" "As a user, I need to export reports" "export"
       (Py.float 0.625)] in
  (0.7125 < ((Py.float 0.8 + Py.float 0.625) / 2%Q)%F)%Q
  /\ Match_Score (_merge_story_group example_libraries group)
     = Some (Py.float 0.713).
Proof. vm_compute. repeat split; reflexivity. Qed.

(** ** A method that raises *)

Section Failure.

Context (lib : Libraries) (similarity_threshold : Q) (self : Methods).

Lemma merge_loop_raised (stories : list Story) (duplicate_groups : list (list nat))
    (e : string) :
  fold_left
    (fun state group =>
       Py.bind state (fun state => merge_group self stories state group))
    duplicate_groups (Py.Raise e)
  = Py.Raise e.
Proof. induction duplicate_groups as [|group groups IH]; [reflexivity | exact IH]. Qed.

(** The loop over the groups does not outlive a failing call. *)
Lemma merge_loop_failure (stories : list Story) (duplicate_groups : list (list nat))
    (group : list nat) (members : list Story) (e : string) :
  In group duplicate_groups ->
  length group <> 1%nat ->
  Py.for_each (Py.item stories) group = Py.Ok members ->
  call_merge_story_group self members = Py.Raise e ->
  forall init, exists e',
    fold_left
      (fun state group =>
         Py.bind state (fun state => merge_group self stories state group))
      duplicate_groups init
    = Py.Raise e'.
Proof.
  intros Hin Hlen Hmembers Hraise.
  induction duplicate_groups as [|g groups IH]; [destruct Hin|].
  intros [[merged_stories merged_indices]|e0]; cbn [fold_left Py.bind].
  - destruct Hin as [->|Hin].
    + unfold merge_group at 2.
      destruct (Nat.eqb_spec (length group) 1) as [Hone|_]; [contradiction|].
      rewrite Hmembers. cbn [Py.bind]. rewrite Hraise. cbn [Py.bind].
      exists e. apply merge_loop_raised.
    + apply (IH Hin).
  - exists e0. apply merge_loop_raised.
Qed.

Lemma for_each_failure {A B} (body : A -> Py.result B) (l : list A) (x : A)
    (e : string) :
  In x l -> body x = Py.Raise e -> exists e', Py.for_each body l = Py.Raise e'.
Proof.
  intros Hin Hraise. induction l as [|y l IH]; [destruct Hin|].
  cbn [Py.for_each]. destruct Hin as [->|Hin].
  - rewrite Hraise. exists e. reflexivity.
  - destruct (body y) as [b|e0]; cbn [Py.bind]; [|exists e0; reflexivity].
    destruct (IH Hin) as (e' & ->). exists e'. reflexivity.
Qed.

End Failure.

(** C8, as stated, fails.  [five_stories] has the duplicate groups
    [US-1, US-4] and [US-3, US-5].  When merging the first group raises,
    the run raises: it returns neither the two members unmerged nor the
    merged second group. *)
Lemma failing_group_aborts_run :
  let cleaned_stories :=
    _clean_stories (Py.sorted String.ltb story_id five_stories) in
  let duplicate_groups :=
    _find_duplicates example_libraries default_similarity_threshold
      cleaned_stories in
  let self := faulty_engine example_libraries in
  duplicate_groups = [[0; 3]; [2; 4]]%nat
  /\ Py.for_each (Py.item cleaned_stories) [0; 3]%nat
     = Py.Ok [clean_story search_1; clean_story search_4]
  /\ call_merge_story_group self [clean_story search_1; clean_story search_4]
     = Py.Raise "TypeError"
  /\ Py.for_each (Py.item cleaned_stories) [2; 4]%nat
     = Py.Ok [clean_story approve_3; clean_story approve_5]
  /\ call_merge_story_group self [clean_story approve_3; clean_story approve_5]
     = Py.Ok (_merge_story_group example_libraries
                [clean_story approve_3; clean_story approve_5])
  /\ deduplicate_and_score example_libraries default_similarity_threshold self
       five_stories
     = Py.Raise "TypeError"
  /\ forall scored_stories,
       deduplicate_and_score example_libraries default_similarity_threshold self
         five_stories
       <> Py.Ok scored_stories.
Proof.
  intros cleaned_stories duplicate_groups self.
  assert (deduplicate_and_score example_libraries default_similarity_threshold
            self five_stories = Py.Raise "TypeError") as Hrun
    by (vm_compute; reflexivity).
  split; [vm_compute; reflexivity|].
  split; [vm_compute; reflexivity|].
  split; [vm_compute; reflexivity|].
  split; [vm_compute; reflexivity|].
  split; [vm_compute; reflexivity|].
  split; [exact Hrun|].
  intros scored_stories. rewrite Hrun. discriminate.
Qed.

(** C8, amended.  Whatever the methods reached through [self] are: if the
    call of [_merge_story_group] on the members of one duplicate group
    raises, or if the scoring of one story returned by [_merge_duplicates]
    raises, then [deduplicate_and_score] raises; the run is aborted and no
    story is returned. *)
Theorem failure_aborts_run
    (lib : Libraries) (similarity_threshold : Q) (self : Methods)
    (stories : list Story) :
  let cleaned_stories := _clean_stories (Py.sorted String.ltb story_id stories) in
  let duplicate_groups :=
    _find_duplicates lib similarity_threshold cleaned_stories in
  (exists group members e,
     In group duplicate_groups
     /\ Py.for_each (Py.item cleaned_stories) group = Py.Ok members
     /\ call_merge_story_group self members = Py.Raise e)
  \/ (exists merged_stories story e,
        _merge_duplicates self cleaned_stories duplicate_groups
        = Py.Ok merged_stories
        /\ In story merged_stories
        /\ score_story self story = Py.Raise e) ->
  exists e',
    deduplicate_and_score lib similarity_threshold self stories = Py.Raise e'.
Proof.
  intros cleaned_stories duplicate_groups Hfailure.
  destruct stories as [|s stories].
  { exfalso. destruct Hfailure as [(group & _ & _ & Hin & _)
                                  |(merged_stories & story & _ & Hmerge & Hin & _)].
    - vm_compute in Hin. exact Hin.
    - vm_compute in Hmerge. injection Hmerge as <-. destruct Hin. }
  unfold deduplicate_and_score. fold cleaned_stories. fold duplicate_groups.
  destruct Hfailure as [(group & members & e & Hin & Hmembers & Hraise)
                       |(merged_stories & story & e & Hmerge & Hin & Hraise)].
  - destruct (find_duplicates_disjoint lib similarity_threshold cleaned_stories)
      as (Hlen & _ & _).
    fold duplicate_groups in Hlen.
    assert (length group <> 1%nat) as Hsize.
    { rewrite Forall_forall in Hlen. apply list_elem_of_In, Hlen in Hin. lia. }
    destruct (merge_loop_failure self cleaned_stories duplicate_groups group
                members e Hin Hsize Hmembers Hraise (Py.Ok ([], ∅)))
      as (e' & Hloop).
    exists e'. unfold _merge_duplicates. rewrite Hloop. reflexivity.
  - rewrite Hmerge. cbn [Py.bind]. unfold _calculate_final_scores.
    destruct (for_each_failure (score_story self) merged_stories story e
                Hin Hraise) as (e' & ->).
    exists e'. reflexivity.
Qed.

Lemma failure_aborts_run_witness :
  let cleaned_stories :=
    _clean_stories (Py.sorted String.ltb story_id five_stories) in
  let members := [clean_story search_1; clean_story search_4] in
  (In [0; 3]%nat
     (_find_duplicates example_libraries default_similarity_threshold
        cleaned_stories)
   /\ Py.for_each (Py.item cleaned_stories) [0; 3]%nat = Py.Ok members
   /\ call_merge_story_group (faulty_engine example_libraries) members
      = Py.Raise "TypeError")
  /\ exists e',
       deduplicate_and_score example_libraries default_similarity_threshold
         (faulty_engine example_libraries) five_stories = Py.Raise e'.
Proof.
  intros cleaned_stories members.
  assert (In [0; 3]%nat
            (_find_duplicates example_libraries default_similarity_threshold
               cleaned_stories)) as Hin
    by (vm_compute; left; reflexivity).
  assert (Py.for_each (Py.item cleaned_stories) [0; 3]%nat = Py.Ok members)
    as Hmembers by (vm_compute; reflexivity).
  assert (call_merge_story_group (faulty_engine example_libraries) members
          = Py.Raise "TypeError") as Hraise by (vm_compute; reflexivity).
  split; [split; [exact Hin | split; [exact Hmembers | exact Hraise]]|].
  apply (failure_aborts_run example_libraries default_similarity_threshold
           (faulty_engine example_libraries) five_stories).
  left. exists [0; 3]%nat, members, "TypeError".
  split; [exact Hin | split; [exact Hmembers | exact Hraise]].
Defined.

(** ** The consistency cache *)

Section ConsistencyFacts.

Context (md5_hexdigest : string -> string).
Context (json_dumps : list StoryData -> string).

Lemma check_consistency_cached (cache : gmap string CacheData)
    (input_hash : string) (output_stories : list Story) (cached_data : CacheData) :
  cache !! input_hash = Some cached_data ->
  output_hash cached_data
    = _generate_output_hash md5_hexdigest json_dumps output_stories ->
  let result :=
    check_consistency md5_hexdigest json_dumps cache input_hash output_stories in
  is_consistent result = true /\ consistency_score result = 1%Q
  /\ previous_run result = Some (timestamp cached_data).
Proof.
  intros Hlookup Hhash. unfold check_consistency. rewrite Hlookup, Hhash.
  rewrite String.eqb_refl. simpl. auto.
Qed.

Lemma cache_output_lookup (now : string) (cache : gmap string CacheData)
    (input_hash : string) (output_stories : list Story)
    (metadata : option (gmap string string)) :
  exists cached_data,
    cache_output md5_hexdigest json_dumps now cache input_hash output_stories
      metadata !! input_hash = Some cached_data
    /\ output_hash cached_data
       = _generate_output_hash md5_hexdigest json_dumps output_stories
    /\ stories cached_data = output_stories
    /\ timestamp cached_data = now.
Proof.
  unfold cache_output. eexists. rewrite lookup_insert_eq.
  split; [reflexivity | simpl; auto].
Qed.

End ConsistencyFacts.

(** C6.  Caching an output under an input hash and then checking the same
    output under the same hash, on the cache as [cache_output] left it,
    reports [is_consistent = True] with [consistency_score = 1.0]. *)
Theorem cache_then_check_consistent
    (md5_hexdigest : string -> string) (json_dumps : list StoryData -> string)
    (now : string) (cache : gmap string CacheData) (input_hash : string)
    (output_stories : list Story) (metadata : option (gmap string string)) :
  let cache' :=
    cache_output md5_hexdigest json_dumps now cache input_hash output_stories
      metadata in
  let result :=
    check_consistency md5_hexdigest json_dumps cache' input_hash output_stories in
  is_consistent result = true /\ consistency_score result = 1%Q.
Proof.
  intros cache' result.
  destruct (cache_output_lookup md5_hexdigest json_dumps now cache input_hash
              output_stories metadata) as (cached_data & Hlookup & Hhash & _).
  destruct (check_consistency_cached md5_hexdigest json_dumps cache' input_hash
              output_stories cached_data Hlookup Hhash) as (Hc & Hs & _).
  split; assumption.
Qed.

(** C7.  When the cache holds no record for the input hash,
    [check_consistency] reports [is_consistent = True] with
    [consistency_score = 1.0], whatever the output stories are. *)
Theorem first_run_consistent
    (md5_hexdigest : string -> string) (json_dumps : list StoryData -> string)
    (cache : gmap string CacheData) (input_hash : string)
    (output_stories : list Story) :
  cache !! input_hash = None ->
  let result :=
    check_consistency md5_hexdigest json_dumps cache input_hash output_stories in
  is_consistent result = true /\ consistency_score result = 1%Q.
Proof.
  intros Hnone result. subst result. unfold check_consistency.
  rewrite Hnone. simpl. auto.
Qed.

Lemma first_run_consistent_witness :
  (∅ : gmap string CacheData) !! "0cc175b9c0f1b6a831c399e269772661" = None
  /\ let result :=
       check_consistency (fun s => s) (fun _ => "[]") ∅
         "0cc175b9c0f1b6a831c399e269772661" [] in
     is_consistent result = true /\ consistency_score result = 1%Q.
Proof.
  split.
  - reflexivity.
  - apply (first_run_consistent (fun s => s) (fun _ => "[]") ∅
             "0cc175b9c0f1b6a831c399e269772661" []).
    reflexivity.
Defined.

(** ** The output hash and the order of the stories *)

Lemma tied_stories_data :
  let sorted_data stories :=
    map story_data_of (Py.sorted String.ltb story_id stories) in
  Permutation [tied_first; tied_second] [tied_second; tied_first]
  /\ map sd_story (sorted_data [tied_first; tied_second])
     = ["As a user, I need to export reports";
        "As a user, I need to import reports"]
  /\ map sd_story (sorted_data [tied_second; tied_first])
     = ["As a user, I need to import reports";
        "As a user, I need to export reports"].
Proof. split; [apply perm_swap | split; reflexivity]. Qed.

(** C5, as stated, fails: the sort by identifier is stable, so two stories
    with the same identifier are hashed in the order of the input list. *)
Lemma output_hash_depends_on_order :
  ~ (forall (md5_hexdigest : string -> string)
            (json_dumps : list StoryData -> string) (S P : list Story),
       Permutation S P ->
       _generate_output_hash md5_hexdigest json_dumps S
       = _generate_output_hash md5_hexdigest json_dumps P).
Proof.
  intros Hclaim.
  specialize (Hclaim (fun s => s)
                (fun story_data => Py.join "," (map sd_story story_data))
                [tied_first; tied_second] [tied_second; tied_first]
                (perm_swap _ _ _)).
  vm_compute in Hclaim. discriminate Hclaim.
Qed.

(** C5, amended.  If any two stories of the list that share the sort key
    [x.get('User Story ID', '')] agree on the hashed data (identifier,
    story, category, priority, score, sorted tags and content hash), and
    in particular if the identifiers are pairwise distinct, then every
    arrangement of the list has the same output hash. *)
Theorem output_hash_permutation
    (md5_hexdigest : string -> string) (json_dumps : list StoryData -> string)
    (S P : list Story) :
  (forall a b, In a S -> In b S -> story_id a = story_id b ->
               story_data_of a = story_data_of b) ->
  Permutation S P ->
  _generate_output_hash md5_hexdigest json_dumps S
  = _generate_output_hash md5_hexdigest json_dumps P.
Proof.
  intros Hties Hperm. unfold _generate_output_hash. do 2 f_equal.
  apply (map_sorted_permutation String.ltb story_id string_ltb_irrefl
           string_ltb_trans string_ltb_connex story_data_of sd_id).
  - reflexivity.
  - exact Hperm.
  - exact Hties.
Qed.

Lemma distinct_ids_agree (S : list Story) :
  NoDup (map story_id S) ->
  forall a b, In a S -> In b S -> story_id a = story_id b ->
              story_data_of a = story_data_of b.
Proof.
  intros Hnd a b Ha Hb Hid. f_equal.
  induction S as [|s S IH]; [destruct Ha|].
  simpl in Hnd. apply NoDup_cons in Hnd as [Hs Hnd].
  destruct Ha as [->|Ha], Hb as [->|Hb].
  - reflexivity.
  - exfalso. apply Hs. rewrite Hid. apply list_elem_of_In, in_map, Hb.
  - exfalso. apply Hs. rewrite <- Hid. apply list_elem_of_In, in_map, Ha.
  - apply IH; assumption.
Qed.

Lemma output_hash_permutation_witness :
  NoDup (map story_id five_stories)
  /\ Permutation five_stories (rev five_stories)
  /\ _generate_output_hash (fun s => s)
       (fun story_data => Py.join "," (map sd_story story_data)) five_stories
     = _generate_output_hash (fun s => s)
         (fun story_data => Py.join "," (map sd_story story_data))
         (rev five_stories).
Proof.
  assert (NoDup (map story_id five_stories)) as Hdistinct.
  { apply (bool_decide_unpack _). vm_compute. exact I. }
  split; [exact Hdistinct|]. split; [apply Permutation_rev|].
  apply (output_hash_permutation (fun s => s)
           (fun story_data => Py.join "," (map sd_story story_data))
           five_stories (rev five_stories)
           (distinct_ids_agree five_stories Hdistinct)
           (Permutation_rev five_stories)).
Defined.

(** ** Retrieval from a pool without embeddings *)

(** C9, as stated, fails.  The last chunk of [naive_pool] contains both
    query words and the others none.  The specification's rule retrieves
    it; the code returns the first chunk of the pool when there is no
    embedding model, and nothing when there is one; the context built
    from it never contains the last chunk. *)
Lemma retrieval_ignores_word_overlap :
  let model : string -> Py.result (list Q) := fun _ => Py.Ok [1%Q; 0%Q] in
  let norm : list Q -> Q := fun _ => 1%Q in
  map (spec_word_overlap dashboard_query) naive_pool = [0; 0; 0; 2]%nat
  /\ spec_lexical_top_k dashboard_query naive_pool 1
     = [naive_chunk 3 "approvals need a dashboard with reminders"]
  /\ find_similar_chunks None false norm dashboard_query naive_pool 1
     = [naive_chunk 0 "we lose track of documents"]
  /\ find_similar_chunks (Some model) false norm dashboard_query naive_pool 1 = []
  /\ get_context_for_extraction None false norm dashboard_query naive_pool 1
     = [naive_chunk 0 "we lose track of documents";
        naive_chunk 1 "files are scattered across folders"]
  /\ find_similar_chunks None false norm dashboard_query naive_pool 1
     <> spec_lexical_top_k dashboard_query naive_pool 1.
Proof. vm_compute. repeat split; try reflexivity. discriminate. Qed.

Lemma slice_to_nil {A} (k : Z) : Py.slice_to k (@nil A) = [].
Proof. unfold Py.slice_to. destruct (k <? 0)%Z; apply take_nil. Qed.

(** C9, amended.  When no chunk of the pool carries an embedding,
    [find_similar_chunks] ranks nothing: it returns the first [top_k]
    chunks in pool order when there is no embedding model or when the
    query cannot be embedded because an event loop is already running,
    and no chunk at all otherwise. *)
Theorem retrieval_without_embeddings
    (embedding_model : option (string -> Py.result (list Q)))
    (loop_running : bool) (np_linalg_norm : list Q -> Q)
    (query : string) (chunks : list Chunk) (top_k : Z) :
  (forall chunk, In chunk chunks -> without_embedding chunk) ->
  find_similar_chunks embedding_model loop_running np_linalg_norm query chunks
    top_k
  = match embedding_model with
    | None => Py.slice_to top_k chunks
    | Some _ => if loop_running then Py.slice_to top_k chunks else []
    end.
Proof.
  intros Hnone. unfold find_similar_chunks.
  destruct embedding_model as [model|]; [|reflexivity].
  destruct chunks as [|chunk chunks].
  { rewrite slice_to_nil. destruct loop_running; reflexivity. }
  unfold asyncio_run. destruct loop_running; [reflexivity|].
  assert (concat (map (similarity_entry np_linalg_norm
                         (_generate_embedding model query)) (chunk :: chunks))
          = []) as ->.
  { induction (chunk :: chunks) as [|c pool IH]; [reflexivity|].
    cbn [map concat]. rewrite IH by (intros c' Hc'; apply Hnone; right; exact Hc').
    specialize (Hnone c (or_introl eq_refl)). unfold without_embedding in Hnone.
    unfold similarity_entry.
    destruct (chunk_embedding c) as [[[|x v]|]|]; try reflexivity.
    destruct Hnone. }
  cbn [Py.sorted_reverse Py.sorted]. rewrite slice_to_nil. reflexivity.
Qed.

Lemma retrieval_without_embeddings_witness :
  (forall chunk, In chunk naive_pool -> without_embedding chunk)
  /\ find_similar_chunks None false (fun _ => 1%Q) dashboard_query naive_pool 1
     = Py.slice_to 1 naive_pool
  /\ find_similar_chunks (Some (fun _ => Py.Ok [1%Q; 0%Q])) false (fun _ => 1%Q)
       dashboard_query naive_pool 1
     = [].
Proof.
  assert (forall chunk, In chunk naive_pool -> without_embedding chunk) as Hnone.
  { intros chunk Hin. simpl in Hin.
    repeat (destruct Hin as [<-|Hin]; [exact I|]). destruct Hin. }
  split; [exact Hnone|]. split.
  - apply (retrieval_without_embeddings None false (fun _ => 1%Q)
             dashboard_query naive_pool 1 Hnone).
  - apply (retrieval_without_embeddings (Some (fun _ => Py.Ok [1%Q; 0%Q])) false
             (fun _ => 1%Q) dashboard_query naive_pool 1 Hnone).
Defined.


(** * Further properties *)

(** ** [sorted] returns an ordered list *)

Section SortedOrder.

Context {A K : Type} (ltb : K -> K -> bool) (key : A -> K).
Hypothesis ltb_irrefl : forall a, ltb a a = false.
Hypothesis ltb_trans :
  forall a b c, ltb a b = true -> ltb b c = true -> ltb a c = true.
Hypothesis ltb_negtrans :
  forall a b c, ltb a b = false -> ltb b c = false -> ltb a c = false.

Lemma insert_sorted_ordered x l :
  StronglySorted (in_order ltb key) l ->
  StronglySorted (in_order ltb key) (Py.insert_sorted ltb key x l).
Proof.
  induction l as [|y l IH]; intros Hsorted; cbn [Py.insert_sorted].
  - constructor; constructor.
  - apply StronglySorted_inv in Hsorted as [Hl Hy].
    destruct (ltb (key y) (key x)) eqn:Hyx.
    + constructor; [apply IH, Hl|].
      rewrite List.Forall_forall in *. intros z Hz.
      eapply Permutation_in in Hz; [|apply insert_sorted_permutation].
      destruct Hz as [<-|Hz]; [|apply Hy, Hz].
      unfold in_order. apply (ltb_asym ltb ltb_irrefl ltb_trans). exact Hyx.
    + constructor; [constructor; assumption|].
      constructor; [exact Hyx|].
      rewrite List.Forall_forall in *. intros z Hz.
      unfold in_order. apply (ltb_negtrans _ (key y)); [apply Hy, Hz | exact Hyx].
Qed.

Lemma sorted_ordered l : StronglySorted (in_order ltb key) (Py.sorted ltb key l).
Proof.
  induction l as [|x l IH]; cbn [Py.sorted]; [constructor|].
  apply insert_sorted_ordered, IH.
Qed.

(** The first element of a sorted list has a smallest key. *)
Lemma sorted_head_least l first rest :
  Py.sorted ltb key l = first :: rest ->
  forall x, In x l -> ltb (key x) (key first) = false.
Proof.
  intros Hs x Hx. pose proof (sorted_ordered l) as Hsorted. rewrite Hs in Hsorted.
  apply StronglySorted_inv in Hsorted as [_ Hfirst].
  eapply Permutation_in in Hx;
    [|apply Permutation_sym, (sorted_permutation ltb key)].
  rewrite Hs in Hx. destruct Hx as [<-|Hx]; [apply ltb_irrefl|].
  rewrite List.Forall_forall in Hfirst. apply Hfirst, Hx.
Qed.

End SortedOrder.

(** In a total order, [not (a < b)] is transitive. *)
Lemma negtrans_of_connex {K} (ltb : K -> K -> bool) :
  (forall a b c, ltb a b = true -> ltb b c = true -> ltb a c = true) ->
  (forall a b, ltb a b = false -> ltb b a = false -> a = b) ->
  forall a b c, ltb a b = false -> ltb b c = false -> ltb a c = false.
Proof.
  intros Htrans Hconnex a b c Hab Hbc.
  destruct (ltb a c) eqn:Hac; [|reflexivity].
  destruct (ltb b a) eqn:Hba.
  - rewrite (Htrans _ _ _ Hba Hac) in Hbc. discriminate.
  - rewrite <- (Hconnex a b Hab Hba) in Hbc. congruence.
Qed.

Lemma string_ltb_negtrans s1 s2 s3 :
  String.ltb s1 s2 = false -> String.ltb s2 s3 = false -> String.ltb s1 s3 = false.
Proof. apply negtrans_of_connex; [apply string_ltb_trans | apply string_ltb_connex]. Qed.

Lemma nat_ltb_negtrans (a b c : nat) :
  (a <? b)%nat = false -> (b <? c)%nat = false -> (a <? c)%nat = false.
Proof. rewrite !Nat.ltb_ge. lia. Qed.

Lemma nat_gtb_negtrans (a b c : nat) :
  (b <? a)%nat = false -> (c <? b)%nat = false -> (c <? a)%nat = false.
Proof. rewrite !Nat.ltb_ge. lia. Qed.

Lemma nat_gtb_trans (a b c : nat) :
  (b <? a)%nat = true -> (c <? b)%nat = true -> (c <? a)%nat = true.
Proof. rewrite !Nat.ltb_lt. lia. Qed.

Lemma Qltb_lt (x y : Q) : Py.Qltb x y = true <-> (x < y)%Q.
Proof.
  unfold Py.Qltb. rewrite negb_true_iff. split.
  - intros H. apply Qnot_le_lt. intros Hle. apply Qle_bool_iff in Hle. congruence.
  - intros H. destruct (Qle_bool y x) eqn:Hle; [|reflexivity].
    apply Qle_bool_iff in Hle. lra.
Qed.

Lemma Qltb_ge (x y : Q) : Py.Qltb x y = false <-> (y <= x)%Q.
Proof.
  unfold Py.Qltb. rewrite negb_false_iff. apply Qle_bool_iff.
Qed.

Lemma Qeq_bool_false (x y : Q) : Qeq_bool x y = false -> ~ (x == y)%Q.
Proof. intros H Heq. apply Qeq_bool_iff in Heq. congruence. Qed.

(** [<] on the output keys. *)
Lemma pair_ltb_spec (a b : Q * string) :
  Py.pair_ltb a b = true
  <-> (fst a < fst b)%Q \/ ((fst a == fst b)%Q /\ String.ltb (snd a) (snd b) = true).
Proof.
  unfold Py.pair_ltb. destruct (Qeq_bool (fst a) (fst b)) eqn:Heq.
  - apply Qeq_bool_iff in Heq. split.
    + intros H. right. split; assumption.
    + intros [H|[_ H]]; [lra | exact H].
  - apply Qeq_bool_false in Heq. rewrite Qltb_lt. split.
    + intros H. left. exact H.
    + intros [H|[H _]]; [exact H | contradiction].
Qed.

Lemma pair_ltb_false (a b : Q * string) :
  Py.pair_ltb a b = false
  <-> (fst b < fst a)%Q \/ ((fst a == fst b)%Q /\ String.ltb (snd a) (snd b) = false).
Proof.
  unfold Py.pair_ltb. destruct (Qeq_bool (fst a) (fst b)) eqn:Heq.
  - apply Qeq_bool_iff in Heq. split.
    + intros H. right. split; assumption.
    + intros [H|[_ H]]; [lra | exact H].
  - apply Qeq_bool_false in Heq. rewrite Qltb_ge. split.
    + intros H. left. apply Qle_lteq in H as [H|H]; [exact H|].
      exfalso. apply Heq. symmetry. exact H.
    + intros [H|[H _]]; [lra | contradiction].
Qed.

Lemma pair_ltb_irrefl a : Py.pair_ltb a a = false.
Proof.
  apply pair_ltb_false. right. split; [reflexivity | apply string_ltb_irrefl].
Qed.

Lemma pair_ltb_trans a b c :
  Py.pair_ltb a b = true -> Py.pair_ltb b c = true -> Py.pair_ltb a c = true.
Proof.
  rewrite !pair_ltb_spec. intros [H1|[H1 S1]] [H2|[H2 S2]].
  - left. lra.
  - left. lra.
  - left. lra.
  - right. split; [lra|]. eapply string_ltb_trans; eassumption.
Qed.

Lemma pair_ltb_negtrans a b c :
  Py.pair_ltb a b = false -> Py.pair_ltb b c = false -> Py.pair_ltb a c = false.
Proof.
  rewrite !pair_ltb_false. intros [H1|[H1 S1]] [H2|[H2 S2]].
  - left. lra.
  - left. lra.
  - left. lra.
  - right. split; [lra|]. eapply string_ltb_negtrans; eassumption.
Qed.

Lemma StronglySorted_impl {A} (R R' : A -> A -> Prop) (l : list A) :
  (forall a b, R a b -> R' a b) -> StronglySorted R l -> StronglySorted R' l.
Proof.
  intros Himpl. induction 1 as [|a l _ IH Ha]; constructor; [exact IH|].
  eapply List.Forall_impl; [|exact Ha]. apply Himpl.
Qed.


(** ** The lexical similarity *)

Lemma quotient_bounds (i u : nat) :
  (i <= u)%nat -> (0 < u)%nat ->
  (0 <= inject_Z (Z.of_nat i) / inject_Z (Z.of_nat u) <= 1)%Q.
Proof.
  intros Hiu Hu.
  assert (0 < inject_Z (Z.of_nat u))%Q as Hpos.
  { unfold Qlt, inject_Z. cbn [Qnum Qden]. lia. }
  split.
  - apply Qle_shift_div_l; [exact Hpos|]. rewrite Qmult_0_l.
    change 0%Q with (inject_Z 0). rewrite <- Zle_Qle. lia.
  - apply Qle_shift_div_r; [exact Hpos|]. rewrite Qmult_1_l.
    rewrite <- Zle_Qle. lia.
Qed.

Lemma ratio_of_bounds (i u : nat) :
  (i <= u)%nat -> (0 < u)%nat -> (0 <= ratio_of i u <= 1)%Q.
Proof.
  intros Hiu Hu. unfold ratio_of. apply float_unit, quotient_bounds; assumption.
Qed.

(** X1.  [_calculate_text_similarity] does not depend on the order of its
    two arguments, and its value lies in [[0, 1]]. *)
Theorem text_similarity_symmetric_bounded (story1 story2 : Story) :
  _calculate_text_similarity story1 story2
  = _calculate_text_similarity story2 story1
  /\ (0 <= _calculate_text_similarity story1 story2 <= 1)%Q.
Proof.
  unfold _calculate_text_similarity.
  set (words1 := list_to_set (Py.split (get clean_text "" story1)) : gset string).
  set (words2 := list_to_set (Py.split (get clean_text "" story2)) : gset string).
  assert (words2 ∩ words1 = words1 ∩ words2) as -> by set_solver.
  assert (words2 ∪ words1 = words1 ∪ words2) as -> by set_solver.
  destruct (Py.nonempty (get clean_text "" story1)),
    (Py.nonempty (get clean_text "" story2)); cbn [negb orb];
    try (split; [reflexivity | split; lra]).
  destruct (bool_decide (words1 = ∅)), (bool_decide (words2 = ∅)); cbn [orb];
    try (split; [reflexivity | split; lra]).
  split; [reflexivity|].
  destruct (0 <? size (words1 ∪ words2))%nat eqn:Hu; [|split; lra].
  apply Nat.ltb_lt in Hu. apply ratio_of_bounds; [|exact Hu].
  apply subseteq_size. set_solver.
Qed.


(** ** What the groups are made of *)

Lemma enumerate_from_drop_lookup {A} (l : list A) (k j : nat) (x : A) :
  In (j, x) (Py.enumerate_from k (drop k l)) <-> (k <= j)%nat /\ l !! j = Some x.
Proof.
  split.
  - intros Hin. apply enumerate_from_lookup in Hin as [Hle Hl].
    split; [exact Hle|]. rewrite lookup_drop in Hl.
    replace (k + (j - k))%nat with j in Hl by lia. exact Hl.
  - intros [Hle Hl]. revert k Hle.
    assert (forall n k, (j - k = n)%nat -> (k <= j)%nat ->
                        In (j, x) (Py.enumerate_from k (drop k l))) as Hgen.
    { induction n as [|n IH]; intros k Hn Hle.
      - assert (k = j) as -> by lia.
        rewrite (drop_S l x j Hl). left. reflexivity.
      - destruct (lookup_lt_is_Some_2 l k) as [y Hy].
        { apply lookup_lt_Some in Hl. lia. }
        rewrite (drop_S l y k Hy). right. apply IH; lia. }
    intros k Hle. apply (Hgen (j - k)%nat); [reflexivity | exact Hle].
Qed.

Lemma sorted_cons_least (i : nat) (added : list nat) :
  (forall j, In j added -> (i < j)%nat) ->
  Py.sorted Nat.ltb (fun n => n) (i :: added)
  = i :: Py.sorted Nat.ltb (fun n => n) added.
Proof.
  intros Hlater. cbn [Py.sorted].
  destruct (Py.sorted Nat.ltb (fun n => n) added) as [|y rest] eqn:Hs;
    [reflexivity|].
  cbn [Py.insert_sorted].
  assert (In y added) as Hy.
  { eapply Permutation_in; [apply (sorted_permutation Nat.ltb (fun n => n))|].
    rewrite Hs. left. reflexivity. }
  apply Hlater in Hy. destruct (Nat.ltb_spec y i); [lia | reflexivity].
Qed.

Section GroupMembers.

Context (lib : Libraries) (similarity_threshold : Q).

(** The indices that the inner loop adds are those of the entries, not yet
    processed, whose story is similar to [story]. *)
Lemma inner_loop_similar (story : Story) (entries : list (nat * Story)) :
  forall (current_group : list nat) (processed : gset nat),
  exists added : list nat,
    fold_left (scan_candidate lib similarity_threshold story) entries
      (current_group, processed)
    = (current_group ++ added, list_to_set added ∪ processed)
    /\ Forall (fun j =>
                 exists other,
                   In (j, other) entries
                   /\ _are_stories_similar lib similarity_threshold story other
                      = true) added
    /\ (forall j other,
          In (j, other) entries ->
          _are_stories_similar lib similarity_threshold story other = true ->
          j ∈ list_to_set added ∪ processed).
Proof.
  induction entries as [|[j other_story] entries IH]; intros current_group processed.
  - exists []. cbn [fold_left]. rewrite app_nil_r.
    split; [f_equal; set_solver|]. split; [constructor|]. intros j other [].
  - cbn [fold_left]. destruct (decide (j ∈ processed)) as [Hj|Hj].
    + rewrite scan_candidate_processed by exact Hj.
      destruct (IH current_group processed) as (added & Heq & Hsim & Hall).
      exists added. split; [exact Heq|]. split.
      * eapply List.Forall_impl; [|exact Hsim].
        intros k (other & Hin & Hk). exists other. split; [right|]; assumption.
      * intros k other [Hk|Hk] Hs.
        -- injection Hk as <- <-. set_solver.
        -- apply (Hall k other Hk Hs).
    + rewrite scan_candidate_fresh by exact Hj.
      destruct (_are_stories_similar lib similarity_threshold story other_story)
        eqn:Hsimilar.
      * destruct (IH (current_group ++ [j]) ({[j]} ∪ processed))
          as (added & Heq & Hsim & Hall).
        exists (j :: added). rewrite Heq. split.
        { f_equal; [rewrite <- app_assoc; reflexivity | set_solver]. }
        split.
        { constructor.
          - exists other_story. split; [left; reflexivity | exact Hsimilar].
          - eapply List.Forall_impl; [|exact Hsim].
            intros k (other & Hin & Hk). exists other. split; [right|]; assumption. }
        intros k other [Hk|Hk] Hs.
        -- injection Hk as <- <-. set_solver.
        -- specialize (Hall k other Hk Hs). set_solver.
      * destruct (IH current_group processed) as (added & Heq & Hsim & Hall).
        exists added. split; [exact Heq|]. split.
        { eapply List.Forall_impl; [|exact Hsim].
          intros k (other & Hin & Hk). exists other. split; [right|]; assumption. }
        intros k other [Hk|Hk] Hs.
        -- injection Hk as <- <-. congruence.
        -- apply (Hall k other Hk Hs).
Qed.

Lemma scan_story_led (stories : list Story) state (i : nat) (story : Story) :
  stories !! i = Some story ->
  Forall (led_by_first lib similarity_threshold stories) (fst state) ->
  Forall (led_by_first lib similarity_threshold stories)
    (fst (scan_story lib similarity_threshold stories state (i, story))).
Proof.
  destruct state as [duplicate_groups processed]. cbn [fst].
  intros Hi Hled. unfold scan_story. case_bool_decide as Hprocessed; [exact Hled|].
  destruct (inner_loop_similar story
              (Py.enumerate_from (i + 1) (drop (i + 1) stories))
              [i] ({[i]} ∪ processed)) as (added & -> & Hsim & _).
  destruct (1 <? length ([i] ++ added))%nat; cbn [fst]; [|exact Hled].
  apply Forall_app. split; [exact Hled|]. constructor; [|constructor].
  assert (forall j, In j added ->
            (i < j)%nat
            /\ exists other,
                 stories !! j = Some other
                 /\ _are_stories_similar lib similarity_threshold story other
                    = true) as Hadded.
  { intros j Hj. rewrite List.Forall_forall in Hsim.
    destruct (Hsim j Hj) as (other & Hin & Hs).
    apply enumerate_from_drop_lookup in Hin as [Hle Hl].
    split; [lia|]. exists other. split; assumption. }
  exists i, story, (Py.sorted Nat.ltb (fun n => n) added).
  split; [|split; [exact Hi|]].
  - cbn [app]. apply sorted_cons_least. intros j Hj. apply Hadded, Hj.
  - rewrite List.Forall_forall. intros j Hj. apply Hadded.
    eapply Permutation_in; [apply (sorted_permutation Nat.ltb (fun n => n))|].
    exact Hj.
Qed.

Lemma outer_loop_led (stories : list Story) (entries : list (nat * Story)) state :
  (forall i story, In (i, story) entries -> stories !! i = Some story) ->
  Forall (led_by_first lib similarity_threshold stories) (fst state) ->
  Forall (led_by_first lib similarity_threshold stories)
    (fst (fold_left (scan_story lib similarity_threshold stories) entries state)).
Proof.
  revert state. induction entries as [|[i story] entries IH]; intros state Hin Hled.
  - exact Hled.
  - cbn [fold_left]. apply IH.
    + intros j s Hj. apply Hin. right. exact Hj.
    + apply scan_story_led; [|exact Hled]. apply Hin. left. reflexivity.
Qed.

Lemma find_duplicates_led (stories : list Story) :
  Forall (led_by_first lib similarity_threshold stories)
    (_find_duplicates lib similarity_threshold stories).
Proof.
  unfold _find_duplicates.
  pose proof (outer_loop_led stories (Py.enumerate stories) ([], ∅)) as Hled.
  destruct (fold_left (scan_story lib similarity_threshold stories)
              (Py.enumerate stories) ([], ∅)) as [duplicate_groups processed].
  cbn [fst] in Hled.
  rewrite List.Forall_forall. intros group Hgroup.
  eapply Permutation_in in Hgroup;
    [|apply (sorted_permutation Nat.ltb (hd 0%nat))].
  revert group Hgroup. rewrite <- List.Forall_forall. apply Hled.
  - intros i story Hin. unfold Py.enumerate in Hin.
    apply enumerate_from_lookup in Hin as [_ Hl].
    rewrite Nat.sub_0_r in Hl. exact Hl.
  - constructor.
Qed.

(** The groups only grow. *)
Lemma scan_story_grows (stories : list Story) state entry :
  fst state <> [] ->
  fst (scan_story lib similarity_threshold stories state entry) <> [].
Proof.
  destruct state as [duplicate_groups processed], entry as [i story]. cbn [fst].
  intros Hne. unfold scan_story. case_bool_decide; [exact Hne|].
  destruct (fold_left _ _ _) as [current_group processed'].
  destruct (1 <? length current_group)%nat; cbn [fst]; [|exact Hne].
  destruct duplicate_groups; [contradiction | discriminate].
Qed.

Lemma outer_loop_grows (stories : list Story) entries state :
  fst state <> [] ->
  fst (fold_left (scan_story lib similarity_threshold stories) entries state) <> [].
Proof.
  revert state. induction entries as [|entry entries IH]; intros state Hne.
  - exact Hne.
  - cbn [fold_left]. apply IH, scan_story_grows, Hne.
Qed.

(** As long as no group has been found, the loop has marked nothing but
    the stories it has visited; a similar later story would open a group. *)
Lemma outer_loop_no_group (stories : list Story) :
  forall (n k : nat) (processed : gset nat),
  (length stories - k = n)%nat ->
  (forall x, x ∈ processed -> (x < k)%nat) ->
  fst (fold_left (scan_story lib similarity_threshold stories)
         (Py.enumerate_from k (drop k stories)) ([], processed)) = [] ->
  forall i j a b,
    (k <= i)%nat -> (i < j)%nat ->
    stories !! i = Some a -> stories !! j = Some b ->
    _are_stories_similar lib similarity_threshold a b = false.
Proof.
  induction n as [|n IH]; intros k processed Hn Hprocessed Hnone i j a b Hki Hij Ha Hb.
  - apply lookup_lt_Some in Ha. lia.
  - destruct (lookup_lt_is_Some_2 stories k) as [s Hs]; [lia|].
    rewrite (drop_S stories s k Hs) in Hnone. cbn [Py.enumerate_from fold_left] in Hnone.
    unfold scan_story at 2 in Hnone.
    rewrite bool_decide_eq_false_2 in Hnone
      by (intros Hk; apply Hprocessed in Hk; lia).
    destruct (inner_loop_similar s
                (Py.enumerate_from (k + 1) (drop (k + 1) stories))
                [k] ({[k]} ∪ processed)) as (added & Heq & _ & Hall).
    rewrite Heq in Hnone.
    destruct added as [|x added].
    + cbn [app length Nat.ltb Nat.leb] in Hnone.
      replace (S k) with (k + 1)%nat in Hnone by lia.
      destruct (decide (i = k)) as [->|Hik].
      * assert (a = s) as -> by congruence.
        destruct (_are_stories_similar lib similarity_threshold s b) eqn:Hsim;
          [|reflexivity].
        exfalso. specialize (Hall j b).
        assert (j ∈ list_to_set [] ∪ ({[k]} ∪ processed)) as Hj.
        { apply Hall; [|exact Hsim].
          apply enumerate_from_drop_lookup. split; [lia | exact Hb]. }
        apply elem_of_union in Hj as [Hj|Hj]; [set_solver|].
        apply elem_of_union in Hj as [Hj|Hj].
        -- apply elem_of_singleton in Hj. lia.
        -- apply Hprocessed in Hj. lia.
      * assert (forall x, x ∈ (list_to_set [] ∪ ({[k]} ∪ processed) : gset nat) ->
                          (x < k + 1)%nat) as Hprocessed'.
        { intros x Hx.
          apply elem_of_union in Hx as [Hx|Hx]; [set_solver|].
          apply elem_of_union in Hx as [Hx|Hx].
          - apply elem_of_singleton in Hx. lia.
          - apply Hprocessed in Hx. lia. }
        apply (IH (k + 1)%nat _ ltac:(lia) Hprocessed' Hnone i j a b);
          [lia | exact Hij | exact Ha | exact Hb].
    + exfalso. cbn [app length Nat.ltb Nat.leb] in Hnone.
      revert Hnone. apply outer_loop_grows. cbn [fst]. discriminate.
Qed.

(** Without a similar pair the loop finds no group. *)
Lemma outer_loop_dissimilar (stories : list Story) :
  (forall i j a b,
     (i < j)%nat -> stories !! i = Some a -> stories !! j = Some b ->
     _are_stories_similar lib similarity_threshold a b = false) ->
  forall entries state,
    (forall i story, In (i, story) entries -> stories !! i = Some story) ->
    fst state = [] ->
    fst (fold_left (scan_story lib similarity_threshold stories) entries state) = [].
Proof.
  intros Hnone. induction entries as [|[i story] entries IH]; intros state Hin Hstate.
  - exact Hstate.
  - cbn [fold_left]. apply IH.
    + intros j s Hj. apply Hin. right. exact Hj.
    + destruct state as [duplicate_groups processed]. cbn [fst] in Hstate. subst.
      unfold scan_story. case_bool_decide; [reflexivity|].
      destruct (inner_loop_similar story
                  (Py.enumerate_from (i + 1) (drop (i + 1) stories))
                  [i] ({[i]} ∪ processed)) as (added & -> & Hsim & _).
      destruct added as [|j added]; [reflexivity|].
      exfalso. apply Forall_cons in Hsim as [(other & Hother & Hs) _].
      apply enumerate_from_drop_lookup in Hother as [Hle Hl].
      rewrite (Hnone i j story other) in Hs; [discriminate | lia | | exact Hl].
      apply Hin. left. reflexivity.
Qed.

End GroupMembers.

(** X2.  In every group that [_find_duplicates] returns, the first index
    is the smallest, and the story at each other index is a duplicate,
    by [_are_stories_similar], of the story at the first index. *)
Theorem group_members_similar_to_first
    (lib : Libraries) (similarity_threshold : Q) (stories : list Story)
    (group : list nat) :
  In group (_find_duplicates lib similarity_threshold stories) ->
  led_by_first lib similarity_threshold stories group.
Proof.
  intros Hgroup.
  pose proof (find_duplicates_led lib similarity_threshold stories) as Hled.
  rewrite List.Forall_forall in Hled. apply Hled, Hgroup.
Qed.

Lemma group_members_similar_to_first_witness :
  In [0; 3]%nat
    (_find_duplicates example_libraries default_similarity_threshold
       (_clean_stories (Py.sorted String.ltb story_id five_stories)))
  /\ led_by_first example_libraries default_similarity_threshold
       (_clean_stories (Py.sorted String.ltb story_id five_stories)) [0; 3]%nat.
Proof.
  assert (In [0; 3]%nat
            (_find_duplicates example_libraries default_similarity_threshold
               (_clean_stories (Py.sorted String.ltb story_id five_stories))))
    as Hgroup.
  { vm_compute. left. reflexivity. }
  split; [exact Hgroup|].
  apply (group_members_similar_to_first example_libraries
           default_similarity_threshold
           (_clean_stories (Py.sorted String.ltb story_id five_stories))
           [0; 3]%nat Hgroup).
Defined.

Lemma find_duplicates_dissimilar
    (lib : Libraries) (similarity_threshold : Q) (stories : list Story) :
  (forall i j a b,
     (i < j)%nat -> stories !! i = Some a -> stories !! j = Some b ->
     _are_stories_similar lib similarity_threshold a b = false) ->
  _find_duplicates lib similarity_threshold stories = [].
Proof.
  intros Hnone. unfold _find_duplicates.
  pose proof (outer_loop_dissimilar lib similarity_threshold stories Hnone
                (Py.enumerate stories) ([], ∅)) as Hback.
  destruct (fold_left (scan_story lib similarity_threshold stories)
              (Py.enumerate stories) ([], ∅)) as [duplicate_groups processed].
  cbn [fst] in Hback. rewrite Hback; [reflexivity | | reflexivity].
  intros i story Hin. apply enumerate_from_lookup in Hin as [_ Hl].
  rewrite Nat.sub_0_r in Hl. exact Hl.
Qed.

(** X3.  [_find_duplicates] returns no group if and only if no story is a
    duplicate, by [_are_stories_similar], of a story that comes later in
    the list. *)
Theorem no_group_iff_no_similar_pair
    (lib : Libraries) (similarity_threshold : Q) (stories : list Story) :
  _find_duplicates lib similarity_threshold stories = []
  <-> (forall i j a b,
         (i < j)%nat -> stories !! i = Some a -> stories !! j = Some b ->
         _are_stories_similar lib similarity_threshold a b = false).
Proof.
  split; [|apply find_duplicates_dissimilar].
  unfold _find_duplicates.
  pose proof (outer_loop_no_group lib similarity_threshold stories
                (length stories - 0) 0 ∅ eq_refl) as Hforth.
  rewrite drop_0 in Hforth. unfold Py.enumerate.
  destruct (fold_left (scan_story lib similarity_threshold stories)
              (Py.enumerate_from 0 stories) ([], ∅)) as [duplicate_groups processed].
  cbn [fst] in Hforth. intros Hs i j a b Hij Ha Hb.
  assert (duplicate_groups = []) as ->.
  { apply (f_equal length) in Hs. rewrite sorted_length in Hs.
    destruct duplicate_groups; [reflexivity | discriminate]. }
  apply (Hforth ltac:(set_solver) eq_refl i j a b); [lia | assumption..].
Qed.


(** ** Merging a group *)

(** X4.  [_merge_story_group] gives the same merged story for every
    arrangement of a group whose members have pairwise distinct sort keys
    [x.get('User Story ID', '')]. *)
Theorem merge_story_group_permutation
    (lib : Libraries) (story_group permuted : list Story) :
  NoDup (map story_id story_group) ->
  Permutation story_group permuted ->
  _merge_story_group lib story_group = _merge_story_group lib permuted.
Proof.
  intros Hdistinct Hperm.
  assert (Py.sorted String.ltb story_id story_group
          = Py.sorted String.ltb story_id permuted) as Hsorted.
  { apply (sorted_permutation_eq String.ltb story_id string_ltb_irrefl
             string_ltb_trans string_ltb_connex); assumption. }
  destruct story_group as [|s story_group]; destruct permuted as [|p permuted].
  - reflexivity.
  - apply Permutation_nil in Hperm. discriminate.
  - apply Permutation_sym, Permutation_nil in Hperm. discriminate.
  - unfold _merge_story_group. rewrite Hsorted. reflexivity.
Qed.

Lemma merge_story_group_permutation_witness :
  NoDup (map story_id [story_a_example; story_b_example])
  /\ Permutation [story_a_example; story_b_example]
       [story_b_example; story_a_example]
  /\ _merge_story_group example_libraries [story_a_example; story_b_example]
     = _merge_story_group example_libraries [story_b_example; story_a_example].
Proof.
  assert (NoDup (map story_id [story_a_example; story_b_example])) as Hdistinct.
  { apply (bool_decide_unpack _). vm_compute. exact I. }
  split; [exact Hdistinct|]. split; [apply perm_swap|].
  apply (merge_story_group_permutation example_libraries
           [story_a_example; story_b_example] [story_b_example; story_a_example]
           Hdistinct (perm_swap _ _ _)).
Defined.

(** X5.  The merge hash of a group is the same for every arrangement of
    the group, whether or not identifiers repeat: it is computed from the
    sorted identifiers. *)
Theorem merge_hash_permutation
    (lib : Libraries) (story_group permuted : list Story) :
  Permutation story_group permuted ->
  _generate_merge_hash lib story_group = _generate_merge_hash lib permuted.
Proof.
  intros Hperm. unfold _generate_merge_hash. do 2 f_equal.
  rewrite <- (map_id (Py.sorted String.ltb (fun s => s) (map story_id story_group))).
  rewrite <- (map_id (Py.sorted String.ltb (fun s => s) (map story_id permuted))).
  apply (map_sorted_permutation String.ltb (fun s : string => s) string_ltb_irrefl
           string_ltb_trans string_ltb_connex (fun s : string => s)
           (fun s : string => s)).
  - reflexivity.
  - apply Permutation_map, Hperm.
  - intros x y _ _ Heq. exact Heq.
Qed.

Lemma merge_hash_permutation_witness :
  Permutation [tied_first; tied_second; approve_3]
    [approve_3; tied_second; tied_first]
  /\ _generate_merge_hash example_libraries [tied_first; tied_second; approve_3]
     = _generate_merge_hash example_libraries [approve_3; tied_second; tied_first].
Proof.
  assert (Permutation [tied_first; tied_second; approve_3]
            [approve_3; tied_second; tied_first]) as Hperm.
  { apply (Permutation_rev [tied_first; tied_second; approve_3]). }
  split; [exact Hperm|].
  apply (merge_hash_permutation example_libraries
           [tied_first; tied_second; approve_3]
           [approve_3; tied_second; tied_first] Hperm).
Defined.

(** *** The merged lists *)

Lemma strictly_sorted (l : list string) :
  NoDup l ->
  StronglySorted (in_order String.ltb (fun s : string => s)) l ->
  StronglySorted (fun a b => String.ltb a b = true) l.
Proof.
  intros Hnd. induction 1 as [|a l _ IH Ha]; constructor.
  - apply IH. apply NoDup_cons in Hnd as [_ Hnd]. exact Hnd.
  - apply NoDup_cons in Hnd as [Hfresh _].
    rewrite List.Forall_forall in *. intros b Hb.
    destruct (String.ltb a b) eqn:Hab; [reflexivity|].
    exfalso. apply Hfresh. apply list_elem_of_In.
    rewrite (string_ltb_connex a b Hab (Ha b Hb)). exact Hb.
Qed.

(** [sorted(list(set(l)))] is strictly increasing and has the elements
    of [l]. *)
Lemma sorted_set_spec (l : list string) :
  StronglySorted (fun a b => String.ltb a b = true) (Py.sorted_set l)
  /\ (forall v, In v (Py.sorted_set l) <-> In v l).
Proof.
  unfold Py.sorted_set.
  pose proof (sorted_permutation String.ltb (fun s : string => s) (remove_dups l))
    as Hperm.
  split.
  - apply strictly_sorted.
    + rewrite Hperm. apply NoDup_remove_dups.
    + apply sorted_ordered;
        [apply string_ltb_irrefl | apply string_ltb_trans | apply string_ltb_negtrans].
  - intros v. rewrite <- !list_elem_of_In, Hperm. apply elem_of_remove_dups.
Qed.

Lemma extend_all_in (field : Story -> option (list string))
    (sorted_group : list Story) (v : string) :
  In v (extend_all field sorted_group)
  <-> exists member, In member sorted_group /\ In v (default [] (field member)).
Proof.
  unfold extend_all. rewrite in_concat. split.
  - intros (values & Hvalues & Hv).
    apply in_map_iff in Hvalues as (member & <- & Hmember).
    exists member. split; assumption.
  - intros (member & Hmember & Hv).
    exists (default [] (field member)). split; [|exact Hv].
    apply in_map_iff. exists member. split; [reflexivity | exact Hmember].
Qed.

Lemma sorted_union_of_sorted_set (field : Story -> option (list string))
    (story_group : list Story) (merged : Story) :
  field merged
  = Some (Py.sorted_set
            (extend_all field (Py.sorted String.ltb story_id story_group))) ->
  sorted_union_of field story_group merged.
Proof.
  intros Hfield. eexists. split; [exact Hfield|].
  destruct (sorted_set_spec
              (extend_all field (Py.sorted String.ltb story_id story_group)))
    as [Hsorted Hin].
  split; [exact Hsorted|].
  intros v. rewrite Hin, extend_all_in. split.
  - intros (member & Hmember & Hv). exists member. split; [|exact Hv].
    eapply Permutation_in;
      [apply (sorted_permutation String.ltb story_id) | exact Hmember].
  - intros (member & Hmember & Hv). exists member. split; [|exact Hv].
    eapply Permutation_in;
      [apply Permutation_sym, (sorted_permutation String.ltb story_id)
      | exact Hmember].
Qed.

(** X6.  In the story that [_merge_story_group] makes of a non-empty
    group, each of ['Tags'], ['requirements'] and ['acceptance_criteria']
    is a strictly increasing list, hence without repetition, that holds
    exactly the values found under that key in the members. *)
Theorem merged_lists_sorted_union (lib : Libraries) (story_group : list Story) :
  story_group <> [] ->
  let merged := _merge_story_group lib story_group in
  sorted_union_of Tags story_group merged
  /\ sorted_union_of requirements story_group merged
  /\ sorted_union_of acceptance_criteria story_group merged.
Proof.
  intros Hne merged. subst merged.
  destruct (sorted_nonempty String.ltb story_id story_group Hne)
    as (first & rest & Hsorted).
  destruct story_group as [|s story_group]; [contradiction|].
  repeat split; apply sorted_union_of_sorted_set;
    unfold _merge_story_group; rewrite Hsorted; reflexivity.
Qed.

Lemma merged_lists_sorted_union_witness :
  [story_a_example; story_b_example] <> []
  /\ sorted_union_of Tags [story_a_example; story_b_example]
       (_merge_story_group example_libraries [story_a_example; story_b_example]).
Proof.
  assert ([story_a_example; story_b_example] <> []) as Hne by discriminate.
  split; [exact Hne|].
  destruct (merged_lists_sorted_union example_libraries
              [story_a_example; story_b_example] Hne) as [Htags _].
  exact Htags.
Defined.

(** *** The merged texts *)

Lemma prefix_refl (s : string) : String.prefix s s = true.
Proof.
  induction s as [|c s IH]; [reflexivity|].
  cbn [String.prefix]. destruct (ascii_dec c c); [exact IH | contradiction].
Qed.

Lemma prefix_append (p s t : string) :
  String.prefix p s = true -> String.prefix p (s +:+ t) = true.
Proof.
  revert s. induction p as [|c p IH]; intros s Hprefix;
    [destruct (s +:+ t); reflexivity|].
  destruct s as [|c' s]; [discriminate|].
  change (String c' s +:+ t) with (String c' (s +:+ t)).
  cbn [String.prefix] in *.
  destruct (ascii_dec c c'); [apply IH, Hprefix | discriminate].
Qed.

Lemma append_sentences_prefix (longest_text merged_text text : string) :
  String.prefix longest_text merged_text = true ->
  String.prefix longest_text (append_sentences longest_text merged_text text) = true.
Proof.
  unfold append_sentences. destruct (String.eqb text longest_text); [auto|].
  generalize (Py.split_on "." text). intros sentences. revert merged_text.
  induction sentences as [|sentence sentences IH]; intros merged_text Hprefix.
  - exact Hprefix.
  - cbn [fold_left]. apply IH.
    destruct (Py.nonempty (Py.strip sentence)
              && negb (Py.contains (Py.strip sentence) merged_text));
      [|exact Hprefix].
    apply prefix_append, Hprefix.
Qed.

Lemma merge_loop_prefix (longest_text : string) (rest : list string) :
  forall merged_text,
  String.prefix longest_text merged_text = true ->
  String.prefix longest_text
    (fold_left (append_sentences longest_text) rest merged_text) = true.
Proof.
  induction rest as [|text rest IH]; intros merged_text Hprefix.
  - exact Hprefix.
  - cbn [fold_left]. apply IH, append_sentences_prefix, Hprefix.
Qed.

Lemma strip_empty : Py.strip "" = "".
Proof. reflexivity. Qed.

Lemma nonblank_filter (t : string) :
  Py.nonempty t && Py.nonempty (Py.strip t) = nonblank t.
Proof.
  unfold nonblank. destruct t as [|c t]; [reflexivity|]. reflexivity.
Qed.

(** X7.  When some text is not blank, the text that [_merge_text_fields]
    returns begins with a longest non-blank text of the list, unchanged:
    sentences of the other texts are only ever appended to it. *)
Theorem merge_text_fields_extends_longest (texts : list string) :
  (exists t, In t texts /\ nonblank t = true) ->
  exists longest_text,
    In longest_text texts
    /\ nonblank longest_text = true
    /\ (forall t, In t texts -> nonblank t = true ->
                  (String.length t <= String.length longest_text)%nat)
    /\ String.prefix longest_text (_merge_text_fields texts) = true.
Proof.
  intros (t0 & Ht0 & Hnonblank).
  unfold _merge_text_fields.
  destruct texts as [|text texts]; [destruct Ht0|].
  set (all_texts := text :: texts) in *.
  assert (forall t, In t (List.filter
                            (fun t => Py.nonempty t && Py.nonempty (Py.strip t))
                            all_texts)
                    <-> In t all_texts /\ nonblank t = true) as Hfilter.
  { intros t. rewrite filter_In, nonblank_filter. reflexivity. }
  destruct (List.filter (fun t => Py.nonempty t && Py.nonempty (Py.strip t))
              all_texts) as [|t1 [|t2 kept]] eqn:Hkept.
  - exfalso. apply (Hfilter t0). split; assumption.
  - exists t1. destruct (proj1 (Hfilter t1) (or_introl eq_refl)) as [Hin Hnb].
    split; [exact Hin|]. split; [exact Hnb|]. split; [|apply prefix_refl].
    intros t Ht Hb. destruct (proj2 (Hfilter t) (conj Ht Hb)) as [<-|[]]. lia.
  - destruct (sorted_nonempty (fun a b => (b <? a)%nat) String.length
                (t1 :: t2 :: kept)) as (longest_text & rest & Hsorted);
      [discriminate|].
    unfold Py.sorted_reverse. rewrite Hsorted.
    assert (In longest_text (t1 :: t2 :: kept)) as Hlongest.
    { eapply Permutation_in;
        [apply (sorted_permutation (fun a b => (b <? a)%nat) String.length)|].
      rewrite Hsorted. left. reflexivity. }
    exists longest_text. destruct (proj1 (Hfilter longest_text) Hlongest) as [Hin Hnb].
    split; [exact Hin|]. split; [exact Hnb|]. split.
    + intros t Ht Hb.
      pose proof (sorted_head_least (fun a b => (b <? a)%nat) String.length
                    (fun a => Nat.ltb_irrefl a) nat_gtb_trans nat_gtb_negtrans
                    (t1 :: t2 :: kept) longest_text rest Hsorted t
                    (proj2 (Hfilter t) (conj Ht Hb))) as Hleast.
      apply Nat.ltb_ge in Hleast. exact Hleast.
    + apply merge_loop_prefix, prefix_refl.
Qed.

Lemma merge_text_fields_extends_longest_witness :
  (exists t, In t ["search assets"; "  "; "search assets quickly. find files"]
             /\ nonblank t = true)
  /\ exists longest_text,
       In longest_text ["search assets"; "  "; "search assets quickly. find files"]
       /\ nonblank longest_text = true
       /\ (forall t,
             In t ["search assets"; "  "; "search assets quickly. find files"] ->
             nonblank t = true ->
             (String.length t <= String.length longest_text)%nat)
       /\ String.prefix longest_text
            (_merge_text_fields
               ["search assets"; "  "; "search assets quickly. find files"])
          = true.
Proof.
  assert (exists t, In t ["search assets"; "  "; "search assets quickly. find files"]
                    /\ nonblank t = true) as Hsome.
  { exists "search assets". split; [left; reflexivity | reflexivity]. }
  split; [exact Hsome|].
  apply (merge_text_fields_extends_longest
           ["search assets"; "  "; "search assets quickly. find files"] Hsome).
Defined.

(** *** What the merged story keeps of the first member *)

(** X8.  The story that [_merge_story_group] makes of a non-empty group
    is built on the member that comes first in identifier order: no member
    has a smaller identifier, and the merged story has that member's
    identifier, category, priority, source, content hash and other keys. *)
Theorem merged_story_keeps_first_member (lib : Libraries) (story_group : list Story) :
  story_group <> [] ->
  exists first,
    In first story_group
    /\ (forall member, In member story_group ->
          String.ltb (story_id member) (story_id first) = false)
    /\ let merged := _merge_story_group lib story_group in
       User_Story_ID merged = User_Story_ID first
       /\ Category merged = Category first
       /\ Priority merged = Priority first
       /\ Source merged = Source first
       /\ Content_Hash merged = Content_Hash first
       /\ other_keys merged = other_keys first.
Proof.
  intros Hne.
  destruct (sorted_nonempty String.ltb story_id story_group Hne)
    as (first & rest & Hsorted).
  exists first. split; [|split].
  - eapply Permutation_in; [apply (sorted_permutation String.ltb story_id)|].
    rewrite Hsorted. left. reflexivity.
  - intros member Hmember.
    apply (sorted_head_least String.ltb story_id string_ltb_irrefl
             string_ltb_trans string_ltb_negtrans story_group first rest Hsorted
             member Hmember).
  - destruct story_group as [|s story_group]; [contradiction|].
    unfold _merge_story_group. rewrite Hsorted. cbn. repeat split; reflexivity.
Qed.

Lemma merged_story_keeps_first_member_witness :
  [story_b_example; story_a_example] <> []
  /\ exists first,
       In first [story_b_example; story_a_example]
       /\ User_Story_ID
            (_merge_story_group example_libraries [story_b_example; story_a_example])
          = User_Story_ID first.
Proof.
  assert ([story_b_example; story_a_example] <> []) as Hne by discriminate.
  split; [exact Hne|].
  destruct (merged_story_keeps_first_member example_libraries
              [story_b_example; story_a_example] Hne)
    as (first & Hin & _ & Hid & _).
  exists first. split; [exact Hin | exact Hid].
Defined.


(** ** The whole run *)

(** X9.  Whatever the methods reached through [self] do, a run of
    [deduplicate_and_score] that returns gives its stories ranked: each
    story has a score at least as high as every story after it, and of two
    stories with the same score the one with the larger identifier is not
    first. *)
Theorem output_ranked_by_score_then_id
    (lib : Libraries) (similarity_threshold : Q) (self : Methods)
    (stories scored_stories : list Story) :
  deduplicate_and_score lib similarity_threshold self stories
  = Py.Ok scored_stories ->
  StronglySorted ranked_before scored_stories.
Proof.
  unfold deduplicate_and_score. destruct stories as [|s stories].
  { intros Hrun. injection Hrun as <-. constructor. }
  destruct (_merge_duplicates _ _ _) as [merged_stories|e]; [|discriminate].
  cbn [Py.bind].
  destruct (_calculate_final_scores _ _) as [scored|e]; [|discriminate].
  cbn [Py.bind]. intros Hrun. injection Hrun as <-.
  apply (StronglySorted_impl (in_order Py.pair_ltb output_key)).
  - intros a b Hab. unfold in_order in Hab. apply pair_ltb_false in Hab.
    unfold output_key in Hab. cbn [fst snd] in Hab. unfold ranked_before.
    destruct Hab as [Hlt|[Heq Hid]].
    + left. lra.
    + right. split; [lra | exact Hid].
  - apply sorted_ordered;
      [apply pair_ltb_irrefl | apply pair_ltb_trans | apply pair_ltb_negtrans].
Qed.

Lemma output_ranked_by_score_then_id_witness :
  exists scored_stories,
    deduplicate_and_score example_libraries default_similarity_threshold
      (engine example_libraries) five_stories = Py.Ok scored_stories
    /\ StronglySorted ranked_before scored_stories.
Proof.
  destruct (deduplicate_and_score_engine example_libraries
              default_similarity_threshold five_stories)
    as (merged & _ & _ & Hrun); [discriminate|].
  eexists. split; [exact Hrun|].
  apply (output_ranked_by_score_then_id example_libraries
           default_similarity_threshold (engine example_libraries) five_stories
           _ Hrun).
Defined.

Lemma clean_story_User_Story_ID (story : Story) :
  User_Story_ID (clean_story story) = User_Story_ID story.
Proof.
  unfold clean_story. destruct story as [? us cap sn ? ? ? ? ? ? ? ? ? ? ? ? ? ? ?].
  destruct us, cap, sn; reflexivity.
Qed.

Lemma merged_story_identifier (lib : Libraries) (members : list Story) :
  members <> [] ->
  exists first,
    In first members
    /\ User_Story_ID (_merge_story_group lib members) = User_Story_ID first.
Proof.
  intros Hne.
  destruct (sorted_nonempty String.ltb story_id members Hne)
    as (first & rest & Hsorted).
  exists first. split.
  - eapply Permutation_in; [apply (sorted_permutation String.ltb story_id)|].
    rewrite Hsorted. left. reflexivity.
  - destruct members as [|s members]; [contradiction|].
    unfold _merge_story_group. rewrite Hsorted. reflexivity.
Qed.

(** X10.  Every story returned by a run with the engine's own methods
    carries the ['User Story ID'] entry (or the lack of one) of some
    input story: the run invents no identifier. *)
Theorem output_identifiers_from_input
    (lib : Libraries) (similarity_threshold : Q)
    (stories scored_stories : list Story) :
  deduplicate_and_score lib similarity_threshold (engine lib) stories
  = Py.Ok scored_stories ->
  forall story, In story scored_stories ->
  exists source, In source stories /\ User_Story_ID story = User_Story_ID source.
Proof.
  intros Hrun story Hstory.
  destruct stories as [|s stories].
  { injection Hrun as <-. destruct Hstory. }
  destruct (deduplicate_and_score_engine lib similarity_threshold (s :: stories))
    as (merged & Hall & _ & Hrun'); [discriminate|].
  rewrite Hrun' in Hrun. injection Hrun as <-.
  eapply Permutation_in in Hstory;
    [|apply (sorted_permutation Py.pair_ltb output_key)].
  apply in_map_iff in Hstory as (consolidated & <- & Hin).
  eapply Permutation_in in Hin;
    [|apply (sorted_permutation Z.ltb (original_index _))].
  assert (forall cleaned,
            In cleaned (_clean_stories (Py.sorted String.ltb story_id (s :: stories))) ->
            exists source, In source (s :: stories)
                           /\ User_Story_ID cleaned = User_Story_ID source)
    as Hcleaned.
  { intros cleaned Hc. apply cleaned_stories_in in Hc as (source & Hsource & ->).
    exists source. split; [exact Hsource | apply clean_story_User_Story_ID]. }
  change (User_Story_ID (scored consolidated)) with (User_Story_ID consolidated).
  apply in_app_or in Hin as [Hin|Hin].
  - destruct (Forall2_in_right _ _ _ _ Hall Hin)
      as (group & _ & members & Hne & _ & Hmembers & ->).
    destruct (merged_story_identifier lib members Hne) as (first & Hfirst & ->).
    apply Hcleaned, Hmembers, Hfirst.
  - apply unmerged_in in Hin. apply Hcleaned, Hin.
Qed.

Lemma output_identifiers_from_input_witness :
  exists scored_stories,
    deduplicate_and_score example_libraries default_similarity_threshold
      (engine example_libraries) five_stories = Py.Ok scored_stories
    /\ forall story, In story scored_stories ->
       exists source,
         In source five_stories /\ User_Story_ID story = User_Story_ID source.
Proof.
  destruct (deduplicate_and_score_engine example_libraries
              default_similarity_threshold five_stories)
    as (merged & _ & _ & Hrun); [discriminate|].
  eexists. split; [exact Hrun|].
  apply (output_identifiers_from_input example_libraries
           default_similarity_threshold five_stories _ Hrun).
Defined.

(** *** A run without duplicates *)

Lemma unmerged_nothing (stories : list Story) :
  unmerged stories (list_to_set []) = stories.
Proof.
  unfold unmerged, Py.enumerate. generalize 0%nat.
  induction stories as [|s stories IH]; intros start; [reflexivity|].
  cbn [Py.enumerate_from List.filter fst].
  rewrite bool_decide_eq_false_2 by set_solver.
  cbn [negb map snd]. rewrite IH. reflexivity.
Qed.

(** X11.  When no two stories at different positions of the input are
    duplicates of each other once cleaned, a run with the engine's own
    methods merges nothing: it returns, in ranked order, every input story
    cleaned and scored, and no other story. *)
Theorem run_without_duplicates
    (lib : Libraries) (similarity_threshold : Q) (stories : list Story) :
  (forall i j a b,
     i <> j -> stories !! i = Some a -> stories !! j = Some b ->
     _are_stories_similar lib similarity_threshold (clean_story a) (clean_story b)
     = false) ->
  exists scored_stories,
    deduplicate_and_score lib similarity_threshold (engine lib) stories
    = Py.Ok scored_stories
    /\ Permutation scored_stories
         (map (fun story => scored (clean_story story)) stories).
Proof.
  intros Hnone. destruct stories as [|s stories].
  { exists []. split; reflexivity. }
  destruct (deduplicate_and_score_engine lib similarity_threshold (s :: stories))
    as (merged & Hall & _ & Hrun); [discriminate|].
  set (sorted_stories := Py.sorted String.ltb story_id (s :: stories)) in *.
  assert (Permutation sorted_stories (s :: stories)) as Hperm
    by apply sorted_permutation.
  assert (_find_duplicates lib similarity_threshold (_clean_stories sorted_stories)
          = []) as Hgroups.
  { apply find_duplicates_dissimilar. intros i j a b Hij Ha Hb.
    unfold _clean_stories in Ha, Hb.
    change (map clean_story sorted_stories) with (clean_story <$> sorted_stories)
      in Ha, Hb.
    rewrite list_lookup_fmap in Ha, Hb.
    destruct (sorted_stories !! i) as [a0|] eqn:Ha0; [|discriminate].
    destruct (sorted_stories !! j) as [b0|] eqn:Hb0; [|discriminate].
    injection Ha as <-. injection Hb as <-.
    apply Permutation_inj in Hperm as (_ & f & Hinj & Hf).
    rewrite Hf in Ha0, Hb0.
    apply (Hnone (f i) (f j)); [|assumption..].
    intros Heq. apply Hinj in Heq. lia. }
  rewrite Hgroups in Hall, Hrun. inversion Hall; subst.
  eexists. split; [exact Hrun|].
  rewrite (sorted_permutation Py.pair_ltb output_key).
  cbn [concat app]. rewrite unmerged_nothing.
  rewrite (sorted_permutation Z.ltb (original_index _)).
  unfold _clean_stories. rewrite map_map.
  apply Permutation_map, Hperm.
Qed.

Lemma run_without_duplicates_witness :
  (forall i j a b,
     i <> j -> [search_1; notify_2] !! i = Some a ->
     [search_1; notify_2] !! j = Some b ->
     _are_stories_similar example_libraries default_similarity_threshold
       (clean_story a) (clean_story b) = false)
  /\ exists scored_stories,
       deduplicate_and_score example_libraries default_similarity_threshold
         (engine example_libraries) [search_1; notify_2] = Py.Ok scored_stories
       /\ Permutation scored_stories
            (map (fun story => scored (clean_story story)) [search_1; notify_2]).
Proof.
  assert (forall i j a b,
            i <> j -> [search_1; notify_2] !! i = Some a ->
            [search_1; notify_2] !! j = Some b ->
            _are_stories_similar example_libraries default_similarity_threshold
              (clean_story a) (clean_story b) = false) as Hnone.
  { intros i j a b Hij Ha Hb.
    destruct i as [|[|i]], j as [|[|j]]; try discriminate; try contradiction;
      injection Ha as <-; injection Hb as <-; vm_compute; reflexivity. }
  split; [exact Hnone|].
  apply (run_without_duplicates example_libraries default_similarity_threshold
           [search_1; notify_2] Hnone).
Defined.


(** ** The deduplication summary *)

Lemma sum_int_from (l : list Z) (acc : Z) :
  fold_left Z.add l acc = (acc + Py.sum_int l)%Z.
Proof.
  unfold Py.sum_int. revert acc.
  induction l as [|x l IH]; intros acc; cbn [fold_left]; [lia|].
  rewrite IH, (IH (0 + x)%Z). lia.
Qed.

Lemma sum_int_cons (x : Z) (l : list Z) :
  Py.sum_int (x :: l) = (x + Py.sum_int l)%Z.
Proof. unfold Py.sum_int at 1. cbn [fold_left]. rewrite sum_int_from. lia. Qed.

(** The members beyond the first, added up over the groups. *)
Lemma duplicates_total (duplicate_groups : list (list nat)) :
  Py.sum_int (map (fun group => (Z.of_nat (length group) - 1)%Z) duplicate_groups)
  = (Z.of_nat (length (concat duplicate_groups))
     - Z.of_nat (length duplicate_groups))%Z.
Proof.
  induction duplicate_groups as [|group groups IH]; [reflexivity|].
  cbn [map concat length]. rewrite sum_int_cons, IH, length_app. lia.
Qed.

(** The number of stories a run with the engine's own methods returns. *)
Lemma output_length (lib : Libraries) (similarity_threshold : Q)
    (stories scored_stories : list Story) :
  deduplicate_and_score lib similarity_threshold (engine lib) stories
  = Py.Ok scored_stories ->
  let duplicate_groups :=
    _find_duplicates lib similarity_threshold
      (_clean_stories (Py.sorted String.ltb story_id stories)) in
  (length scored_stories + length (concat duplicate_groups)
   = length stories + length duplicate_groups)%nat
  /\ (length duplicate_groups <= length (concat duplicate_groups))%nat
  /\ (length (concat duplicate_groups) <= length stories)%nat.
Proof.
  intros Hrun duplicate_groups.
  destruct (find_duplicates_disjoint lib similarity_threshold
              (_clean_stories (Py.sorted String.ltb story_id stories)))
    as (Hlen & Hnd & Hrange).
  fold duplicate_groups in Hlen, Hnd, Hrange.
  pose proof (unmerged_length _ (concat duplicate_groups) Hnd Hrange) as Hcount.
  rewrite cleaned_stories_length in Hcount.
  assert (length duplicate_groups <= length (concat duplicate_groups))%nat as Hsizes.
  { clear -Hlen. induction Hlen as [|group groups Hgroup _ IH]; [reflexivity|].
    cbn [concat length]. rewrite length_app. lia. }
  assert (length scored_stories
          = length duplicate_groups
            + length (unmerged (_clean_stories (Py.sorted String.ltb story_id stories))
                        (list_to_set (concat duplicate_groups))))%nat as Hout.
  { destruct stories as [|s stories].
    { injection Hrun as <-. reflexivity. }
    destruct (deduplicate_and_score_engine lib similarity_threshold (s :: stories))
      as (merged & Hall & _ & Hrun'); [discriminate|].
    rewrite Hrun' in Hrun. injection Hrun as <-.
    fold duplicate_groups in Hall |- *.
    rewrite sorted_length, length_map, sorted_length, length_app.
    apply Forall2_length in Hall. rewrite Hall. reflexivity. }
  clearbody duplicate_groups.
  revert Hcount Hout.
  generalize (length (unmerged (_clean_stories (Py.sorted String.ltb story_id stories))
                        (list_to_set (concat duplicate_groups)))).
  intros m Hcount Hout. lia.
Qed.

(** X12.  For the summary made of a run with the engine's own methods
    (the number of input stories, the number of returned stories and the
    groups found among the cleaned stories): the final count is the
    original count minus the duplicates removed, that number is not
    negative, and the reduction percentage lies in [[0, 100]]. *)
Theorem summary_accounts_for_every_story
    (lib : Libraries) (similarity_threshold : Q)
    (stories scored_stories : list Story) :
  deduplicate_and_score lib similarity_threshold (engine lib) stories
  = Py.Ok scored_stories ->
  let duplicate_groups :=
    _find_duplicates lib similarity_threshold
      (_clean_stories (Py.sorted String.ltb story_id stories)) in
  let summary :=
    get_deduplication_summary lib (Z.of_nat (length stories))
      (Z.of_nat (length scored_stories)) duplicate_groups in
  (final_stories summary = original_stories summary - duplicates_removed summary)%Z
  /\ (0 <= duplicates_removed summary)%Z
  /\ (0 <= reduction_percentage summary <= 100)%Q.
Proof.
  intros Hrun duplicate_groups summary.
  destruct (output_length lib similarity_threshold stories scored_stories Hrun)
    as (Hcount & Hsizes & Hrange).
  fold duplicate_groups in Hcount, Hsizes, Hrange.
  subst summary. unfold get_deduplication_summary.
  cbn [final_stories original_stories duplicates_removed reduction_percentage].
  rewrite duplicates_total.
  split; [lia|]. split; [lia|].
  destruct (Z.ltb_spec 0 (Z.of_nat (length stories))) as [Hpos|_]; [|split; lra].
  apply (round_bounds _ 2 0 100); [lia | lia |].
  assert (0 < inject_Z (Z.of_nat (length stories)))%Q as Hn.
  { change 0%Q with (inject_Z 0). rewrite <- Zlt_Qlt. exact Hpos. }
  assert (0 <= inject_Z (Z.of_nat (length (concat duplicate_groups))
                         - Z.of_nat (length duplicate_groups))
          <= inject_Z (Z.of_nat (length stories)))%Q as Hsome.
  { rewrite <- Zle_Qle. change 0%Q with (inject_Z 0). rewrite <- Zle_Qle. lia. }
  pose proof (fdiv_unit _ _ Hsome Hn) as [Hlo Hhi].
  split.
  - apply fmul_nonneg; [exact Hlo | discriminate].
  - apply Qle_trans with (1%Q * inject_Z 100)%F; [|vm_compute; discriminate].
    apply fmul_mono; [split; assumption | split; [discriminate | apply Qle_refl]].
Qed.

Lemma summary_accounts_for_every_story_witness :
  exists scored_stories,
    deduplicate_and_score example_libraries default_similarity_threshold
      (engine example_libraries) five_stories = Py.Ok scored_stories
    /\ let summary :=
         get_deduplication_summary example_libraries
           (Z.of_nat (length five_stories)) (Z.of_nat (length scored_stories))
           (_find_duplicates example_libraries default_similarity_threshold
              (_clean_stories (Py.sorted String.ltb story_id five_stories))) in
       (final_stories summary
        = original_stories summary - duplicates_removed summary)%Z
       /\ (0 <= duplicates_removed summary)%Z
       /\ (0 <= reduction_percentage summary <= 100)%Q.
Proof.
  destruct (deduplicate_and_score_engine example_libraries
              default_similarity_threshold five_stories)
    as (merged & _ & _ & Hrun); [discriminate|].
  eexists. split; [exact Hrun|].
  apply (summary_accounts_for_every_story example_libraries
           default_similarity_threshold five_stories _ Hrun).
Defined.

(** *** The summary hash *)

Lemma list_ltb_irrefl (a : list nat) : Py.list_ltb a a = false.
Proof.
  induction a as [|x a IH]; [reflexivity|].
  cbn [Py.list_ltb]. rewrite Nat.eqb_refl. exact IH.
Qed.

Lemma list_ltb_trans (a b c : list nat) :
  Py.list_ltb a b = true -> Py.list_ltb b c = true -> Py.list_ltb a c = true.
Proof.
  revert b c. induction a as [|x a IH]; intros [|y b] [|z c];
    cbn [Py.list_ltb]; try discriminate; try reflexivity.
  destruct (Nat.eqb_spec x y) as [Hxy|Hxy], (Nat.eqb_spec y z) as [Hyz|Hyz],
    (Nat.eqb_spec x z) as [Hxz|Hxz];
    rewrite ?Nat.ltb_lt; intros H1 H2; subst; try lia;
    try (eapply IH; eassumption).
Qed.

Lemma list_ltb_connex (a b : list nat) :
  Py.list_ltb a b = false -> Py.list_ltb b a = false -> a = b.
Proof.
  revert b. induction a as [|x a IH]; intros [|y b];
    cbn [Py.list_ltb]; try discriminate; try reflexivity.
  rewrite (Nat.eqb_sym y x).
  destruct (Nat.eqb_spec x y) as [->|Hxy].
  - intros Hab Hba. f_equal. apply IH; assumption.
  - rewrite !Nat.ltb_ge. lia.
Qed.

(** X13.  The summary hash does not depend on the order in which the
    groups are listed. *)
Theorem summary_hash_group_order
    (lib : Libraries) (original_count final_count : Z)
    (duplicate_groups permuted : list (list nat)) :
  Permutation duplicate_groups permuted ->
  _generate_summary_hash lib original_count final_count duplicate_groups
  = _generate_summary_hash lib original_count final_count permuted.
Proof.
  intros Hperm. unfold _generate_summary_hash. do 7 f_equal.
  rewrite <- (map_id (Py.sorted Py.list_ltb (fun group => group) duplicate_groups)).
  rewrite <- (map_id (Py.sorted Py.list_ltb (fun group => group) permuted)).
  apply (map_sorted_permutation Py.list_ltb (fun group : list nat => group)
           list_ltb_irrefl list_ltb_trans list_ltb_connex
           (fun group : list nat => group) (fun group : list nat => group)).
  - reflexivity.
  - exact Hperm.
  - intros x y _ _ Heq. exact Heq.
Qed.

Lemma summary_hash_group_order_witness :
  Permutation [[0; 3]; [2; 4]]%nat [[2; 4]; [0; 3]]%nat
  /\ _generate_summary_hash example_libraries 5 3 [[0; 3]; [2; 4]]%nat
     = _generate_summary_hash example_libraries 5 3 [[2; 4]; [0; 3]]%nat.
Proof.
  assert (Permutation [[0; 3]; [2; 4]]%nat [[2; 4]; [0; 3]]%nat) as Hperm
    by apply perm_swap.
  split; [exact Hperm|].
  apply (summary_hash_group_order example_libraries 5 3 [[0; 3]; [2; 4]]%nat
           [[2; 4]; [0; 3]]%nat Hperm).
Defined.

(** 23 duplicates among 160 stories: [23 / 160 * 100] is the float next
    below [14.375], and the reduction is [14.37] per cent. *)
Example reduction_percentage_of_a_run :
  ((inject_Z 23 / inject_Z 160 * 100%Q)%F < 14.375)%Q
  /\ reduction_percentage
       (get_deduplication_summary example_libraries 160 137
          (repeat [0; 1]%nat 23))
     = Py.float 14.37.
Proof. vm_compute. repeat split; reflexivity. Qed.

(** ** The consistency score *)

Section ConsistencyScore.

Local Open Scope Q_scope.

Lemma matching_positions_sym (text1 text2 : string) :
  matching_positions text1 text2 = matching_positions text2 text1.
Proof.
  revert text2. induction text1 as [|c1 t1 IH]; intros [|c2 t2]; try reflexivity.
  cbn [matching_positions]. rewrite (Ascii.eqb_sym c1 c2), IH. reflexivity.
Qed.

Lemma matching_positions_le (text1 text2 : string) :
  (matching_positions text1 text2
   <= Nat.max (String.length text1) (String.length text2))%nat.
Proof.
  revert text2. induction text1 as [|c1 t1 IH]; intros [|c2 t2];
    cbn [matching_positions String.length]; try lia.
  specialize (IH t2). destruct (Ascii.eqb c1 c2); lia.
Qed.

Lemma text_similarity_sym (text1 text2 : string) :
  _text_similarity text1 text2 = _text_similarity text2 text1.
Proof.
  unfold _text_similarity.
  rewrite (orb_comm (negb (Py.nonempty text2))).
  rewrite (String.eqb_sym (Py.lower text2)).
  rewrite (matching_positions_sym (Py.lower text2)).
  rewrite (Nat.max_comm (String.length (Py.lower text2))). reflexivity.
Qed.

Lemma text_similarity_bounds (text1 text2 : string) :
  0 <= _text_similarity text1 text2 <= 1.
Proof.
  unfold _text_similarity.
  destruct (negb (Py.nonempty text1) || negb (Py.nonempty text2)); [split; lra|].
  destruct (String.eqb (Py.lower text1) (Py.lower text2)); [split; lra|].
  destruct (Nat.eqb_spec
              (Nat.max (String.length (Py.lower text1))
                 (String.length (Py.lower text2))) 0) as [|Hmax]; [split; lra|].
  apply quotient_bounds; [apply matching_positions_le | lia].
Qed.

Lemma text_field_similarity_bounds (val1 val2 : string) :
  0 <= text_field_similarity val1 val2 <= 1.
Proof.
  unfold text_field_similarity.
  destruct (String.eqb val1 val2); [split; lra|].
  destruct (Py.nonempty val1 && Py.nonempty val2); [|split; lra].
  apply text_similarity_bounds.
Qed.

Lemma score_field_similarity_bounds (val1 val2 : option Q) :
  0 <= score_field_similarity val1 val2 <= 1.
Proof.
  unfold score_field_similarity.
  destruct val1 as [v1|], val2 as [v2|]; try (split; lra).
  destruct (Qeq_bool v1 v2); [split; lra|].
  destruct (Qeq_bool v1 0 && Qeq_bool v2 0); [split; lra|].
  set (max_val := if Py.Qltb (Qabs v1) (Qabs v2) then Qabs v2 else Qabs v1).
  destruct (Qeq_bool max_val 0) eqn:Hzero; [split; lra|].
  apply Qeq_bool_false in Hzero.
  assert (0 < max_val) as Hpos.
  { assert (0 <= max_val) as Hnonneg.
    { unfold max_val. destruct (Py.Qltb (Qabs v1) (Qabs v2)); apply Qabs_nonneg. }
    apply Qle_lteq in Hnonneg as [Hlt|Heq]; [exact Hlt|].
    exfalso. apply Hzero. symmetry. exact Heq. }
  assert (0 <= Qabs (v1 - v2) / max_val) as Hquot.
  { apply Qle_shift_div_l; [exact Hpos|]. rewrite Qmult_0_l. apply Qabs_nonneg. }
  destruct (Py.Qltb (1 - Qabs (v1 - v2) / max_val) 0) eqn:Hclip.
  - split; lra.
  - apply Qltb_ge in Hclip. split; lra.
Qed.

Lemma story_similarity_bounds (story1 story2 : Story) :
  0 <= _calculate_story_similarity story1 story2 <= 1.
Proof.
  unfold _calculate_story_similarity. apply mean_bounds; [discriminate|].
  intros x Hx. cbn [In] in Hx.
  destruct Hx as [<-|[<-|[<-|[<-|[]]]]];
    try apply text_field_similarity_bounds; apply score_field_similarity_bounds.
Qed.

Lemma common_similarities_bounds (cached_stories current_stories : list Story) x :
  In x (map (fun entry => fst (fst (snd entry)))
          (common_similarities cached_stories current_stories)) ->
  0 <= x <= 1.
Proof.
  intros Hx. apply in_map_iff in Hx as (entry & <- & Hentry).
  unfold common_similarities in Hentry.
  apply list_elem_of_In, list_elem_of_omap in Hentry as (story_id' & _ & Hentry).
  destruct (find_story story_id' cached_stories) as [cached_story|]; [|discriminate].
  destruct (find_story story_id' current_stories) as [current_story|];
    [|discriminate].
  injection Hentry as <-. cbn [fst snd]. apply story_similarity_bounds.
Qed.

Lemma consistency_score_bounds (cached_stories current_stories : list Story) :
  0 <= _calculate_consistency_score cached_stories current_stories <= 1.
Proof.
  unfold _calculate_consistency_score.
  destruct cached_stories as [|c cached_stories]; [split; lra|].
  destruct current_stories as [|s current_stories]; [split; lra|].
  set (cached := c :: cached_stories). set (current := s :: current_stories).
  case_bool_decide as Htotal; [split; lra|].
  apply round3_bounds.
  assert (0 <= inject_Z (Z.of_nat (size (id_set cached ∩ id_set current)))
               / inject_Z (Z.of_nat (size (id_set cached ∪ id_set current))) <= 1)
    as Hid.
  { apply quotient_bounds.
    - apply subseteq_size. set_solver.
    - destruct (size (id_set cached ∪ id_set current)) eqn:Hsize; [|lia].
      apply size_empty_inv in Hsize. exfalso. apply Htotal.
      apply leibniz_equiv, Hsize. }
  pose proof (common_similarities_bounds cached current) as Hsims.
  destruct (map (fun entry => fst (fst (snd entry)))
              (common_similarities cached current)) as [|x sims] eqn:Hlist.
  - split; lra.
  - pose proof (mean_bounds (x :: sims) ltac:(discriminate) Hsims) as Hmean.
    split; lra.
Qed.

End ConsistencyScore.

(** X14.  The character-level similarity [_text_similarity] does not depend
    on the order of its arguments and lies in [[0, 1]]. *)
Theorem text_similarity_symmetric_unit (text1 text2 : string) :
  _text_similarity text1 text2 = _text_similarity text2 text1
  /\ (0 <= _text_similarity text1 text2 <= 1)%Q.
Proof.
  split; [apply text_similarity_sym | apply text_similarity_bounds].
Qed.

(** X15.  The consistency score of any cached and current outputs lies in
    [[0, 1]], and so does the score that [check_consistency] reports,
    whatever the cache holds. *)
Theorem consistency_score_in_unit_interval
    (md5_hexdigest : string -> string) (json_dumps : list StoryData -> string)
    (cache : gmap string CacheData) (input_hash : string)
    (cached_stories output_stories : list Story) :
  (0 <= _calculate_consistency_score cached_stories output_stories <= 1)%Q
  /\ (0 <= consistency_score
             (check_consistency md5_hexdigest json_dumps cache input_hash
                output_stories) <= 1)%Q.
Proof.
  split; [apply consistency_score_bounds|].
  unfold check_consistency. destruct (cache !! input_hash) as [cached_data|].
  - destruct (String.eqb _ _); cbn [consistency_score].
    + split; lra.
    + apply consistency_score_bounds.
  - cbn [consistency_score]. split; lra.
Qed.


(** *** Outputs with the same stories, and outputs without a common story *)

Section ConsistencyScoreValues.

Local Open Scope Q_scope.

(** Rounding a number that is an integer. *)
Lemma round_half_even_integer (x : Q) (k : Z) :
  x == inject_Z k -> Py.round_half_even x = k.
Proof.
  unfold Qeq, inject_Z, Py.round_half_even. cbn [Qnum Qden].
  rewrite Z.mul_1_r. intros ->.
  rewrite Z.div_mul, Z.mod_mul by lia. reflexivity.
Qed.

Lemma round3_thousandths (x : Q) (k : Z) :
  x * (1000 # 1) == inject_Z k -> Py.round3 x = Qred (k # 1000).
Proof.
  intros Hx. unfold Py.round3. rewrite (round_half_even_integer _ k Hx). reflexivity.
Qed.

Lemma sum_of_ones (l : list Q) (acc : Q) :
  (forall x, In x l -> x == 1) ->
  fold_left Qplus l acc == acc + inject_Z (Z.of_nat (length l)).
Proof.
  revert acc. induction l as [|x l IH]; intros acc Hl.
  - cbn [fold_left length]. change (inject_Z (Z.of_nat 0)) with 0. lra.
  - cbn [fold_left length]. rewrite IH by (intros y Hy; apply Hl; right; exact Hy).
    rewrite (Hl x (or_introl eq_refl)).
    rewrite Nat2Z.inj_succ, <- Z.add_1_r, inject_Z_plus. unfold inject_Z at 3. lra.
Qed.

Lemma mean_of_ones (l : list Q) :
  l <> [] -> (forall x, In x l -> x == 1) ->
  Py.sum l / inject_Z (Z.of_nat (length l)) == 1.
Proof.
  intros Hne Hl. unfold Py.sum. rewrite (sum_of_ones l 0 Hl).
  assert (~ inject_Z (Z.of_nat (length l)) == 0) as Hpos.
  { destruct l; [contradiction|]. unfold Qeq, inject_Z. cbn [Qnum Qden length]. lia. }
  field. exact Hpos.
Qed.

Lemma story_similarity_refl (story : Story) :
  _calculate_story_similarity story story == 1.
Proof.
  unfold _calculate_story_similarity. apply mean_of_ones; [discriminate|].
  intros x Hx. cbn [In] in Hx.
  destruct Hx as [<-|[<-|[<-|[<-|[]]]]];
    unfold text_field_similarity; rewrite ?String.eqb_refl; try reflexivity.
  unfold score_field_similarity. destruct (Match_Score story) as [v|]; [|reflexivity].
  rewrite (proj2 (Qeq_bool_iff v v) (Qeq_refl v)). reflexivity.
Qed.

Lemma find_story_none (story_id' : string) (stories : list Story) :
  (forall story, In story stories -> User_Story_ID story <> Some story_id') ->
  find_story story_id' stories = None.
Proof.
  unfold find_story. induction stories as [|s stories IH]; intros Hnone;
    [reflexivity|].
  cbn [find]. rewrite bool_decide_eq_false_2
    by (apply Hnone; left; reflexivity).
  apply IH. intros story Hstory. apply Hnone. right. exact Hstory.
Qed.

Lemma find_story_some (story_id' : string) (stories : list Story) (story : Story) :
  In story stories -> User_Story_ID story = Some story_id' ->
  exists found, find_story story_id' stories = Some found.
Proof.
  unfold find_story. intros Hin Hid.
  destruct (find _ stories) as [found|] eqn:Hfind; [eexists; reflexivity|].
  exfalso. pose proof (find_none _ _ Hfind story Hin) as Hfalse. cbn in Hfalse.
  rewrite bool_decide_eq_true_2 in Hfalse by exact Hid. discriminate.
Qed.

(** The similarities of an output compared with itself. *)
Lemma common_similarities_same (stories : list Story) entry :
  In entry (common_similarities stories stories) -> fst (fst (snd entry)) == 1.
Proof.
  unfold common_similarities. intros Hentry.
  apply list_elem_of_In, list_elem_of_omap in Hentry as (story_id' & _ & Hentry).
  destruct (find_story story_id' stories) as [story|]; [|discriminate].
  injection Hentry as <-. cbn [fst snd]. apply story_similarity_refl.
Qed.

Lemma common_similarities_same_nonempty (stories : list Story) :
  existsb has_identifier stories = true ->
  common_similarities stories stories <> [].
Proof.
  intros Hsome. apply existsb_exists in Hsome as (story & Hin & Hid).
  unfold has_identifier in Hid.
  destruct (User_Story_ID story) as [story_id'|] eqn:Hkey; [|discriminate].
  destruct (find_story_some story_id' stories story Hin Hkey) as (found & Hfound).
  assert ((story_id', (_calculate_story_similarity found found, found, found))
          ∈ common_similarities stories stories) as Helem.
  { unfold common_similarities. apply list_elem_of_omap. exists story_id'. split.
    - apply elem_of_elements.
      assert (id_set stories ∩ id_set stories = id_set stories) as ->
        by set_solver.
      unfold id_set. apply elem_of_list_to_set, list_elem_of_In, in_map_iff.
      exists story. split; [|exact Hin]. unfold story_id, get. rewrite Hkey.
      reflexivity.
    - rewrite Hfound. reflexivity. }
  intros Hnil. rewrite Hnil in Helem. inversion Helem.
Qed.

Lemma common_similarities_same_empty (stories : list Story) :
  existsb has_identifier stories = false ->
  common_similarities stories stories = [].
Proof.
  intros Hnone. unfold common_similarities.
  induction (elements (id_set stories ∩ id_set stories)) as [|story_id' ids IH];
    [reflexivity|].
  cbn [omap list_omap]. rewrite find_story_none; [exact IH|].
  intros story Hin Hid.
  assert (existsb has_identifier stories = true) as Hsome; [|congruence].
  apply existsb_exists. exists story. split; [exact Hin|].
  unfold has_identifier. rewrite Hid. reflexivity.
Qed.

Lemma id_set_nonempty (story : Story) (stories : list Story) :
  id_set (story :: stories) <> ∅.
Proof. unfold id_set. cbn [map list_to_set]. set_solver. Qed.

Lemma size_positive (X : gset string) : X <> ∅ -> (0 < size X)%nat.
Proof.
  intros Hne. destruct (size X) eqn:Hsize; [|lia].
  exfalso. apply Hne, leibniz_equiv, size_empty_inv, Hsize.
Qed.

Lemma same_size_quotient (n : nat) :
  (0 < n)%nat -> inject_Z (Z.of_nat n) / inject_Z (Z.of_nat n) == 1.
Proof.
  intros Hn. field. unfold Qeq, inject_Z. cbn [Qnum Qden]. lia.
Qed.

Lemma consistency_score_same (stories : list Story) :
  stories <> [] ->
  _calculate_consistency_score stories stories
  = if existsb has_identifier stories then 1 else 3 # 5.
Proof.
  intros Hne. destruct stories as [|s stories]; [contradiction|].
  unfold _calculate_consistency_score.
  set (output := s :: stories).
  assert (id_set output ∩ id_set output = id_set output) as -> by set_solver.
  assert (id_set output ∪ id_set output = id_set output) as -> by set_solver.
  rewrite bool_decide_eq_false_2 by apply id_set_nonempty.
  pose proof (same_size_quotient (size (id_set output))
                (size_positive _ (id_set_nonempty s stories))) as Hid.
  fold output in Hid.
  destruct (existsb has_identifier output) eqn:Hsome.
  - pose proof (common_similarities_same_nonempty output Hsome) as Hnonempty.
    pose proof (common_similarities_same output) as Hones.
    set (similarities := map (fun entry => fst (fst (snd entry)))
                           (common_similarities output output)).
    assert (match similarities with
            | [] => 0
            | _ :: _ =>
                Py.sum similarities / inject_Z (Z.of_nat (length similarities))
            end == 1) as Hcontent.
    { assert (similarities <> []) as Hsims.
      { subst similarities.
        destruct (common_similarities output output); [contradiction | discriminate]. }
      assert (forall x, In x similarities -> x == 1) as Hall.
      { intros x Hx. apply in_map_iff in Hx as (e & <- & He). apply Hones, He. }
      pose proof (mean_of_ones similarities Hsims Hall) as Hmean.
      destruct similarities; [contradiction | exact Hmean]. }
    rewrite (round3_thousandths _ 1000); [reflexivity|].
    rewrite Hid, Hcontent. reflexivity.
  - rewrite (common_similarities_same_empty output Hsome). cbn [map].
    rewrite (round3_thousandths _ 600); [reflexivity|].
    rewrite Hid. reflexivity.
Qed.

Lemma consistency_score_disjoint (cached_stories current_stories : list Story) :
  id_set cached_stories ∩ id_set current_stories = ∅ ->
  _calculate_consistency_score cached_stories current_stories = 0.
Proof.
  intros Hdisjoint. unfold _calculate_consistency_score.
  destruct cached_stories as [|c cached_stories]; [reflexivity|].
  destruct current_stories as [|s current_stories]; [reflexivity|].
  case_bool_decide; [reflexivity|].
  unfold common_similarities. rewrite Hdisjoint, elements_empty, size_empty.
  cbn [omap list_omap map].
  rewrite (round3_thousandths _ 0); [reflexivity|].
  change (inject_Z (Z.of_nat 0)) with 0. change (inject_Z 0) with 0.
  unfold Qdiv. rewrite !Qmult_0_l. reflexivity.
Qed.

End ConsistencyScoreValues.

(** X16.  Comparing a non-empty output with itself,
    [_calculate_consistency_score] gives [1.0] when some story has the key
    ['User Story ID'], and [0.6] when none has it: a story without the key
    is never found again by its identifier, so nothing is compared.
    [_identify_differences] reports no added, removed or significantly
    changed story. *)
Theorem consistency_score_of_same_output (output_stories : list Story) :
  output_stories <> [] ->
  _calculate_consistency_score output_stories output_stories
  = (if existsb has_identifier output_stories then 1 else 3 # 5)%Q
  /\ let differences := _identify_differences output_stories output_stories in
     added_stories differences = 0%nat
     /\ removed_stories differences = 0%nat
     /\ total_changes differences = 0%nat
     /\ significantly_changed differences = 0%nat.
Proof.
  intros Hne. split; [apply consistency_score_same, Hne|].
  unfold _identify_differences.
  cbn [added_stories removed_stories total_changes significantly_changed].
  assert (id_set output_stories ∖ id_set output_stories = ∅) as -> by set_solver.
  rewrite size_empty.
  repeat split; try reflexivity.
  pose proof (common_similarities_same output_stories) as Hones.
  induction (common_similarities output_stories output_stories)
    as [|entry entries IH]; [reflexivity|].
  cbn [List.filter].
  assert (Py.Qltb (fst (fst (snd entry))) (9 # 10) = false) as ->.
  { apply Qltb_ge. rewrite (Hones entry (or_introl eq_refl)). lra. }
  apply IH. intros e He. apply Hones. right. exact He.
Qed.

Lemma consistency_score_of_same_output_witness :
  five_stories <> []
  /\ _calculate_consistency_score five_stories five_stories = 1%Q
  /\ [empty_story] <> []
  /\ _calculate_consistency_score [empty_story] [empty_story] = (3 # 5)%Q.
Proof.
  assert (five_stories <> []) as Hfive by discriminate.
  assert ([empty_story] <> []) as Hone by discriminate.
  split; [exact Hfive|]. split.
  - apply (consistency_score_of_same_output five_stories Hfive).
  - split; [exact Hone|].
    apply (consistency_score_of_same_output [empty_story] Hone).
Defined.

(** X17.  When the cached and the current output have no identifier in
    common, [_calculate_consistency_score] is [0.0]. *)
Theorem consistency_score_without_common_identifier
    (cached_stories current_stories : list Story) :
  id_set cached_stories ∩ id_set current_stories = ∅ ->
  _calculate_consistency_score cached_stories current_stories = 0%Q.
Proof. apply consistency_score_disjoint. Qed.

Lemma consistency_score_without_common_identifier_witness :
  id_set [search_1; notify_2] ∩ id_set [approve_3] = ∅
  /\ _calculate_consistency_score [search_1; notify_2] [approve_3] = 0%Q.
Proof.
  assert (id_set [search_1; notify_2] ∩ id_set [approve_3] = ∅) as Hdisjoint.
  { unfold id_set. cbn. set_solver. }
  split; [exact Hdisjoint|].
  apply (consistency_score_without_common_identifier [search_1; notify_2]
           [approve_3] Hdisjoint).
Defined.


(** ** The input hash *)

Lemma for_each_keyed_ok (documents : list InputDocument) :
  (forall doc, In doc documents -> in_filename doc <> None) ->
  Py.for_each keyed_document documents
  = Py.Ok (map (fun doc => (default "" (in_filename doc), doc)) documents).
Proof.
  induction documents as [|doc documents IH]; intros Hall; [reflexivity|].
  cbn [Py.for_each map]. rewrite IH by (intros d Hd; apply Hall; right; exact Hd).
  specialize (Hall doc (or_introl eq_refl)). unfold keyed_document.
  destruct (in_filename doc); [reflexivity | contradiction].
Qed.

Lemma for_each_keyed_raise (documents : list InputDocument) (doc : InputDocument) :
  In doc documents -> in_filename doc = None ->
  Py.for_each keyed_document documents = Py.Raise "KeyError".
Proof.
  induction documents as [|d documents IH]; intros Hin Hnone; [destruct Hin|].
  cbn [Py.for_each]. destruct Hin as [->|Hin].
  - unfold keyed_document. rewrite Hnone. reflexivity.
  - rewrite (IH Hin Hnone). unfold keyed_document.
    destruct (in_filename d); reflexivity.
Qed.

(** The entries of documents that have the three keys: [hashlib.md5]
    accepts the contents that are [bytes], and the first other content
    ends the comprehension with [TypeError]. *)
Lemma for_each_document_data (md5_bytes_hexdigest : list Byte.byte -> string)
    (documents : list InputDocument) :
  Forall has_all_keys documents ->
  if forallb bytes_content documents
  then exists data,
         Py.for_each (document_data md5_bytes_hexdigest) documents = Py.Ok data
  else Py.for_each (document_data md5_bytes_hexdigest) documents
       = Py.Raise "TypeError".
Proof.
  induction 1 as [|doc documents (Hname & Htype & Hcontent) _ IH];
    [exists []; reflexivity|].
  cbn [forallb Py.for_each]. unfold document_data at 1 3, bytes_content at 1.
  destruct (in_filename doc) as [name|]; [|contradiction].
  destruct (in_file_type doc) as [type|]; [|contradiction].
  destruct (in_content doc) as [[data|text]|]; [| |contradiction];
    cbn [subscript Py.bind md5_of_content andb]; [|reflexivity].
  destruct (forallb bytes_content documents).
  - destruct IH as [entries ->]. eexists. reflexivity.
  - rewrite IH. reflexivity.
Qed.

Lemma forallb_permutation {A} (f : A -> bool) (l k : list A) :
  Permutation l k -> forallb f l = forallb f k.
Proof.
  induction 1 as [|x l k _ IH|x y l|l k m _ IH1 _ IH2]; cbn [forallb].
  - reflexivity.
  - rewrite IH. reflexivity.
  - destruct (f x), (f y); reflexivity.
  - rewrite IH1. exact IH2.
Qed.

(** X18.  For documents with pairwise distinct ['filename'] entries,
    [generate_input_hash] gives the same result on every arrangement of
    the documents.  When every document has the keys ['filename'],
    ['file_type'] and ['content'], the result is a hash if every content
    is [bytes], and the [TypeError] of [hashlib.md5] if some content is a
    [str]; a document without ['filename'] gives [KeyError]. *)
Theorem input_hash_permutation
    (md5_bytes_hexdigest : list Byte.byte -> string)
    (md5_hexdigest : string -> string) {Construct : Type}
    (json_dumps_input : Construct -> list DocumentData -> string)
    (documents permuted : list InputDocument) (construct : Construct) :
  NoDup (map in_filename documents) ->
  Permutation documents permuted ->
  let result :=
    generate_input_hash md5_bytes_hexdigest md5_hexdigest json_dumps_input
      documents construct in
  result
  = generate_input_hash md5_bytes_hexdigest md5_hexdigest json_dumps_input
      permuted construct
  /\ (Forall has_all_keys documents ->
      if forallb bytes_content documents
      then exists input_hash, result = Py.Ok input_hash
      else result = Py.Raise "TypeError")
  /\ ((exists doc, In doc documents /\ in_filename doc = None) ->
      result = Py.Raise "KeyError").
Proof.
  intros Hdistinct Hperm result. subst result. split; [|split].
  - unfold generate_input_hash.
    destruct (find (fun doc => bool_decide (in_filename doc = None)) documents)
      as [doc|] eqn:Hfind.
    + apply find_some in Hfind as [Hin Hnone].
      apply bool_decide_eq_true in Hnone.
      rewrite (for_each_keyed_raise documents doc Hin Hnone).
      rewrite (for_each_keyed_raise permuted doc); [reflexivity | | exact Hnone].
      eapply Permutation_in; eassumption.
    + assert (forall doc, In doc documents -> in_filename doc <> None) as Hall.
      { intros doc Hin. pose proof (find_none _ _ Hfind doc Hin) as Hdoc.
        cbn in Hdoc. apply bool_decide_eq_false in Hdoc. exact Hdoc. }
      rewrite (for_each_keyed_ok documents Hall).
      rewrite (for_each_keyed_ok permuted).
      2:{ intros doc Hin. apply Hall. eapply Permutation_in;
            [apply Permutation_sym|]; eassumption. }
      cbn [Py.bind]. do 3 f_equal.
      apply (sorted_permutation_eq String.ltb fst string_ltb_irrefl
               string_ltb_trans string_ltb_connex).
      * apply Permutation_map, Hperm.
      * rewrite map_map. cbn [fst].
        clear Hperm Hfind. induction documents as [|doc documents IH];
          [constructor|].
        cbn [map] in *. apply NoDup_cons in Hdistinct as [Hfresh Hdistinct].
        apply NoDup_cons. split.
        -- intros Hdup. apply Hfresh.
           apply list_elem_of_In, in_map_iff in Hdup as (other & Hkey & Hother).
           apply list_elem_of_In, in_map_iff. exists other. split; [|exact Hother].
           pose proof (Hall doc (or_introl eq_refl)) as Hdoc.
           pose proof (Hall other (or_intror Hother)) as Hother'.
           destruct (in_filename doc), (in_filename other);
             cbn in Hkey; congruence.
        -- apply IH; [exact Hdistinct|].
           intros d Hd. apply Hall. right. exact Hd.
  - intros Hkeys. unfold generate_input_hash.
    rewrite (for_each_keyed_ok documents).
    2:{ intros doc Hin. rewrite List.Forall_forall in Hkeys.
        apply (Hkeys doc Hin). }
    cbn [Py.bind].
    set (sorted_docs :=
           map snd
             (Py.sorted String.ltb fst
                (map (fun doc => (default "" (in_filename doc), doc)) documents))).
    assert (Permutation sorted_docs documents) as Hsorted.
    { unfold sorted_docs.
      rewrite (sorted_permutation String.ltb fst), map_map. cbn [snd].
      rewrite map_id. reflexivity. }
    rewrite <- (forallb_permutation bytes_content _ _ Hsorted).
    assert (Forall has_all_keys sorted_docs) as Hkeys'.
    { rewrite List.Forall_forall in *. intros doc Hin. apply Hkeys.
      eapply Permutation_in; eassumption. }
    pose proof (for_each_document_data md5_bytes_hexdigest sorted_docs Hkeys')
      as Hdata.
    destruct (forallb bytes_content sorted_docs).
    + destruct Hdata as [data ->]. eexists. reflexivity.
    + rewrite Hdata. reflexivity.
  - intros (doc & Hin & Hnone). unfold generate_input_hash.
    rewrite (for_each_keyed_raise documents doc Hin Hnone). reflexivity.
Qed.

Lemma input_hash_permutation_witness :
  NoDup (map in_filename [upload_2; upload_1])
  /\ Permutation [upload_2; upload_1] [upload_1; upload_2]
  /\ generate_input_hash example_md5_bytes (fun s => s) example_json_dumps_input
       [upload_2; upload_1] "construct"
     = generate_input_hash example_md5_bytes (fun s => s)
         example_json_dumps_input [upload_1; upload_2] "construct"
  /\ generate_input_hash example_md5_bytes (fun s => s) example_json_dumps_input
       [upload_2; upload_1] "construct"
     = Py.Ok "construct:We lose track of documents.,Approvals need reminders."
  /\ generate_input_hash example_md5_bytes (fun s => s) example_json_dumps_input
       [upload_2; upload_1_as_text] "construct"
     = Py.Raise "TypeError".
Proof.
  assert (NoDup (map in_filename [upload_2; upload_1])) as Hdistinct.
  { apply (bool_decide_unpack _). vm_compute. exact I. }
  split; [exact Hdistinct|]. split; [apply perm_swap|].
  destruct (input_hash_permutation example_md5_bytes (fun s => s)
              example_json_dumps_input [upload_2; upload_1] [upload_1; upload_2]
              "construct" Hdistinct (perm_swap _ _ _)) as (Hsame & _ & _).
  split; [exact Hsame|]. split; reflexivity.
Defined.

(** ** The consistency report *)

Section Report.

Context (md5_hexdigest : string -> string).
Context (json_dumps : list StoryData -> string).
Context (json_dump_report : Report -> string).

Local Open Scope Q_scope.

(** Every score falls into exactly one of the three classes. *)
Lemma score_classes (output_stories : list Story) :
  let distribution := score_distribution_of output_stories in
  (high distribution + medium distribution + low distribution
   = length output_stories)%nat.
Proof.
  unfold score_distribution_of. cbn [high medium low].
  induction output_stories as [|s stories IH]; [reflexivity|].
  cbn [List.filter length].
  destruct (Qle_bool (8 # 10) (get Match_Score 0 s)) eqn:Hhigh;
    destruct (Qle_bool (5 # 10) (get Match_Score 0 s)) eqn:Hmid;
    destruct (Py.Qltb (get Match_Score 0 s) (8 # 10)) eqn:Hbelow;
    destruct (Py.Qltb (get Match_Score 0 s) (5 # 10)) eqn:Hlow;
    cbn [andb length];
    try lia;
    exfalso;
    rewrite ?Qltb_lt, ?Qltb_ge in *;
    repeat match goal with
           | H : Qle_bool _ _ = true |- _ => apply Qle_bool_iff in H
           | H : Qle_bool ?a ?b = false |- _ =>
               assert (~ a <= b)
                 by (intros Hle; apply Qle_bool_iff in Hle; congruence);
               clear H
           end;
    lra.
Qed.

Lemma count_one_lookup (key value : string) (counts : gmap string nat) :
  default 0%nat (count_one key counts !! value)
  = ((if String.eqb key value then 1 else 0) + default 0%nat (counts !! value))%nat.
Proof.
  unfold count_one. destruct (String.eqb_spec key value) as [->|Hne].
  - rewrite lookup_insert_eq. cbn. lia.
  - rewrite lookup_insert_ne by exact Hne. reflexivity.
Qed.

(** The loop counts, for every category and every priority, the stories
    that have it. *)
Lemma count_stories (output_stories : list Story) :
  forall (state : gmap string nat * gmap string nat) (value : string),
  let counted := fold_left count_story output_stories state in
  default 0%nat (fst counted !! value)
  = (count_with (get Category "Unknown") value output_stories
     + default 0%nat (fst state !! value))%nat
  /\ default 0%nat (snd counted !! value)
     = (count_with (get Priority "Unknown") value output_stories
        + default 0%nat (snd state !! value))%nat.
Proof.
  unfold count_with.
  induction output_stories as [|s stories IH]; intros state value;
    [split; reflexivity|].
  cbn [fold_left List.filter].
  destruct (IH (count_story state s) value) as [Hcategories Hpriorities].
  cbn zeta. rewrite Hcategories, Hpriorities.
  unfold count_story. cbn [fst snd]. rewrite !count_one_lookup.
  destruct (String.eqb (get Category "Unknown" s) value),
    (String.eqb (get Priority "Unknown" s) value); cbn [length]; split; lia.
Qed.

End Report.

(** X19.  The output summary of [get_consistency_report] counts every
    story: the classes high ([>= 0.8]), medium and low ([< 0.5]) of the
    score distribution add up to the number of stories, and the entry of
    each category and of each priority is the number of stories that have
    it (['Unknown'] for a story without the key). *)
Theorem report_counts_every_story
    (md5_hexdigest : string -> string) (json_dumps : list StoryData -> string)
    (json_dump_report : Report -> string) (now now' : string)
    (cache : gmap string CacheData) (input_hash : string)
    (output_stories : list Story) :
  let summary :=
    output_summary
      (fst (get_consistency_report md5_hexdigest json_dumps json_dump_report
              now now' cache input_hash output_stories)) in
  total_stories summary = length output_stories
  /\ (high (score_distribution summary) + medium (score_distribution summary)
      + low (score_distribution summary) = total_stories summary)%nat
  /\ (forall category,
        default 0%nat (categories summary !! category)
        = count_with (get Category "Unknown") category output_stories)
  /\ (forall priority,
        default 0%nat (priorities summary !! priority)
        = count_with (get Priority "Unknown") priority output_stories).
Proof.
  unfold get_consistency_report.
  pose proof (count_stories output_stories (∅, ∅)) as Hcounts.
  destruct (fold_left count_story output_stories (∅, ∅))
    as [categories' priorities'].
  cbn [fst snd output_summary total_stories score_distribution categories
         priorities] in *.
  split; [reflexivity|]. split; [apply score_classes|].
  split; intros value; destruct (Hcounts value) as [Hc Hp];
    rewrite lookup_empty in Hc, Hp; cbn [default] in Hc, Hp.
  - rewrite Hc. lia.
  - rewrite Hp. lia.
Qed.

(** X20.  [get_consistency_report] stores the output it was given: on the
    cache it leaves, a check of the same output under the same input hash
    is consistent and names the time of that call as the previous run, so
    that a second report of an output that differed from the cached one
    recommends ["SUCCESS"]. *)
Theorem report_caches_the_output
    (md5_hexdigest : string -> string) (json_dumps : list StoryData -> string)
    (json_dump_report : Report -> string) (now now' later later' : string)
    (cache : gmap string CacheData) (input_hash : string)
    (output_stories : list Story) :
  let cache' :=
    snd (get_consistency_report md5_hexdigest json_dumps json_dump_report
           now now' cache input_hash output_stories) in
  let result :=
    check_consistency md5_hexdigest json_dumps cache' input_hash output_stories in
  is_consistent result = true
  /\ previous_run result = Some now'
  /\ recommendations
       (fst (get_consistency_report md5_hexdigest json_dumps json_dump_report
               later later' cache' input_hash output_stories))
     = ["SUCCESS: Output is fully consistent with previous runs."].
Proof.
  intros cache' result.
  assert (cache'
          = cache_output md5_hexdigest json_dumps now' cache input_hash
              output_stories
              (Some {["consistency_report" :=
                        json_dump_report
                          (fst (get_consistency_report md5_hexdigest json_dumps
                                  json_dump_report now now' cache input_hash
                                  output_stories))]})) as Hcache.
  { subst cache'. unfold get_consistency_report.
    destruct (fold_left count_story output_stories (∅, ∅)). reflexivity. }
  destruct (cache_output_lookup md5_hexdigest json_dumps now' cache input_hash
              output_stories
              (Some {["consistency_report" :=
                        json_dump_report
                          (fst (get_consistency_report md5_hexdigest json_dumps
                                  json_dump_report now now' cache input_hash
                                  output_stories))]}))
    as (cached_data & Hlookup & Hhash & _ & Htime).
  rewrite <- Hcache in Hlookup.
  destruct (check_consistency_cached md5_hexdigest json_dumps cache' input_hash
              output_stories cached_data Hlookup Hhash) as (Hc & _ & Hp).
  fold result in Hc, Hp.
  split; [exact Hc|]. split; [rewrite Hp, Htime; reflexivity|].
  unfold get_consistency_report.
  destruct (fold_left count_story output_stories (∅, ∅)).
  cbn [fst recommendations]. unfold recommendations_of.
  fold result. rewrite Hc. reflexivity.
Qed.

(** ** Retrieval *)

Lemma take_in {A} (n : nat) (l : list A) (x : A) : In x (take n l) -> In x l.
Proof.
  intros Hin. rewrite <- (take_drop n l). apply in_or_app. left. exact Hin.
Qed.

Lemma slice_to_in {A} (k : Z) (l : list A) (x : A) :
  In x (Py.slice_to k l) -> In x l.
Proof. unfold Py.slice_to. destruct (k <? 0)%Z; apply take_in. Qed.

Lemma slice_to_length {A} (k : Z) (l : list A) :
  (0 <= k)%Z -> (Z.of_nat (length (Py.slice_to k l)) <= k)%Z.
Proof.
  intros Hk. unfold Py.slice_to. destruct (Z.ltb_spec k 0) as [|_]; [lia|].
  rewrite length_take. lia.
Qed.

Lemma slice_to_sorted {A} (R : A -> A -> Prop) (k : Z) (l : list A) :
  StronglySorted R l -> StronglySorted R (Py.slice_to k l).
Proof.
  unfold Py.slice_to. intros Hsorted.
  assert (forall n, StronglySorted R (take n l)) as Htake.
  { induction Hsorted as [|a l _ IH Ha]; intros [|n]; cbn [take]; try constructor.
    - apply IH.
    - rewrite List.Forall_forall in *. intros x Hx. apply Ha.
      eapply take_in. exact Hx. }
  destruct (k <? 0)%Z; apply Htake.
Qed.

Section Retrieval.

Context (embedding_model : option (string -> Py.result (list Q))).
Context (loop_running : bool).
Context (np_linalg_norm : list Q -> Q).

Lemma similarity_entry_in (query_embedding : list Q) (chunks : list Chunk)
    (entry : Q * Chunk) :
  In entry (concat (map (similarity_entry np_linalg_norm query_embedding) chunks)) ->
  In (snd entry) chunks
  /\ with_embedding (snd entry)
  /\ fst entry = chunk_similarity np_linalg_norm query_embedding (snd entry).
Proof.
  intros Hin. apply in_concat in Hin as (entries & Hentries & Hentry).
  apply in_map_iff in Hentries as (chunk & <- & Hchunk).
  unfold similarity_entry in Hentry.
  destruct (chunk_embedding chunk) as [[[|x v]|]|] eqn:Hembedding;
    try (cbn in Hentry; contradiction).
  destruct Hentry as [<-|[]]. cbn [fst snd].
  split; [exact Hchunk|]. split.
  - exists x, v. exact Hembedding.
  - unfold chunk_similarity. rewrite Hembedding. reflexivity.
Qed.

Lemma find_similar_chunks_in (query : string) (chunks : list Chunk) (top_k : Z)
    (chunk : Chunk) :
  In chunk (find_similar_chunks embedding_model loop_running np_linalg_norm query
              chunks top_k) ->
  In chunk chunks.
Proof.
  unfold find_similar_chunks.
  destruct embedding_model as [model|]; [|apply slice_to_in].
  destruct chunks as [|c chunks]; [apply slice_to_in|].
  destruct (asyncio_run loop_running _) as [query_embedding|]; [|apply slice_to_in].
  intros Hin. apply in_map_iff in Hin as (entry & <- & Hentry).
  apply slice_to_in in Hentry.
  eapply Permutation_in in Hentry;
    [|apply (sorted_permutation (fun a b => Py.Qltb b a) fst)].
  apply (similarity_entry_in query_embedding (c :: chunks) entry Hentry).
Qed.

Lemma find_similar_chunks_length (query : string) (chunks : list Chunk) (top_k : Z) :
  (0 <= top_k)%Z ->
  (Z.of_nat (length (find_similar_chunks embedding_model loop_running
                       np_linalg_norm query chunks top_k)) <= top_k)%Z.
Proof.
  intros Hk. unfold find_similar_chunks.
  destruct embedding_model as [model|]; [|apply slice_to_length, Hk].
  destruct chunks as [|c chunks]; [apply slice_to_length, Hk|].
  destruct (asyncio_run loop_running _) as [query_embedding|];
    [|apply slice_to_length, Hk].
  rewrite length_map. apply slice_to_length, Hk.
Qed.

Lemma add_with_neighbours_in (chunks context_chunks : list Chunk) (chunk : Chunk) :
  In chunk chunks ->
  (forall c, In c context_chunks -> In c chunks) ->
  forall c, In c (add_with_neighbours chunks context_chunks chunk) -> In c chunks.
Proof.
  intros Hchunk Hcontext. unfold add_with_neighbours.
  set (same_transcript_chunks := List.filter _ chunks).
  assert (forall c, In c (context_chunks ++ [chunk]) -> In c chunks) as Hstart.
  { intros c Hc. apply in_app_or in Hc as [Hc|[<-|[]]]; [apply Hcontext, Hc|].
    exact Hchunk. }
  revert Hstart. generalize (context_chunks ++ [chunk]).
  generalize (range (Z.max 0
                       (match chunk_metadata chunk with
                        | Some m => default 0%Z (chunk_index m)
                        | None => 0%Z
                        end - 1))
                (Z.min (Z.of_nat (length same_transcript_chunks))
                   (match chunk_metadata chunk with
                    | Some m => default 0%Z (chunk_index m)
                    | None => 0%Z
                    end + 2))).
  intros indices. induction indices as [|i indices IH]; intros context Hall.
  - exact Hall.
  - cbn [fold_left]. apply IH.
    destruct (same_transcript_chunks !! Z.to_nat i) as [neighbour|] eqn:Hlookup;
      [|exact Hall].
    destruct (negb _ && negb _); [|exact Hall].
    intros c Hc. apply in_app_or in Hc as [Hc|[<-|[]]]; [apply Hall, Hc|].
    apply list_elem_of_lookup_2, list_elem_of_In in Hlookup.
    subst same_transcript_chunks. apply filter_In in Hlookup as [Hin _]. exact Hin.
Qed.

Lemma context_in (user_story : string) (chunks : list Chunk) (context_window : Z)
    (chunk : Chunk) :
  In chunk (get_context_for_extraction embedding_model loop_running np_linalg_norm
              user_story chunks context_window) ->
  In chunk chunks.
Proof.
  unfold get_context_for_extraction. destruct chunks as [|c chunks]; [intros []|].
  intros Hin. apply slice_to_in in Hin. revert chunk Hin.
  pose proof (find_similar_chunks_in user_story (c :: chunks) context_window)
    as Hsimilar.
  revert Hsimilar. generalize (find_similar_chunks embedding_model loop_running
                                 np_linalg_norm user_story (c :: chunks)
                                 context_window).
  intros similar_chunks Hsimilar.
  assert (forall x, In x (@nil Chunk) -> In x (c :: chunks)) as Hstart
    by (intros x []).
  revert Hstart. generalize (@nil Chunk).
  induction similar_chunks as [|chunk similar_chunks IH]; intros context Hall.
  - exact Hall.
  - cbn [fold_left]. apply IH.
    + intros x Hx. apply Hsimilar. right. exact Hx.
    + apply add_with_neighbours_in; [|exact Hall]. apply Hsimilar. left. reflexivity.
Qed.

Lemma Qgtb_trans (a b c : Q) :
  Py.Qltb b a = true -> Py.Qltb c b = true -> Py.Qltb c a = true.
Proof. rewrite !Qltb_lt. intros. lra. Qed.

Lemma Qgtb_negtrans (a b c : Q) :
  Py.Qltb b a = false -> Py.Qltb c b = false -> Py.Qltb c a = false.
Proof. rewrite !Qltb_ge. intros. lra. Qed.

Lemma Qltb_irrefl (a : Q) : Py.Qltb a a = false.
Proof. apply Qltb_ge. lra. Qed.

Lemma StronglySorted_map {A B} (R : A -> A -> Prop) (R' : B -> B -> Prop)
    (f : A -> B) (l : list A) :
  (forall a b, In a l -> In b l -> R a b -> R' (f a) (f b)) ->
  StronglySorted R l -> StronglySorted R' (map f l).
Proof.
  intros Himpl Hsorted. induction Hsorted as [|a l _ IH Ha]; [constructor|].
  cbn [map]. constructor.
  - apply IH. intros x y Hx Hy. apply Himpl; right; assumption.
  - rewrite List.Forall_forall in *. intros y Hy.
    apply in_map_iff in Hy as (x & <- & Hx).
    apply Himpl; [left; reflexivity | right; exact Hx | apply Ha, Hx].
Qed.

End Retrieval.

(** X22.  For a window that is not negative, [find_similar_chunks] returns
    at most [top_k] chunks and [get_context_for_extraction] at most twice
    its window, and every chunk they return is a chunk of the pool. *)
Theorem retrieval_bounded_and_from_pool
    (embedding_model : option (string -> Py.result (list Q)))
    (loop_running : bool) (np_linalg_norm : list Q -> Q)
    (query : string) (chunks : list Chunk) (top_k : Z) :
  (0 <= top_k)%Z ->
  let similar_chunks :=
    find_similar_chunks embedding_model loop_running np_linalg_norm query chunks
      top_k in
  let context_chunks :=
    get_context_for_extraction embedding_model loop_running np_linalg_norm query
      chunks top_k in
  (Z.of_nat (length similar_chunks) <= top_k)%Z
  /\ (Z.of_nat (length context_chunks) <= 2 * top_k)%Z
  /\ (forall chunk, In chunk similar_chunks -> In chunk chunks)
  /\ (forall chunk, In chunk context_chunks -> In chunk chunks).
Proof.
  intros Hk similar_chunks context_chunks.
  split; [apply find_similar_chunks_length, Hk|]. split.
  - subst context_chunks. unfold get_context_for_extraction.
    destruct chunks as [|c chunks]; [cbn [length]; lia|].
    pose proof (slice_to_length (top_k * 2)
                  (fold_left (add_with_neighbours (c :: chunks))
                     (find_similar_chunks embedding_model loop_running
                        np_linalg_norm query (c :: chunks) top_k) [])
                  ltac:(lia)) as Hlen.
    lia.
  - split; [apply find_similar_chunks_in | apply context_in].
Qed.

Lemma retrieval_bounded_and_from_pool_witness :
  (0 <= 1)%Z
  /\ (Z.of_nat (length (get_context_for_extraction None false (fun _ => 1%Q)
                          dashboard_query naive_pool 1)) <= 2 * 1)%Z.
Proof.
  assert (0 <= 1)%Z as Hk by lia.
  split; [exact Hk|].
  destruct (retrieval_bounded_and_from_pool None false (fun _ => 1%Q)
              dashboard_query naive_pool 1 Hk) as (_ & Hcontext & _).
  exact Hcontext.
Defined.

(** X23.  When the query can be embedded (a model is there and no event
    loop is running), [find_similar_chunks] returns only chunks that carry
    an embedding, in the order of their cosine similarity to the query,
    highest first. *)
Theorem similar_chunks_ranked
    (model : string -> Py.result (list Q)) (np_linalg_norm : list Q -> Q)
    (query : string) (chunks : list Chunk) (top_k : Z) :
  let query_embedding := _generate_embedding model query in
  let similar_chunks :=
    find_similar_chunks (Some model) false np_linalg_norm query chunks top_k in
  StronglySorted
    (fun a b =>
       (chunk_similarity np_linalg_norm query_embedding b
        <= chunk_similarity np_linalg_norm query_embedding a)%Q)
    similar_chunks
  /\ (forall chunk, In chunk similar_chunks -> with_embedding chunk).
Proof.
  intros query_embedding similar_chunks. subst similar_chunks.
  unfold find_similar_chunks. destruct chunks as [|c chunks].
  { rewrite slice_to_nil. split; [constructor | intros chunk []]. }
  cbn [asyncio_run]. fold query_embedding.
  set (similarities := concat (map (similarity_entry np_linalg_norm query_embedding)
                                 (c :: chunks))).
  assert (forall entry,
            In entry (Py.slice_to top_k
                        (Py.sorted_reverse Py.Qltb fst similarities)) ->
            with_embedding (snd entry)
            /\ fst entry
               = chunk_similarity np_linalg_norm query_embedding (snd entry))
    as Hentries.
  { intros entry Hentry. apply slice_to_in in Hentry.
    eapply Permutation_in in Hentry;
      [|apply (sorted_permutation (fun a b => Py.Qltb b a) fst)].
    apply (similarity_entry_in np_linalg_norm query_embedding (c :: chunks))
      in Hentry as (_ & Hwith & Hsim).
    split; assumption. }
  split.
  - apply (StronglySorted_map
             (in_order (fun a b => Py.Qltb b a) (@fst Q Chunk))).
    + intros a b Ha Hb Hab. unfold in_order in Hab. apply Qltb_ge in Hab.
      destruct (Hentries a Ha) as [_ <-]. destruct (Hentries b Hb) as [_ <-].
      exact Hab.
    + apply slice_to_sorted. unfold Py.sorted_reverse.
      apply sorted_ordered;
        [apply Qltb_irrefl | apply Qgtb_trans | apply Qgtb_negtrans].
  - intros chunk Hchunk. apply in_map_iff in Hchunk as (entry & <- & Hentry).
    apply (Hentries entry Hentry).
Qed.

(** X24.  Called while an event loop is running, as in the worker's
    [async] pipeline, [find_similar_chunks] cannot embed the query and
    ranks nothing: it returns the first [top_k] chunks of the pool, with or
    without a model, whether or not the chunks carry embeddings. *)
Theorem no_ranking_inside_event_loop
    (embedding_model : option (string -> Py.result (list Q)))
    (np_linalg_norm : list Q -> Q) (query : string) (chunks : list Chunk)
    (top_k : Z) :
  find_similar_chunks embedding_model true np_linalg_norm query chunks top_k
  = Py.slice_to top_k chunks.
Proof.
  unfold find_similar_chunks.
  destruct embedding_model as [model|]; [|reflexivity].
  destruct chunks; reflexivity.
Qed.


(** ** Chunks *)

Lemma string_length_append (s t : string) :
  String.length (s +:+ t) = (String.length s + String.length t)%nat.
Proof.
  induction s as [|c s IH]; [reflexivity|].
  change (String c s +:+ t) with (String c (s +:+ t)).
  cbn [String.length]. rewrite IH. reflexivity.
Qed.

Lemma lstrip_length (s : string) :
  (String.length (Py.lstrip s) <= String.length s)%nat.
Proof.
  induction s as [|c s IH]; [reflexivity|].
  cbn [Py.lstrip]. destruct (Py.isspace c); cbn [String.length]; lia.
Qed.

Lemma rstrip_length (s : string) :
  (String.length (Py.rstrip s) <= String.length s)%nat.
Proof.
  induction s as [|c s IH]; [reflexivity|].
  cbn [Py.rstrip]. destruct (negb (Py.nonempty (Py.rstrip s)) && Py.isspace c);
    cbn [String.length]; lia.
Qed.

Lemma strip_length (s : string) :
  (String.length (Py.strip s) <= String.length s)%nat.
Proof.
  unfold Py.strip. pose proof (rstrip_length (Py.lstrip s)).
  pose proof (lstrip_length s). lia.
Qed.

(** What the loop over the sentences maintains. *)
Lemma add_sentences_bounded (sentences : list string) :
  (forall sentence, In sentence sentences ->
     (String.length sentence <= max_chunk_size)%nat) ->
  forall (chunks : list SemanticChunk) (current_chunk : string) (chunk_size : nat),
  chunk_size = String.length current_chunk ->
  (String.length current_chunk <= max_chunk_size + 2)%nat ->
  Forall (fun chunk => (String.length (sc_text chunk) <= max_chunk_size + 2)%nat)
    chunks ->
  map sc_index chunks = seq 0 (length chunks) ->
  let '(chunks', current_chunk', _) :=
    fold_left add_sentence sentences (chunks, current_chunk, chunk_size) in
  (String.length current_chunk' <= max_chunk_size + 2)%nat
  /\ Forall (fun chunk => (String.length (sc_text chunk) <= max_chunk_size + 2)%nat)
       chunks'
  /\ map sc_index chunks' = seq 0 (length chunks').
Proof.
  induction sentences as [|sentence sentences IH];
    intros Hsentences chunks current_chunk chunk_size Hsize Hcurrent Hchunks Hindex.
  - cbn [fold_left]. auto.
  - cbn [fold_left]. unfold add_sentence at 2.
    pose proof (Hsentences sentence (or_introl eq_refl)) as Hsentence.
    assert (forall s, In s sentences -> (String.length s <= max_chunk_size)%nat)
      as Hrest by (intros s Hs; apply Hsentences; right; exact Hs).
    destruct (Nat.ltb_spec max_chunk_size (chunk_size + String.length sentence))
      as [Hfull|Hroom]; cbn [andb].
    + destruct (Py.nonempty current_chunk) eqn:Hnonempty.
      * apply IH; try assumption; try reflexivity; try lia.
        -- apply Forall_app. split; [exact Hchunks|].
           constructor; [|constructor]. cbn [sc_text].
           pose proof (strip_length current_chunk). lia.
        -- rewrite map_app, length_app, seq_app, Hindex. reflexivity.
      * destruct current_chunk; [|discriminate]. cbn [String.length] in Hsize. lia.
    + apply IH; try assumption.
      * rewrite !string_length_append. cbn [String.length]. lia.
      * rewrite !string_length_append. cbn [String.length]. lia.
Qed.

(** X25.  For a transcript without paragraphs whose sentences (the pieces
    of the content between occurrences of ['. ']) have at most
    [max_chunk_size = 1000] characters each, the text of every chunk that
    [_create_semantic_chunks] makes has at most [max_chunk_size + 2]
    characters, and the chunks are numbered [0, 1, 2, ...] in order. *)
Theorem semantic_chunks_bounded (transcript : Document) :
  default [] (doc_paragraphs transcript) = [] ->
  (forall sentence,
     In sentence (Py.split_str ". " (default "" (doc_content transcript))) ->
     (String.length sentence <= max_chunk_size)%nat) ->
  let chunks := _create_semantic_chunks transcript in
  Forall (fun chunk => (String.length (sc_text chunk) <= max_chunk_size + 2)%nat)
    chunks
  /\ map sc_index chunks = seq 0 (length chunks).
Proof.
  intros Hparagraphs Hsentences chunks. subst chunks.
  unfold _create_semantic_chunks. rewrite Hparagraphs.
  pose proof (add_sentences_bounded _ Hsentences [] "" 0%nat eq_refl
                ltac:(cbn [String.length]; lia) ltac:(constructor) eq_refl) as Hloop.
  destruct (fold_left add_sentence _ _) as [[chunks current_chunk] chunk_size].
  destruct Hloop as (Hcurrent & Hchunks & Hindex).
  destruct (Py.nonempty (Py.strip current_chunk)); [|split; assumption].
  split.
  - apply Forall_app. split; [exact Hchunks|]. constructor; [|constructor].
    cbn [sc_text]. pose proof (strip_length current_chunk). lia.
  - rewrite map_app, length_app, seq_app, Hindex. reflexivity.
Qed.

Lemma semantic_chunks_bounded_witness :
  default [] (doc_paragraphs interview_3) = []
  /\ map sc_text (_create_semantic_chunks interview_3)
     = ["We lose track of documents. Files are scattered. Nobody owns the metadata."]
  /\ Forall (fun chunk => (String.length (sc_text chunk) <= max_chunk_size + 2)%nat)
       (_create_semantic_chunks interview_3).
Proof.
  assert (default [] (doc_paragraphs interview_3) = []) as Hparagraphs
    by reflexivity.
  assert (forall sentence,
            In sentence (Py.split_str ". " (default "" (doc_content interview_3))) ->
            (String.length sentence <= max_chunk_size)%nat) as Hsentences.
  { intros sentence Hin. apply Nat.leb_le.
    vm_compute in Hin.
    repeat (destruct Hin as [<-|Hin]; [vm_compute; reflexivity|]). destruct Hin. }
  split; [exact Hparagraphs|]. split; [vm_compute; reflexivity|].
  destruct (semantic_chunks_bounded interview_3 Hparagraphs Hsentences)
    as [Hbound _].
  exact Hbound.
Defined.

(** *** The pool without embeddings *)

Section NaivePool.

Context (repr_document : Document -> string).

Lemma naive_chunk_shape (documents : list Document) (chunk : Chunk) :
  In chunk (_build_naive_chunks_from_documents repr_document documents) ->
  chunk_embedding chunk = Some None
  /\ exists doc idx paragraph,
       In doc documents
       /\ default [] (doc_paragraphs doc) !! idx = Some paragraph
       /\ nonblank paragraph = true
       /\ chunk_text chunk = Some (Py.strip paragraph)
       /\ chunk_id chunk
          = Some (default "unknown" (doc_filename doc) +:+ "_p_"
                  +:+ Py.str_of_nat idx).
Proof.
  unfold _build_naive_chunks_from_documents. intros Hin.
  apply in_concat in Hin as (chunks & Hchunks & Hchunk).
  apply in_map_iff in Hchunks as (doc & <- & Hdoc).
  unfold naive_chunks_of in Hchunk.
  apply list_elem_of_In, list_elem_of_omap in Hchunk as ([idx p] & Hentry & Hmade).
  apply list_elem_of_In in Hentry. unfold Py.enumerate in Hentry.
  apply enumerate_from_lookup in Hentry as [_ Hlookup].
  rewrite Nat.sub_0_r in Hlookup.
  destruct (Py.nonempty p && Py.nonempty (Py.strip p)) eqn:Hkeep; [|discriminate].
  injection Hmade as <-. cbn [chunk_embedding chunk_text chunk_id].
  split; [reflexivity|]. exists doc, idx, p.
  split; [exact Hdoc|]. split; [exact Hlookup|].
  split; [|split; reflexivity].
  apply andb_true_iff in Hkeep as [_ Hkeep]. exact Hkeep.
Qed.

Lemma overlap_without_embeddings (story_text : string) (chunks : list Chunk) :
  (forall chunk, In chunk chunks -> without_embedding chunk) ->
  concat (map (overlap_entry story_text) chunks) = [].
Proof.
  induction chunks as [|c chunks IH]; intros Hnone; [reflexivity|].
  cbn [map concat]. rewrite IH by (intros c' Hc'; apply Hnone; right; exact Hc').
  specialize (Hnone c (or_introl eq_refl)). unfold without_embedding in Hnone.
  unfold overlap_entry.
  destruct (chunk_embedding c) as [[[|x v]|]|]; try reflexivity. destruct Hnone.
Qed.

End NaivePool.

Lemma vectorized_chunk_shape (repr_document : Document -> string)
    (model : string -> Py.result (list Q)) (transcripts : list Document)
    (chunk : Chunk) :
  In chunk (concat (map (vectorize_transcript repr_document model) transcripts)) ->
  exists text,
    chunk_text chunk = Some text
    /\ chunk_embedding chunk = Some (Some (_generate_embedding model text)).
Proof.
  intros Hin. apply in_concat in Hin as (chunks & Hchunks & Hchunk).
  apply in_map_iff in Hchunks as (transcript & <- & _).
  unfold vectorize_transcript in Hchunk.
  apply in_map_iff in Hchunk as ([i semantic] & <- & _).
  exists (sc_text semantic). split; reflexivity.
Qed.

(** X26.  The pool of Step 1 of [process_documents_with_ai].  Every chunk
    that [_build_naive_chunks_from_documents] makes stores [None] as its
    embedding and the stripped text of a non-blank paragraph of one of the
    documents, under the identifier [<filename>_p_<index of the
    paragraph>]; on such a pool [_get_context_for_story] finds no context
    for any story, since it only considers chunks that carry an embedding.
    The pool is this naive pool whenever there is no embedding model or
    [_should_vectorize] says no; otherwise it is the pool of
    [vectorize_transcripts], in which every chunk carries the embedding of
    its text. *)
Theorem context_pool_embeddings
    (repr_document : Document -> string)
    (embedding_model : option (string -> Py.result (list Q)))
    (min_tokens min_paragraphs min_docs : Z) (documents : list Document)
    (story : Story) (context_window : Z) :
  let decision := _should_vectorize min_tokens min_paragraphs min_docs documents in
  let pool :=
    vectorized_chunks_of repr_document embedding_model min_tokens min_paragraphs
      min_docs documents in
  let naive := _build_naive_chunks_from_documents repr_document documents in
  (forall chunk, In chunk naive ->
     chunk_embedding chunk = Some None
     /\ exists doc idx paragraph,
          In doc documents
          /\ default [] (doc_paragraphs doc) !! idx = Some paragraph
          /\ nonblank paragraph = true
          /\ chunk_text chunk = Some (Py.strip paragraph)
          /\ chunk_id chunk
             = Some (default "unknown" (doc_filename doc) +:+ "_p_"
                     +:+ Py.str_of_nat idx))
  /\ _get_context_for_story story naive context_window = []
  /\ (embedding_model = None \/ should_vectorize decision = false -> pool = naive)
  /\ (forall model,
        embedding_model = Some model -> should_vectorize decision = true ->
        forall chunk, In chunk pool ->
        exists text,
          chunk_text chunk = Some text
          /\ chunk_embedding chunk = Some (Some (_generate_embedding model text))).
Proof.
  intros decision pool naive. split; [apply naive_chunk_shape|]. split; [|split].
  - unfold _get_context_for_story. destruct naive as [|c chunks] eqn:Hnaive;
      [reflexivity|].
    rewrite <- Hnaive. rewrite overlap_without_embeddings.
    + cbn [Py.sorted_reverse Py.sorted]. rewrite slice_to_nil. reflexivity.
    + intros chunk Hchunk. unfold without_embedding.
      destruct (naive_chunk_shape repr_document documents chunk Hchunk) as [-> _].
      exact I.
  - subst pool. unfold vectorized_chunks_of. fold decision.
    intros [Hmodel | Hno]; [rewrite Hmodel | rewrite Hno; reflexivity].
    destruct (should_vectorize decision); reflexivity.
  - intros model -> Hyes chunk. subst pool. unfold vectorized_chunks_of.
    fold decision. rewrite Hyes. cbn [vectorize_transcripts].
    apply vectorized_chunk_shape.
Qed.

(** *** The decision to vectorize *)

Lemma totals_from (documents : list Document) :
  forall a b : Z,
  exists c p : Z,
    (0 <= c)%Z /\ (0 <= p)%Z
    /\ fold_left
         (fun (totals : Z * Z) d =>
            (fst totals
             + Z.of_nat (String.length (default "" (doc_content d))),
             snd totals
             + Z.of_nat (length (default [] (doc_paragraphs d))))%Z)
         documents (a, b)
       = (a + c, b + p)%Z.
Proof.
  induction documents as [|d documents IH]; intros a b.
  - exists 0%Z, 0%Z. cbn [fold_left]. repeat split; try lia.
    f_equal; lia.
  - cbn [fold_left fst snd].
    destruct (IH (a + Z.of_nat (String.length (default "" (doc_content d))))%Z
                (b + Z.of_nat (length (default [] (doc_paragraphs d))))%Z)
      as (c & p & Hc & Hp & ->).
    exists (Z.of_nat (String.length (default "" (doc_content d))) + c)%Z,
      (Z.of_nat (length (default [] (doc_paragraphs d))) + p)%Z.
    repeat split; try lia. f_equal; lia.
Qed.

(** X27.  The decision of [_should_vectorize] is monotone in the input:
    once a list of documents is large enough to be vectorized, it stays so
    when more documents are added. *)
Theorem should_vectorize_monotone
    (min_tokens min_paragraphs min_docs : Z) (documents more : list Document) :
  should_vectorize (_should_vectorize min_tokens min_paragraphs min_docs documents)
  = true ->
  should_vectorize
    (_should_vectorize min_tokens min_paragraphs min_docs (documents ++ more))
  = true.
Proof.
  unfold _should_vectorize. rewrite fold_left_app.
  destruct (totals_from documents 0 0) as (c & p & Hc & Hp & ->).
  destruct (totals_from more (0 + c) (0 + p)) as (c' & p' & Hc' & Hp' & ->).
  cbn [should_vectorize]. unfold _estimate_tokens_from_text_length.
  rewrite length_app, !orb_true_iff, !Z.leb_le.
  assert ((0 + c) / 4 <= (0 + c + c') / 4)%Z by (apply Z.div_le_mono; lia).
  intros [[Htokens|Hparagraphs]|Hdocs].
  - left. left. lia.
  - left. right. lia.
  - right. lia.
Qed.

Lemma should_vectorize_monotone_witness :
  should_vectorize (_should_vectorize 30000 800 2 [interview_1; interview_2]) = true
  /\ should_vectorize
       (_should_vectorize 30000 800 2 ([interview_1; interview_2] ++ [interview_3]))
     = true.
Proof.
  assert (should_vectorize (_should_vectorize 30000 800 2 [interview_1; interview_2])
          = true) as Hlarge by (vm_compute; reflexivity).
  split; [exact Hlarge|].
  apply (should_vectorize_monotone 30000 800 2 [interview_1; interview_2]
           [interview_3] Hlarge).
Defined.

(** *** Context for a story *)

(** X28.  [_get_context_for_story] returns chunks of the pool that carry
    an embedding and contain at least one word of the story text, in the
    order of the number of story words they contain, largest first, and,
    for a window that is not negative, at most as many as the window. *)
Theorem story_context_ranked
    (story : Story) (vectorized_chunks : list Chunk) (context_window : Z) :
  let story_text := get User_Story "" story +:+ " " +:+ get Capability "" story in
  let context := _get_context_for_story story vectorized_chunks context_window in
  (forall chunk, In chunk context ->
     In chunk vectorized_chunks /\ with_embedding chunk
     /\ (0 < story_word_overlap story_text chunk)%nat)
  /\ StronglySorted
       (fun a b =>
          (story_word_overlap story_text b <= story_word_overlap story_text a)%nat)
       context
  /\ ((0 <= context_window)%Z ->
      (Z.of_nat (length context) <= context_window)%Z).
Proof.
  intros story_text context. subst context. unfold _get_context_for_story.
  destruct vectorized_chunks as [|c chunks].
  { split; [intros chunk []|]. split; [constructor | cbn [length]; lia]. }
  fold story_text. set (pool := c :: chunks).
  set (similarities := concat (map (overlap_entry story_text) pool)).
  assert (forall entry, In entry similarities ->
            In (snd entry) pool /\ with_embedding (snd entry)
            /\ (0 < story_word_overlap story_text (snd entry))%nat
            /\ fst entry = story_word_overlap story_text (snd entry)) as Hentries.
  { intros entry Hentry. apply in_concat in Hentry as (entries & Hentries & Hentry).
    apply in_map_iff in Hentries as (chunk & <- & Hchunk).
    unfold overlap_entry in Hentry.
    destruct (chunk_embedding chunk) as [[[|x v]|]|] eqn:Hembedding;
      try (cbn in Hentry; contradiction).
    destruct (Nat.ltb_spec 0 (story_word_overlap story_text chunk)) as [Hpos|];
      [|destruct Hentry].
    destruct Hentry as [<-|[]]. cbn [fst snd].
    split; [exact Hchunk|]. split; [exists x, v; exact Hembedding|].
    split; [exact Hpos | reflexivity]. }
  assert (forall entry,
            In entry (Py.slice_to context_window
                        (Py.sorted_reverse Nat.ltb fst similarities)) ->
            In entry similarities) as Hkept.
  { intros entry Hentry. apply slice_to_in in Hentry.
    eapply Permutation_in;
      [apply (sorted_permutation (fun a b => (b <? a)%nat) fst) | exact Hentry]. }
  split; [|split].
  - intros chunk Hchunk. apply in_map_iff in Hchunk as (entry & <- & Hentry).
    destruct (Hentries entry (Hkept entry Hentry)) as (Hin & Hwith & Hpos & _).
    auto.
  - apply (StronglySorted_map
             (in_order (fun a b => (b <? a)%nat) (@fst nat Chunk))).
    + intros a b Ha Hb Hab. unfold in_order in Hab. apply Nat.ltb_ge in Hab.
      destruct (Hentries a (Hkept a Ha)) as (_ & _ & _ & <-).
      destruct (Hentries b (Hkept b Hb)) as (_ & _ & _ & <-).
      exact Hab.
    + apply slice_to_sorted. unfold Py.sorted_reverse.
      apply sorted_ordered;
        [intros a; apply Nat.ltb_irrefl | apply nat_gtb_trans
        | apply nat_gtb_negtrans].
  - intros Hwindow. rewrite length_map. apply slice_to_length, Hwindow.
Qed.


(** ** Normalised text *)

Section Characters.

Lemma lower_char_idempotent (c : ascii) :
  Py.lower_char (Py.lower_char c) = Py.lower_char c.
Proof. destruct c as [[] [] [] [] [] [] [] []]; reflexivity. Qed.

Lemma isword_not_space (c : ascii) : Py.isword c = true -> Py.isspace c = false.
Proof.
  destruct c as [[] [] [] [] [] [] [] []]; vm_compute; intros H;
    first [reflexivity | discriminate H].
Qed.

Lemma normal_char_word (c : ascii) : normal_char c = true -> Py.isword c = true.
Proof. unfold normal_char. intros H. apply andb_true_iff in H as [H _]. exact H. Qed.

Lemma normal_char_not_space (c : ascii) :
  normal_char c = true -> Py.isspace c = false.
Proof. intros H. apply isword_not_space, normal_char_word, H. Qed.

Lemma normal_char_lower (c : ascii) :
  normal_char c = true -> Py.lower_char c = c.
Proof.
  unfold normal_char. intros H. apply andb_true_iff in H as [_ H].
  apply Ascii.eqb_eq, H.
Qed.

End Characters.

Lemma string_append_nil_r (s : string) : s +:+ "" = s.
Proof.
  induction s as [|c s IH]; [reflexivity|].
  change (String c s +:+ "") with (String c (s +:+ "")). rewrite IH. reflexivity.
Qed.

Lemma chars_append (s t : string) :
  list_ascii_of_string (s +:+ t) = list_ascii_of_string s ++ list_ascii_of_string t.
Proof.
  induction s as [|c s IH]; [reflexivity|].
  change (String c s +:+ t) with (String c (s +:+ t)).
  cbn [list_ascii_of_string app]. rewrite IH. reflexivity.
Qed.

(** *** What the steps of [_normalize_text] leave in the text *)

(** After [lower] and the replacement of punctuation, every character is
    white space or a character of a normalised word. *)
Lemma sub_punctuation_lower_chars (text : string) :
  Forall (fun c => Py.isspace c = true \/ normal_char c = true)
    (list_ascii_of_string (Py.sub_punctuation (Py.lower text))).
Proof.
  induction text as [|c text IH]; [constructor|].
  cbn [Py.lower Py.sub_punctuation list_ascii_of_string]. constructor; [|exact IH].
  destruct (Py.isword (Py.lower_char c)) eqn:Hword; cbn [orb].
  - right. unfold normal_char. rewrite Hword, lower_char_idempotent.
    rewrite Ascii.eqb_refl. reflexivity.
  - destruct (Py.isspace (Py.lower_char c)) eqn:Hspace; left;
      [exact Hspace | reflexivity].
Qed.

Lemma sub_whitespace_runs_chars (P : ascii -> Prop) (in_run : bool) (s : string) :
  P " "%char ->
  Forall P (list_ascii_of_string s) ->
  Forall P (list_ascii_of_string (Py.sub_whitespace_runs in_run s)).
Proof.
  intros Hspace. revert in_run.
  induction s as [|c s IH]; intros in_run Hs; [constructor|].
  cbn [list_ascii_of_string] in Hs. apply Forall_cons in Hs as [Hc Hs].
  cbn [Py.sub_whitespace_runs]. destruct (Py.isspace c).
  - destruct in_run; [apply IH, Hs|].
    cbn [list_ascii_of_string]. constructor; [exact Hspace | apply IH, Hs].
  - cbn [list_ascii_of_string]. constructor; [exact Hc | apply IH, Hs].
Qed.

Lemma lstrip_chars (P : ascii -> Prop) (s : string) :
  Forall P (list_ascii_of_string s) ->
  Forall P (list_ascii_of_string (Py.lstrip s)).
Proof.
  induction s as [|c s IH]; intros Hs; [constructor|].
  cbn [Py.lstrip]. destruct (Py.isspace c); [|exact Hs].
  cbn [list_ascii_of_string] in Hs. apply Forall_cons in Hs as [_ Hs]. apply IH, Hs.
Qed.

Lemma rstrip_chars (P : ascii -> Prop) (s : string) :
  Forall P (list_ascii_of_string s) ->
  Forall P (list_ascii_of_string (Py.rstrip s)).
Proof.
  induction s as [|c s IH]; intros Hs; [constructor|].
  cbn [list_ascii_of_string] in Hs. apply Forall_cons in Hs as [Hc Hs].
  cbn [Py.rstrip].
  destruct (negb (Py.nonempty (Py.rstrip s)) && Py.isspace c); [constructor|].
  cbn [list_ascii_of_string]. constructor; [exact Hc | apply IH, Hs].
Qed.

(** The words that [split] finds are not empty and made of the characters
    of the text that are not white space. *)
Lemma split_aux_words (P : ascii -> Prop) (s : string) :
  Forall (fun c => Py.isspace c = true \/ P c) (list_ascii_of_string s) ->
  Forall P (list_ascii_of_string (fst (Py.split_aux s)))
  /\ Forall (fun w => w <> "" /\ Forall P (list_ascii_of_string w))
       (snd (Py.split_aux s)).
Proof.
  induction s as [|c s IH]; intros Hs; [split; constructor|].
  cbn [list_ascii_of_string] in Hs. apply Forall_cons in Hs as [Hc Hs].
  destruct (IH Hs) as [Hw Hws]. cbn [Py.split_aux].
  destruct (Py.split_aux s) as [w ws]. cbn [fst snd] in *.
  destruct (Py.isspace c) eqn:Hspace; cbn [fst snd].
  - split; [constructor|].
    destruct w as [|c' w]; cbn [Py.nonempty]; [exact Hws|].
    constructor; [|exact Hws]. split; [discriminate | exact Hw].
  - split; [|exact Hws]. cbn [list_ascii_of_string]. constructor; [|exact Hw].
    destruct Hc as [Hc|Hc]; [congruence | exact Hc].
Qed.

Lemma split_words (P : ascii -> Prop) (s : string) :
  Forall (fun c => Py.isspace c = true \/ P c) (list_ascii_of_string s) ->
  Forall (fun w => w <> "" /\ Forall P (list_ascii_of_string w)) (Py.split s).
Proof.
  intros Hs. destruct (split_aux_words P s Hs) as [Hw Hws].
  unfold Py.split. destruct (Py.split_aux s) as [w ws]. cbn [fst snd] in *.
  destruct w as [|c w]; cbn [Py.nonempty]; [exact Hws|].
  constructor; [|exact Hws]. split; [discriminate | exact Hw].
Qed.

(** The words of a normalised text. *)
Lemma normalized_words (text : string) :
  Forall normal_word
    (filter (fun word => word ∉ filler_words)
       (Py.split
          (Py.strip
             (Py.sub_whitespace_runs false
                (Py.sub_punctuation (Py.lower text)))))).
Proof.
  apply List.Forall_forall. intros w Hw.
  apply list_elem_of_In, list_elem_of_filter in Hw as [Hfiller Hw].
  assert (Forall (fun w => w <> ""
                           /\ Forall (fun c => normal_char c = true)
                                (list_ascii_of_string w))
            (Py.split
               (Py.strip
                  (Py.sub_whitespace_runs false
                     (Py.sub_punctuation (Py.lower text)))))) as Hwords.
  { apply split_words. unfold Py.strip.
    apply rstrip_chars, lstrip_chars, sub_whitespace_runs_chars;
      [left; reflexivity | apply sub_punctuation_lower_chars]. }
  rewrite List.Forall_forall in Hwords.
  destruct (Hwords w ltac:(apply list_elem_of_In, Hw)) as [Hne Hchars].
  split; [exact Hne|]. split; [exact Hchars | exact Hfiller].
Qed.

(** *** Normalising a text made of normalised words *)

Section JoinedWords.

Lemma join_cons (w w' : string) (words : list string) :
  Py.join " " (w :: w' :: words) = w +:+ String " " (Py.join " " (w' :: words)).
Proof. reflexivity. Qed.

Lemma lower_fixed (s : string) :
  Forall (fun c => Py.lower_char c = c) (list_ascii_of_string s) -> Py.lower s = s.
Proof.
  induction s as [|c s IH]; intros Hs; [reflexivity|].
  cbn [list_ascii_of_string] in Hs. apply Forall_cons in Hs as [Hc Hs].
  cbn [Py.lower]. rewrite Hc, IH by exact Hs. reflexivity.
Qed.

Lemma sub_punctuation_fixed (s : string) :
  Forall (fun c => Py.isword c || Py.isspace c = true) (list_ascii_of_string s) ->
  Py.sub_punctuation s = s.
Proof.
  induction s as [|c s IH]; intros Hs; [reflexivity|].
  cbn [list_ascii_of_string] in Hs. apply Forall_cons in Hs as [Hc Hs].
  cbn [Py.sub_punctuation]. rewrite Hc, IH by exact Hs. reflexivity.
Qed.

Lemma joined_chars (P : ascii -> Prop) (words : list string) :
  P " "%char ->
  Forall (fun w => Forall P (list_ascii_of_string w)) words ->
  Forall P (list_ascii_of_string (Py.join " " words)).
Proof.
  intros Hspace. induction words as [|w [|w' words] IH]; intros Hwords.
  - constructor.
  - apply Forall_cons in Hwords as [Hw _]. exact Hw.
  - apply Forall_cons in Hwords as [Hw Hwords].
    rewrite join_cons, chars_append. apply Forall_app. split; [exact Hw|].
    cbn [list_ascii_of_string]. constructor; [exact Hspace | apply IH, Hwords].
Qed.

(** A word and what follows it. *)
Lemma sub_whitespace_runs_word (w rest : string) (in_run : bool) :
  w <> "" ->
  Forall (fun c => Py.isspace c = false) (list_ascii_of_string w) ->
  Py.sub_whitespace_runs in_run (w +:+ rest)
  = w +:+ Py.sub_whitespace_runs false rest.
Proof.
  revert in_run. induction w as [|c w IH]; intros in_run Hne Hw; [contradiction|].
  cbn [list_ascii_of_string] in Hw. apply Forall_cons in Hw as [Hc Hw].
  change (String c w +:+ rest) with (String c (w +:+ rest)).
  cbn [Py.sub_whitespace_runs]. rewrite Hc.
  change (String c w +:+ Py.sub_whitespace_runs false rest)
    with (String c (w +:+ Py.sub_whitespace_runs false rest)).
  f_equal. destruct w as [|c' w]; [reflexivity|].
  apply IH; [discriminate | exact Hw].
Qed.

Lemma rstrip_word (w rest : string) :
  Forall (fun c => Py.isspace c = false) (list_ascii_of_string w) ->
  Py.rstrip rest = rest ->
  Py.rstrip (w +:+ rest) = w +:+ rest.
Proof.
  intros Hw Hrest. induction w as [|c w IH]; [exact Hrest|].
  cbn [list_ascii_of_string] in Hw. apply Forall_cons in Hw as [Hc Hw].
  change (String c w +:+ rest) with (String c (w +:+ rest)).
  cbn [Py.rstrip]. rewrite (IH Hw), Hc, andb_false_r. reflexivity.
Qed.

Lemma split_aux_word (w rest : string) :
  Forall (fun c => Py.isspace c = false) (list_ascii_of_string w) ->
  Py.split_aux (w +:+ rest)
  = (w +:+ fst (Py.split_aux rest), snd (Py.split_aux rest)).
Proof.
  intros Hw. induction w as [|c w IH].
  - change ("" +:+ rest) with rest. destruct (Py.split_aux rest); reflexivity.
  - cbn [list_ascii_of_string] in Hw. apply Forall_cons in Hw as [Hc Hw].
    change (String c w +:+ rest) with (String c (w +:+ rest)).
    cbn [Py.split_aux]. rewrite (IH Hw), Hc. reflexivity.
Qed.

End JoinedWords.

(** Words without white space. *)
Lemma words_not_space (words : list string) :
  Forall normal_word words ->
  Forall (fun w => w <> ""
                   /\ Forall (fun c => Py.isspace c = false)
                        (list_ascii_of_string w)) words.
Proof.
  intros Hnormal. eapply List.Forall_impl; [|exact Hnormal].
  intros w (Hne & Hchars & _). split; [exact Hne|].
  eapply List.Forall_impl; [|exact Hchars]. apply normal_char_not_space.
Qed.

Lemma joined_lower (words : list string) :
  Forall normal_word words ->
  Py.lower (Py.join " " words) = Py.join " " words.
Proof.
  intros Hnormal. apply lower_fixed, joined_chars; [reflexivity|].
  eapply List.Forall_impl; [|exact Hnormal].
  intros w (_ & Hchars & _).
  eapply List.Forall_impl; [|exact Hchars]. apply normal_char_lower.
Qed.

Lemma joined_sub_punctuation (words : list string) :
  Forall normal_word words ->
  Py.sub_punctuation (Py.join " " words) = Py.join " " words.
Proof.
  intros Hnormal. apply sub_punctuation_fixed, joined_chars; [reflexivity|].
  eapply List.Forall_impl; [|exact Hnormal].
  intros w (_ & Hchars & _).
  eapply List.Forall_impl; [|exact Hchars].
  intros c Hc. rewrite (normal_char_word c Hc). reflexivity.
Qed.

Lemma joined_sub_whitespace_runs (words : list string) :
  Forall (fun w => w <> ""
                   /\ Forall (fun c => Py.isspace c = false)
                        (list_ascii_of_string w)) words ->
  words <> [] ->
  forall in_run,
  Py.sub_whitespace_runs in_run (Py.join " " words) = Py.join " " words.
Proof.
  induction words as [|w [|w' rest] IH]; intros Hwords Hne in_run;
    [contradiction| |].
  - apply Forall_cons in Hwords as [[Hw Hchars] _].
    change (Py.join " " [w]) with w.
    rewrite <- (string_append_nil_r w) at 1.
    rewrite (sub_whitespace_runs_word w "" in_run Hw Hchars).
    apply string_append_nil_r.
  - apply Forall_cons in Hwords as [[Hw Hchars] Hrest].
    rewrite join_cons, (sub_whitespace_runs_word w _ in_run Hw Hchars).
    cbn [Py.sub_whitespace_runs]. change (Py.isspace " ") with true. cbn iota.
    rewrite (IH Hrest ltac:(discriminate) true). reflexivity.
Qed.

Lemma joined_rstrip (words : list string) :
  Forall (fun w => w <> ""
                   /\ Forall (fun c => Py.isspace c = false)
                        (list_ascii_of_string w)) words ->
  words <> [] ->
  Py.rstrip (Py.join " " words) = Py.join " " words
  /\ Py.nonempty (Py.join " " words) = true.
Proof.
  induction words as [|w [|w' rest] IH]; intros Hwords Hne; [contradiction| |].
  - apply Forall_cons in Hwords as [[Hw Hchars] _].
    change (Py.join " " [w]) with w. split.
    + rewrite <- (string_append_nil_r w). apply rstrip_word; [exact Hchars|].
      reflexivity.
    + destruct w; [contradiction | reflexivity].
  - apply Forall_cons in Hwords as [[Hw Hchars] Hrest].
    destruct (IH Hrest ltac:(discriminate)) as [Hstrip Hnonempty].
    rewrite join_cons. split.
    + apply rstrip_word; [exact Hchars|].
      cbn [Py.rstrip]. rewrite Hstrip, Hnonempty. reflexivity.
    + destruct w; [contradiction | reflexivity].
Qed.

Lemma joined_lstrip (words : list string) :
  Forall (fun w => w <> ""
                   /\ Forall (fun c => Py.isspace c = false)
                        (list_ascii_of_string w)) words ->
  Py.lstrip (Py.join " " words) = Py.join " " words.
Proof.
  intros Hwords. destruct words as [|w rest]; [reflexivity|].
  apply Forall_cons in Hwords as [[Hw Hchars] _].
  destruct w as [|c w]; [contradiction|].
  cbn [list_ascii_of_string] in Hchars. apply Forall_cons in Hchars as [Hc _].
  destruct rest as [|w' rest].
  - change (Py.join " " [String c w]) with (String c w).
    cbn [Py.lstrip]. rewrite Hc. reflexivity.
  - rewrite join_cons.
    change (String c w +:+ String " " (Py.join " " (w' :: rest)))
      with (String c (w +:+ String " " (Py.join " " (w' :: rest)))).
    cbn [Py.lstrip]. rewrite Hc. reflexivity.
Qed.

Lemma joined_split_aux (words : list string) :
  Forall (fun w => w <> ""
                   /\ Forall (fun c => Py.isspace c = false)
                        (list_ascii_of_string w)) words ->
  forall w rest, words = w :: rest ->
  Py.split_aux (Py.join " " words) = (w, rest).
Proof.
  induction words as [|w0 [|w' rest'] IH]; intros Hwords w rest Heq;
    [discriminate| |].
  - injection Heq as <- <-.
    apply Forall_cons in Hwords as [[Hw Hchars] _].
    change (Py.join " " [w0]) with w0.
    rewrite <- (string_append_nil_r w0) at 1.
    rewrite (split_aux_word w0 "" Hchars). cbn [Py.split_aux fst snd].
    rewrite string_append_nil_r. reflexivity.
  - injection Heq as <- <-.
    apply Forall_cons in Hwords as [[Hw Hchars] Hrest].
    rewrite join_cons, (split_aux_word w0 _ Hchars).
    cbn [Py.split_aux]. change (Py.isspace " ") with true.
    rewrite (IH Hrest w' rest' eq_refl). cbn [fst snd].
    apply Forall_cons in Hrest as [[Hw' _] _].
    destruct w' as [|c w']; [contradiction|]. cbn [Py.nonempty].
    rewrite string_append_nil_r. reflexivity.
Qed.

Lemma joined_split (words : list string) :
  Forall (fun w => w <> ""
                   /\ Forall (fun c => Py.isspace c = false)
                        (list_ascii_of_string w)) words ->
  Py.split (Py.join " " words) = words.
Proof.
  intros Hwords. destruct words as [|w rest]; [reflexivity|].
  unfold Py.split. rewrite (joined_split_aux (w :: rest) Hwords w rest eq_refl).
  apply Forall_cons in Hwords as [[Hw _] _].
  destruct w; [contradiction | reflexivity].
Qed.

Lemma joined_filter (words : list string) :
  Forall normal_word words ->
  filter (fun word => word ∉ filler_words) words = words.
Proof.
  induction 1 as [|w rest (_ & _ & Hfiller) _ IH]; [reflexivity|].
  rewrite filter_cons_True by exact Hfiller. rewrite IH. reflexivity.
Qed.

Lemma joined_normalize (words : list string) :
  Forall normal_word words ->
  _normalize_text (Py.join " " words) = Py.join " " words.
Proof.
  intros Hnormal. pose proof (words_not_space words Hnormal) as Hwords.
  unfold _normalize_text.
  destruct (decide (words = [])) as [->|Hne]; [reflexivity|].
  destruct (joined_rstrip words Hwords Hne) as [Hrstrip Hnonempty].
  rewrite Hnonempty. cbn [negb].
  rewrite (joined_lower words Hnormal), (joined_sub_punctuation words Hnormal),
    (joined_sub_whitespace_runs words Hwords Hne false).
  unfold Py.strip.
  rewrite (joined_lstrip words Hwords), Hrstrip, (joined_split words Hwords),
    (joined_filter words Hnormal).
  reflexivity.
Qed.

(** X29.  [_normalize_text] returns normalised words joined by single
    spaces: each word is not empty, is made of word characters that
    [lower] leaves unchanged, and is not a filler word.  Normalising a
    second time changes nothing. *)
Theorem normalize_text_idempotent (text : string) :
  (exists words,
     Forall normal_word words /\ _normalize_text text = Py.join " " words)
  /\ _normalize_text (_normalize_text text) = _normalize_text text.
Proof.
  assert (exists words,
            Forall normal_word words /\ _normalize_text text = Py.join " " words)
    as Hwords.
  { unfold _normalize_text. destruct (Py.nonempty text); cbn [negb].
    - eexists. split; [apply normalized_words | reflexivity].
    - exists []. split; [constructor | reflexivity]. }
  split; [exact Hwords|].
  destruct Hwords as (words & Hnormal & ->). apply joined_normalize, Hnormal.
Qed.


(** ** A query that cannot be embedded *)

(** Sorting a list whose keys are all equal leaves it as it is. *)
Lemma sorted_equal_keys {A K} (ltb : K -> K -> bool) (key : A -> K) (l : list A) :
  (forall x y, In x l -> In y l -> ltb (key x) (key y) = false) ->
  Py.sorted ltb key l = l.
Proof.
  induction l as [|x l IH]; intros Hkeys; [reflexivity|].
  cbn [Py.sorted]. rewrite IH by (intros a b Ha Hb; apply Hkeys; right; assumption).
  destruct l as [|y l]; [reflexivity|].
  cbn [Py.insert_sorted].
  rewrite (Hkeys y x) by (cbn [In]; auto). reflexivity.
Qed.

Lemma slice_to_map {A B} (f : A -> B) (k : Z) (l : list A) :
  map f (Py.slice_to k l) = Py.slice_to k (map f l).
Proof.
  unfold Py.slice_to. rewrite length_map.
  destruct (k <? 0)%Z; symmetry; apply firstn_map.
Qed.

Lemma cosine_similarity_zero_norm (np_linalg_norm : list Q -> Q) (vec1 vec2 : list Q) :
  Qeq_bool (np_linalg_norm vec1) 0 = true ->
  _cosine_similarity np_linalg_norm vec1 vec2 = 0%Q.
Proof.
  intros Hzero. unfold _cosine_similarity.
  destruct (np_dot vec1 vec2); [|reflexivity]. rewrite Hzero. reflexivity.
Qed.

Lemma similarities_zero_norm (np_linalg_norm : list Q -> Q)
    (query_embedding : list Q) (chunks : list Chunk) :
  Qeq_bool (np_linalg_norm query_embedding) 0 = true ->
  concat (map (similarity_entry np_linalg_norm query_embedding) chunks)
  = map (fun chunk => (0%Q, chunk)) (List.filter has_embedding chunks).
Proof.
  intros Hzero. induction chunks as [|c chunks IH]; [reflexivity|].
  cbn [map concat List.filter]. rewrite IH.
  unfold similarity_entry, has_embedding.
  destruct (chunk_embedding c) as [[[|x v]|]|]; try reflexivity.
  rewrite (cosine_similarity_zero_norm _ _ _ Hzero). reflexivity.
Qed.

(** X30.  When the embedding provider fails on the query, the query is
    embedded as the zero vector; its norm being zero, every chunk gets
    the similarity [0.0], and [find_similar_chunks] returns the first
    [top_k] chunks that carry an embedding, in pool order. *)
Theorem failed_query_embedding_keeps_pool_order
    (model : string -> Py.result (list Q)) (np_linalg_norm : list Q -> Q)
    (query : string) (chunks : list Chunk) (top_k : Z) (e : string) :
  model query = Py.Raise e ->
  Qeq_bool (np_linalg_norm (repeat 0%Q 768)) 0 = true ->
  find_similar_chunks (Some model) false np_linalg_norm query chunks top_k
  = Py.slice_to top_k (List.filter has_embedding chunks).
Proof.
  intros Hfails Hzero. unfold find_similar_chunks.
  destruct chunks as [|c chunks]; [reflexivity|].
  cbn [asyncio_run]. unfold _generate_embedding. rewrite Hfails.
  rewrite (similarities_zero_norm _ _ _ Hzero).
  unfold Py.sorted_reverse. rewrite sorted_equal_keys.
  - rewrite slice_to_map, map_map. cbn [snd]. rewrite map_id. reflexivity.
  - intros x y Hx Hy.
    apply in_map_iff in Hx as (cx & <- & _).
    apply in_map_iff in Hy as (cy & <- & _). reflexivity.
Qed.

Lemma failed_query_embedding_keeps_pool_order_witness :
  (fun _ : string => @Py.Raise (list Q) "unavailable") dashboard_query
  = Py.Raise "unavailable"
  /\ find_similar_chunks (Some (fun _ => Py.Raise "unavailable")) false
       (fun vector => Py.sum (map Qabs vector)) dashboard_query embedded_pool 5
     = [embedded_chunk 0 "we lose track of documents" [1; 0]%Q;
        embedded_chunk 2 "approvals need a dashboard with reminders" [0; 1]%Q].
Proof.
  split; [reflexivity|].
  apply (failed_query_embedding_keeps_pool_order
           (fun _ => Py.Raise "unavailable")
           (fun vector => Py.sum (map Qabs vector)) dashboard_query embedded_pool 5
           "unavailable" eq_refl).
  vm_compute. reflexivity.
Defined.

